(** * Weather-Logger: the dual-rate telemetry pipeline, embedded and verified

    A shallow embedding of the parts of the RM Young 81000V logger that the
    specification talks about:

    - [weather_logger/config.py]         ([Config]),
    - [weather_logger/utils.py]          ([Utils]),
    - [weather_logger/data_processor.py] ([DataProcessor]),
    - [weather_logger/threads.py]        ([Threads]),
    - [weather_logger/logger.py]         ([Logger]),
    - [weather_logger/serial_handler.py] ([SerialHandler]),
    - [weather_station.py]               ([WeatherStation]),
    - [sdl_high.py], [sdl_low.py]        ([SdlHigh]),

    followed by the vocabulary of the properties ([Vocabulary]), concrete
    runs ([Scenarios]), more of the code ([Downsampling], [NameUpdater],
    [MainLoop], [UdpSender] of [weather_logger/udp_sender.py], and the
    threads over many iterations in [Runs]) and the properties themselves.

    Modelling conventions.

    - A Python [float] is a [pyfloat]: an exact rational ([Qc]) or one of the
      IEEE specials [inf], [-inf], [nan].  [float(str)] has the range of
      binary64 (a text beyond it gives an infinity, one below it zero);
      the rounding of binary64 to 53 bits is not modelled, in conversions or
      in arithmetic.  The integer error count lives among the floats, as the
      float of the same value.
    - A Python [str] is a Rocq [string]; every [ascii] stands for the code
      point of the same number, so texts are limited to code points below
      256.
    - A Python exception is a [Raise] result; [try] and [except] are
      [try_except].
    - Clocks, sockets, the serial line and the random generator are explicit
      inputs of the functions that read them; files and queues are explicit
      state.  A loop of a thread is modelled by its body, one iteration at a
      time, and an iteration reads the shared mode once. *)

From Stdlib Require Import ZArith QArith Qcanon Lia Lqa List Ascii String Bool.
From stdpp Require Import base strings gmap.
Import ListNotations.

Local Open Scope Z_scope.

(** ** Python floats *)

Module PyFloat.

Inductive pyfloat : Type :=
| Fin (q : Qc)
| PInf
| NInf
| NaN.

Definition of_Z (z : Z) : pyfloat := Fin (Q2Qc (inject_Z z)).

(** [m / d] for integer literals, [d] positive. *)
Definition of_frac (m : Z) (d : positive) : pyfloat := Fin (Q2Qc (m # d)).

Definition qc_is_zero (q : Qc) : bool := Qeq_bool (this q) 0.
Definition qc_is_pos (q : Qc) : bool :=
  Qle_bool 0 (this q) && negb (Qeq_bool (this q) 0).

Definition fneg (x : pyfloat) : pyfloat :=
  match x with
  | Fin q => Fin (- q)%Qc
  | PInf => NInf
  | NInf => PInf
  | NaN => NaN
  end.

Definition fadd (x y : pyfloat) : pyfloat :=
  match x, y with
  | NaN, _ | _, NaN => NaN
  | Fin a, Fin b => Fin (a + b)%Qc
  | PInf, NInf | NInf, PInf => NaN
  | PInf, _ | _, PInf => PInf
  | NInf, _ | _, NInf => NInf
  end.

Definition fsub (x y : pyfloat) : pyfloat := fadd x (fneg y).

(** The sign of an infinity scaled by a finite factor; [0 * inf] is [nan]. *)
Definition scale_inf (a : Qc) (inf : pyfloat) : pyfloat :=
  if qc_is_zero a then NaN
  else if qc_is_pos a then inf else fneg inf.

Definition fmul (x y : pyfloat) : pyfloat :=
  match x, y with
  | NaN, _ | _, NaN => NaN
  | Fin a, Fin b => Fin (a * b)%Qc
  | Fin a, i | i, Fin a => scale_inf a i
  | PInf, PInf | NInf, NInf => PInf
  | PInf, NInf | NInf, PInf => NInf
  end.

(** Division.  Every division of the program has a non-zero literal or a
    positive count as divisor; a zero divisor yields [nan] here. *)
Definition fdiv (x y : pyfloat) : pyfloat :=
  match x, y with
  | NaN, _ | _, NaN => NaN
  | Fin a, Fin b => if qc_is_zero b then NaN else Fin (a / b)%Qc
  | Fin _, _ => Fin 0%Qc
  | i, Fin b => if qc_is_zero b then i else scale_inf b i
  | _, _ => NaN
  end.

(** Python's [x > 0], [x == 0], [x <= 0] and [x != y]. *)
Definition gt0 (x : pyfloat) : bool :=
  match x with
  | Fin q => qc_is_pos q
  | PInf => true
  | _ => false
  end.

Definition eq0 (x : pyfloat) : bool :=
  match x with
  | Fin q => qc_is_zero q
  | _ => false
  end.

Definition le0 (x : pyfloat) : bool :=
  match x with
  | Fin q => negb (qc_is_pos q)
  | NInf => true
  | _ => false
  end.

Definition feqb (x y : pyfloat) : bool :=
  match x, y with
  | Fin a, Fin b => Qeq_bool (this a) (this b)
  | PInf, PInf | NInf, NInf => true
  | _, _ => false
  end.

Definition fneb (x y : pyfloat) : bool := negb (feqb x y).

Definition is_nan (x : pyfloat) : bool :=
  match x with NaN => true | _ => false end.

(** Round half to even of the rational [n / d] to an integer. *)
Definition round_half_even (n : Z) (d : positive) : Z :=
  let fl := n / Zpos d in
  let r := n mod Zpos d in
  match 2 * r ?= Zpos d with
  | Lt => fl
  | Gt => fl + 1
  | Eq => if Z.even fl then fl else fl + 1
  end.

(** Python's [round(x, ndigits)] on a float: the decimal with [ndigits]
    places nearest to the value of [x], ties to the even one.  Python
    returns the float nearest to that decimal; here the decimal itself
    stands for it. *)
Definition round_nd (ndigits : nat) (x : pyfloat) : pyfloat :=
  match x with
  | Fin q =>
      let scale := Z.pow 10 (Z.of_nat ndigits) in
      let n := round_half_even (Qnum (this q) * scale) (Qden (this q)) in
      Fin (Q2Qc (n # Z.to_pos scale))
  | other => other
  end.

Fixpoint fsum (l : list pyfloat) : pyfloat :=
  match l with
  | [] => of_Z 0
  | x :: tl => fadd x (fsum tl)
  end.

(** The mean of a pandas float column: missing values ([nan]) are skipped,
    and a column without any value has mean [nan]. *)
Definition mean (l : list pyfloat) : pyfloat :=
  let xs := List.filter (fun x => negb (is_nan x)) l in
  match xs with
  | [] => NaN
  | _ => fdiv (fsum xs) (of_Z (Z.of_nat (List.length xs)))
  end.

End PyFloat.

(** ** Python strings, the [re] pattern language and [float(str)] *)

Module PyStr.
Import PyFloat.

Definition code (c : ascii) : N := N_of_ascii c.

Definition in_range (lo hi : N) (c : ascii) : bool :=
  (N.leb lo (code c) && N.leb (code c) hi)%bool.

Definition is_digit (c : ascii) : bool := in_range 48 57 c.
Definition is_lower (c : ascii) : bool := in_range 97 122 c.
Definition is_char (x c : ascii) : bool := Ascii.eqb x c.

(** [str.isspace] on one character: TAB..CR, FS..US, space, NEL, NBSP. *)
Definition is_space (c : ascii) : bool :=
  (in_range 9 13 c || in_range 28 32 c || N.eqb (code c) 133
   || N.eqb (code c) 160)%bool.

Definition upper_char (c : ascii) : ascii :=
  if is_lower c then ascii_of_N (code c - 32) else c.
Definition lower_char (c : ascii) : ascii :=
  if in_range 65 90 c then ascii_of_N (code c + 32) else c.

Definition chars (s : string) : list ascii := list_ascii_of_string s.
Definition str (l : list ascii) : string := string_of_list_ascii l.

(** [s.upper()].  Only the letters a-z change: no other character below
    code point 256 has an upper-case form among the ASCII letters, except
    the sharp s, whose form "SS" occurs in no word compared here. *)
Definition upper (s : string) : string := str (List.map upper_char (chars s)).

Fixpoint lstrip (l : list ascii) : list ascii :=
  match l with
  | c :: tl => if is_space c then lstrip tl else l
  | [] => []
  end.

Definition strip_chars (l : list ascii) : list ascii :=
  List.rev (lstrip (List.rev (lstrip l))).

(** [s.strip()] *)
Definition strip (s : string) : string := str (strip_chars (chars s)).

(** [s.split()]: the maximal runs of non-whitespace characters. *)
Fixpoint split_chars (cur : list ascii) (l : list ascii) : list (list ascii) :=
  match l with
  | [] => match cur with [] => [] | _ => [List.rev cur] end
  | c :: tl =>
      if is_space c
      then match cur with
           | [] => split_chars [] tl
           | _ => List.rev cur :: split_chars [] tl
           end
      else split_chars (c :: cur) tl
  end.

Definition split (s : string) : list string :=
  List.map str (split_chars [] (chars s)).

(** *** Regular expressions ([re]), matched by derivatives *)

Inductive regex : Type :=
| Void
| Eps
| Class (f : ascii -> bool)
| Cat (r1 r2 : regex)
| Alt (r1 r2 : regex)
| Star (r : regex).

Definition Opt (r : regex) : regex := Alt r Eps.
Definition Plus (r : regex) : regex := Cat r (Star r).

Fixpoint nullable (r : regex) : bool :=
  match r with
  | Void => false
  | Eps => true
  | Class _ => false
  | Cat r1 r2 => nullable r1 && nullable r2
  | Alt r1 r2 => nullable r1 || nullable r2
  | Star _ => true
  end.

Fixpoint deriv (c : ascii) (r : regex) : regex :=
  match r with
  | Void => Void
  | Eps => Void
  | Class f => if f c then Eps else Void
  | Cat r1 r2 =>
      if nullable r1
      then Alt (Cat (deriv c r1) r2) (deriv c r2)
      else Cat (deriv c r1) r2
  | Alt r1 r2 => Alt (deriv c r1) (deriv c r2)
  | Star r1 => Cat (deriv c r1) (Star r1)
  end.

Fixpoint matches (r : regex) (l : list ascii) : bool :=
  match l with
  | [] => nullable r
  | c :: tl => matches (deriv c r) tl
  end.

Definition newline : ascii := ascii_of_N 10.

(** [bool(re.match("^" r "$", s))]: without the MULTILINE flag [$] matches
    at the end of the string and just before a newline that ends it. *)
Definition re_match_anchored (r : regex) (s : string) : bool :=
  let l := chars s in
  matches r l
  || match List.rev l with
     | c :: tl => Ascii.eqb c newline && matches r (List.rev tl)
     | [] => false
     end.

(** *** [float(s)] and [int(s)] on a string *)

(** The whitespace [float] and [int] skip around a number: TAB..CR and
    the space, and NEL and NBSP, which they first turn into spaces.
    Unlike [str.strip] they do not skip FS..US. *)
Definition is_number_space (c : ascii) : bool :=
  (in_range 9 13 c || N.eqb (code c) 32 || N.eqb (code c) 133
   || N.eqb (code c) 160)%bool.

Fixpoint number_lstrip (l : list ascii) : list ascii :=
  match l with
  | c :: tl => if is_number_space c then number_lstrip tl else l
  | [] => []
  end.

Definition number_strip (l : list ascii) : list ascii :=
  List.rev (number_lstrip (List.rev (number_lstrip l))).

Definition is_sign (c : ascii) : bool := is_char "+" c || is_char "-" c.
Definition is_exp (c : ascii) : bool := is_char "e" c || is_char "E" c.

Definition take_sign (l : list ascii) : bool * list ascii :=
  match l with
  | c :: tl => if is_char "-" c then (true, tl)
               else if is_char "+" c then (false, tl) else (false, l)
  | [] => (false, [])
  end.

Fixpoint span_digits (l : list ascii) : list ascii * list ascii :=
  match l with
  | c :: tl =>
      if is_digit c
      then let '(d, r) := span_digits tl in (c :: d, r)
      else ([], l)
  | [] => ([], [])
  end.

Definition digit_val (c : ascii) : Z := Z.of_N (code c) - 48.

Definition digits_val (l : list ascii) : Z :=
  List.fold_left (fun acc c => 10 * acc + digit_val c) l 0.

(** Underscores are accepted between two digits only, and dropped. *)
Fixpoint drop_underscores (prev : option ascii) (l : list ascii)
  : option (list ascii) :=
  match l with
  | [] => match prev with
          | Some p => if is_char "_" p then None else Some []
          | None => Some []
          end
  | c :: tl =>
      let prev_digit := match prev with Some p => is_digit p | None => false end in
      let prev_under := match prev with Some p => is_char "_" p | None => false end in
      if is_char "_" c
      then if prev_digit then drop_underscores (Some c) tl else None
      else if prev_under && negb (is_digit c) then None
           else option_map (cons c) (drop_underscores (Some c) tl)
  end.

(** The range of binary64.  A decimal of magnitude at least
    [2^1024 - 2^970], halfway between the largest float and [2^1024],
    converts to an infinity; one of magnitude at most [2^-1075], half the
    smallest float, converts to zero. *)
Definition overflow_bound : Q := inject_Z (2 ^ 1024 - 2 ^ 970).
Definition underflow_bound : Q := 1 # Z.to_pos (2 ^ 1075).

(** The float of the decimal [m * 10^e], [m >= 0], negated when [neg]. *)
Definition decimal (neg : bool) (m e : Z) : pyfloat :=
  let a := if 0 <=? e then inject_Z (m * 10 ^ e)
           else m # Z.to_pos (10 ^ (- e)) in
  if Qle_bool overflow_bound a then (if neg then NInf else PInf)
  else if Qle_bool a underflow_bound then Fin (Q2Qc 0)
  else Fin (Q2Qc (if neg then - a else a)).

Definition parse_exponent (l : list ascii) : option Z :=
  match l with
  | [] => Some 0
  | c :: tl =>
      if is_exp c
      then let '(eneg, r1) := take_sign tl in
           let '(ed, r2) := span_digits r1 in
           match ed, r2 with
           | _ :: _, [] => Some (if eneg then - digits_val ed else digits_val ed)
           | _, _ => None
           end
      else None
  end.

Definition parse_decimal (neg : bool) (l : list ascii) : option pyfloat :=
  let '(ip, r1) := span_digits l in
  let '(fp, r2) := match r1 with
                   | c :: tl => if is_char "." c then span_digits tl else ([], r1)
                   | [] => ([], [])
                   end in
  match ip ++ fp with
  | [] => None
  | ds => match parse_exponent r2 with
          | Some e => Some (decimal neg (digits_val ds)
                              (e - Z.of_nat (List.length fp)))
          | None => None
          end
  end.

Definition parse_special (neg : bool) (l : list ascii) : option pyfloat :=
  let w := str (List.map lower_char l) in
  if String.eqb w "inf" || String.eqb w "infinity"
  then Some (if neg then NInf else PInf)
  else if String.eqb w "nan" then Some NaN else None.

Definition parse_float_chars (l : list ascii) : option pyfloat :=
  match drop_underscores None (number_strip l) with
  | None => None
  | Some l1 =>
      let '(neg, body) := take_sign l1 in
      match parse_special neg body with
      | Some x => Some x
      | None => parse_decimal neg body
      end
  end.

(** [float(s)]; [None] stands for [ValueError]. *)
Definition py_float (s : string) : option pyfloat := parse_float_chars (chars s).

(** [int(s)] in base 10: an optional sign and digits, with single
    underscores between digits; [None] stands for [ValueError]. *)
Definition py_int (s : string) : option Z :=
  match drop_underscores None (number_strip (chars s)) with
  | None => None
  | Some l1 =>
      let '(neg, body) := take_sign l1 in
      match span_digits body with
      | ([], _) => None
      | (ds, []) => Some (if neg then - digits_val ds else digits_val ds)
      | (_, _ :: _) => None
      end
  end.

End PyStr.

(** ** Python values, exceptions and dictionaries *)

Module Py.
Import PyFloat PyStr.

(** A [datetime], in microseconds since the epoch. *)
Definition datetime : Type := Z.

(** [t.replace(microsecond=0)] *)
Definition truncate_microseconds (t : datetime) : datetime := t - t mod 1000000.

(** The whole second a timestamp falls in. *)
Definition second_of (t : datetime) : Z := t / 1000000.

Inductive pyval : Type :=
| VStr (s : string)
| VNum (x : pyfloat)
| VTime (t : datetime)
| VNone.

Inductive exn : Type :=
| IndexError
| ValueError
| TypeError
| KeyError
| QueueFull
| SystemExit (status : Z).

Inductive result (A : Type) : Type :=
| Ok (a : A)
| Raise (e : exn).
Arguments Ok {A} a.
Arguments Raise {A} e.

Definition bind {A B} (m : result A) (k : A -> result B) : result B :=
  match m with
  | Ok a => k a
  | Raise e => Raise e
  end.

Notation "'do' x <- m ; k" := (bind m (fun x => k))
  (at level 10, x name, m at level 100, k at level 200).

(** [try: body except Exception: handler] *)
Definition try_except {A} (body : result A) (handler : exn -> result A)
  : result A :=
  match body with
  | Ok a => Ok a
  | Raise e => handler e
  end.

(** [values[i]] on a list. *)
Definition index {A} (l : list A) (i : nat) : result A :=
  match List.nth_error l i with
  | Some a => Ok a
  | None => Raise IndexError
  end.

(** [float(v)] *)
Definition to_float (v : pyval) : result pyfloat :=
  match v with
  | VStr s => match py_float s with
              | Some x => Ok x
              | None => Raise ValueError
              end
  | VNum x => Ok x
  | VTime _ | VNone => Raise TypeError
  end.

(** [round(v, 8)] *)
Definition round8 (v : pyval) : result pyval :=
  match v with
  | VNum x => Ok (VNum (round_nd 8 x))
  | _ => Raise TypeError
  end.

(** A [dict] with string keys, in insertion order. *)
Definition pydict : Type := list (string * pyval).

Fixpoint dict_get (d : pydict) (k : string) : option pyval :=
  match d with
  | [] => None
  | (k', v) :: tl => if String.eqb k k' then Some v else dict_get tl k
  end.

(** [d[k] = v] *)
Fixpoint dict_set (d : pydict) (k : string) (v : pyval) : pydict :=
  match d with
  | [] => [(k, v)]
  | (k', v') :: tl =>
      if String.eqb k k' then (k', v) :: tl else (k', v') :: dict_set tl k v
  end.

(** [k in keys] for a list of strings. *)
Definition key_in (k : string) (keys : list string) : bool :=
  List.existsb (String.eqb k) keys.

End Py.

(** ** weather_logger/config.py *)

Module Config.

Definition FIELDNAMES : list string :=
  [ "tNow"; "u_m_s"; "v_m_s"; "w_m_s"; "2dSpeed_m_s"; "3DSpeed_m_s";
    "Azimuth_deg"; "Elev_deg"; "Press_Pa"; "Temp_C"; "Hum_RH";
    "SonicTemp_C"; "Error" ].

(** The process environment, as [os.getenv] reads it once [load_dotenv]
    has run. *)
Definition environ : Type := gmap string string.

(** [os.getenv(name, default)] *)
Definition getenv (env : environ) (name default : string) : string :=
  match env !! name with
  | Some v => v
  | None => default
  end.

(** [HOST = os.getenv("HOST", "localhost")] *)
Definition HOST (env : environ) : string := getenv env "HOST" "localhost".

(** [PORT_STATUS = int(os.getenv("PORT_STATUS", "8251"))] *)
Definition PORT_STATUS (env : environ) : Py.result Z :=
  match PyStr.py_int (getenv env "PORT_STATUS" "8251") with
  | Some p => Py.Ok p
  | None => Py.Raise Py.ValueError
  end.

End Config.

(** ** weather_logger/utils.py *)

Module Utils.
Import PyFloat PyStr Py.

(** [r"^[-+]?[0-9]*\.?[0-9]+([eE][-+]?[0-9]+)?$"], without its anchors. *)
Definition float_pattern : regex :=
  Cat (Opt (Class is_sign))
    (Cat (Star (Class is_digit))
       (Cat (Opt (Class (is_char ".")))
          (Cat (Plus (Class is_digit))
             (Opt (Cat (Class is_exp)
                     (Cat (Opt (Class is_sign)) (Plus (Class is_digit)))))))).

Section Printable.
(** [str.isprintable] on one character: the Unicode category table is
    not part of the repository and is left open. *)
Variable isprintable : ascii -> bool.

(** ["".join(c for c in s if c.isprintable())] *)
Definition printable_only (s : string) : string :=
  str (List.filter isprintable (chars s)).

Definition is_valid_float_string (v : pyval) : bool :=
  match v with
  | VStr s0 =>
      let s := printable_only s0 in
      if String.eqb s "" then false
      else re_match_anchored float_pattern s
  | _ => false
  end.

Definition clean_sensor_value (value_str : pyval) : string :=
  match value_str with
  | VStr s0 =>
      let cleaned := printable_only s0 in
      if is_valid_float_string (VStr cleaned) then cleaned else "0.0"
  | _ => "0.0"
  end.
End Printable.

(** [generate_simulated_data()]; [uniform_str i] is the text
    [str(np.random.uniform(lo, hi))] of the [i]-th draw. *)
Definition generate_simulated_data (uniform_str : nat -> string) : list string :=
  [ uniform_str 0%nat; uniform_str 1%nat; uniform_str 2%nat; uniform_str 3%nat;
    uniform_str 4%nat; uniform_str 5%nat; uniform_str 6%nat; uniform_str 7%nat;
    uniform_str 8%nat; uniform_str 9%nat; uniform_str 10%nat; "0" ].

(** The loop of [round_only_roundable_dict_keys], one key at a time. *)
Fixpoint round_loop (items : pydict) (keys_to_round : list string)
    (my_data_rounded : pydict) : result pydict :=
  match items with
  | [] => Ok my_data_rounded
  | (key, value) :: tl =>
      if key_in key keys_to_round
      then do r <- round8 value;
           round_loop tl keys_to_round (dict_set my_data_rounded key r)
      else round_loop tl keys_to_round (dict_set my_data_rounded key value)
  end.

Definition round_only_roundable_dict_keys (my_data : pydict)
    (keys_to_round : list string) : result pydict :=
  round_loop my_data keys_to_round [].

End Utils.

(** ** weather_logger/data_processor.py *)

Module DataProcessor.
Import PyFloat PyStr Py.

(** The array [processed_values]: capture time, eleven physical values and
    the error count, at the indices 0 .. 12. *)
Record processed : Type := mk_processed {
  p_time : datetime;   (* [0] *)
  p_u : pyfloat;       (* [1] *)
  p_v : pyfloat;       (* [2] *)
  p_w : pyfloat;       (* [3] *)
  p_d2 : pyfloat;      (* [4] *)
  p_d3 : pyfloat;      (* [5] *)
  p_az : pyfloat;      (* [6] *)
  p_ele : pyfloat;     (* [7] *)
  p_press : pyfloat;   (* [8] *)
  p_temp : pyfloat;    (* [9] *)
  p_rh : pyfloat;      (* [10] *)
  p_sonic : pyfloat;   (* [11] *)
  p_err : pyfloat      (* [12] *)
}.

(** One row of the averaging [DataFrame]. *)
Record frame_row : Type := mk_frame_row {
  TIME : datetime;
  U : pyfloat;
  V : pyfloat;
  W : pyfloat;
  d2 : pyfloat;
  d3 : pyfloat;
  Az : pyfloat;
  Ele_deg : pyfloat;
  Press_raw : pyfloat;
  Temp : pyfloat;
  RH : pyfloat;
  Sonic : pyfloat
}.

Definition concat_data (df1 : list frame_row) (data_array : processed)
  : list frame_row :=
  let df2 :=
    [ mk_frame_row (p_time data_array) (p_u data_array) (p_v data_array)
        (p_w data_array) (p_d2 data_array) (p_d3 data_array)
        (p_az data_array) (p_ele data_array) (p_press data_array)
        (p_temp data_array) (p_rh data_array) (p_sonic data_array) ] in
  match df1 with
  | [] => df2
  | _ => df1 ++ df2
  end.

(** The dictionary literal shared by every producer of a log row. *)
Definition row_dict (t : datetime)
    (u v w d2 d3 az ele press temp rh sonic err : pyfloat) : pydict :=
  [ ("tNow", VTime t); ("u_m_s", VNum u); ("v_m_s", VNum v);
    ("w_m_s", VNum w); ("2dSpeed_m_s", VNum d2); ("3DSpeed_m_s", VNum d3);
    ("Azimuth_deg", VNum az); ("Elev_deg", VNum ele); ("Press_Pa", VNum press);
    ("Temp_C", VNum temp); ("Hum_RH", VNum rh); ("SonicTemp_C", VNum sonic);
    ("Error", VNum err) ].

(** The body of the [try] block of [process_raw_data]: the twelve
    conversions, in order, then the three corrections. *)
Definition parse_and_correct (values : list pyval)
  : result (pyfloat * pyfloat * pyfloat * pyfloat * pyfloat * pyfloat
            * pyfloat * pyfloat * pyfloat * pyfloat * pyfloat * pyfloat) :=
  let n := 0%nat in
  do u <- (do x <- index values n; to_float x);
  do v <- (do x <- index values (n + 1); to_float x);
  do w <- (do x <- index values (n + 2); to_float x);
  do d2 <- (do x <- index values (n + 3); to_float x);
  do d3 <- (do x <- index values (n + 4); to_float x);
  do az <- (do x <- index values (n + 5); to_float x);
  do ele <- (do x <- index values (n + 6); to_float x);
  do press_raw <- (do x <- index values (n + 7); to_float x);
  do temp <- (do x <- index values (n + 8); to_float x);
  do rh <- (do x <- index values (n + 9); to_float x);
  do sonic <- (do x <- index values (n + 10); to_float x);
  do err_count <- (do x <- index values (n + 11); to_float x);
  let corrected_press :=
    fmul (fadd (fmul (of_frac 2 100) press_raw) (of_Z 950)) (of_Z 100) in
  let corrected_temp :=
    fsub (fmul (fmul (of_Z 100) (fdiv (of_Z 1) (of_Z 4000))) temp) (of_Z 50) in
  let corrected_rh :=
    fmul (fmul (of_Z 100) (fdiv (of_Z 1) (of_Z 4000))) rh in
  Ok (u, v, w, d2, d3, az, ele, corrected_press, corrected_temp,
      corrected_rh, sonic, err_count).

(** What each [except] clause assigns: zeros, and the incremented count. *)
Definition zeroed (error_count : Z)
  : pyfloat * pyfloat * pyfloat * pyfloat * pyfloat * pyfloat
    * pyfloat * pyfloat * pyfloat * pyfloat * pyfloat * pyfloat :=
  let z := of_Z 0 in
  (z, z, z, z, z, z, z, z, z, z, z, of_Z (error_count + 1)).

(** [process_raw_data(values, error_count)]; [t_now] is the clock reading
    [datetime.now()]. *)
Definition process_raw_data (values : list pyval) (error_count : Z)
    (t_now : datetime) : result (processed * pydict) :=
  do fields <-
    try_except (parse_and_correct values)
      (fun e =>
         match e with
         | IndexError => Ok (zeroed error_count)
         | ValueError => Ok (zeroed error_count)
         | _ => Ok (zeroed error_count)
         end);
  let '(u, v, w, d2, d3, az, ele, corrected_press, corrected_temp,
        corrected_rh, sonic, err_count) := fields in
  let data_dict :=
    row_dict t_now u v w d2 d3 az ele corrected_press corrected_temp
      corrected_rh sonic err_count in
  let processed_values :=
    mk_processed t_now u v w d2 d3 az ele corrected_press corrected_temp
      corrected_rh sonic err_count in
  Ok (processed_values, data_dict).

Definition keys_to_round : list string :=
  [ "u_m_s"; "v_m_s"; "w_m_s"; "2dSpeed_m_s"; "3DSpeed_m_s"; "Azimuth_deg";
    "Elev_deg"; "Press_Pa"; "Temp_C"; "Hum_RH"; "SonicTemp_C"; "Error" ].

Definition prepare_data_for_logging (data_dict : pydict) : result pydict :=
  Utils.round_only_roundable_dict_keys data_dict keys_to_round.

End DataProcessor.

(** ** weather_logger/threads.py *)

Module Threads.
Import PyFloat PyStr Py DataProcessor.

(** Wall-clock readings of [time.time()], in seconds. *)
Definition seconds : Type := Qc.

(** [a - b >= c] on clock readings. *)
Definition elapsed_ge (a b c : seconds) : bool := Qle_bool (this c) (this (a - b)%Qc).

(** *** HighFrequencyLogger *)

Record hf_state : Type := mk_hf_state {
  hf_last_write_time : seconds;
  hf_last_mode : pyfloat;
  hf_mode_changed : bool
}.

Definition hf_initial : hf_state := mk_hf_state 0%Qc (of_Z 0) false.

Definition hf_row (new_data : processed) : pydict :=
  row_dict (p_time new_data) (p_u new_data) (p_v new_data) (p_w new_data)
    (p_d2 new_data) (p_d3 new_data) (p_az new_data) (p_ele new_data)
    (p_press new_data) (p_temp new_data) (p_rh new_data) (p_sonic new_data)
    (p_err new_data).

(** One iteration of the [while] loop of [HighFrequencyLogger.run].
    [mode] is [sdl_mode.value], [current_time] is [time.time()]; the result
    carries the row handed to [data_logger.write_logfile], if any. *)
Definition hf_iteration (high_freq_rate : seconds) (st : hf_state)
    (mode : pyfloat) (current_time : seconds) (data_queue : list processed)
  : result (hf_state * list processed * option pydict) :=
  let current_mode := mode in
  let '(st1, queue1) :=
    if fneb current_mode (hf_last_mode st)
    then (mk_hf_state (hf_last_write_time st) current_mode true, [])
    else (st, data_queue) in
  match queue1 with
  | new_data :: rest =>
      if gt0 mode
      then
        if negb (elapsed_ge current_time (hf_last_write_time st1) high_freq_rate)
        then Ok (st1, queue1, None)
        else
          let st2 := mk_hf_state current_time (hf_last_mode st1) false in
          do rounded_data <- prepare_data_for_logging (hf_row new_data);
          Ok (st2, rest, Some rounded_data)
      else Ok (st1, queue1, None)
  | [] => Ok (st1, queue1, None)
  end.

(** *** StandardLogger *)

Definition buffer_limit : nat := 32.

Record std_state : Type := mk_std_state {
  data_frame : list frame_row;
  last_1hz_update : seconds;
  last_display_update : seconds;
  last_data : option processed;
  std_last_mode : pyfloat;
  std_mode_changed : bool;
  display_counter : Z
}.

Definition std_initial : std_state :=
  mk_std_state [] 0%Qc 0%Qc None (of_Z 0) false 0.

(** [df.iloc[-n:]] *)
Definition iloc_last (n : nat) (df : list frame_row) : list frame_row :=
  List.skipn (List.length df - n) df.

(** [df.resample("1s").mean()] on the [TIME] index: one row per whole
    second from the earliest to the latest, each the column means of the
    rows that fall in that second. *)
Definition bucket (df : list frame_row) (s : Z) : list frame_row :=
  List.filter (fun r => second_of (TIME r) =? s) df.

Definition bucket_mean (df : list frame_row) (s : Z) : frame_row :=
  let b := bucket df s in
  let col (f : frame_row -> pyfloat) := mean (List.map f b) in
  mk_frame_row (s * 1000000) (col U) (col V) (col W) (col d2) (col d3)
    (col Az) (col Ele_deg) (col Press_raw) (col Temp) (col RH) (col Sonic).

Definition resample_1s_mean (df : list frame_row) : list frame_row :=
  match List.map (fun r => second_of (TIME r)) df with
  | [] => []
  | s :: ss =>
      let lo := List.fold_left Z.min ss s in
      let hi := List.fold_left Z.max ss s in
      List.map (fun k => bucket_mean df (lo + Z.of_nat k))
        (List.seq 0 (Z.to_nat (hi - lo + 1)))
  end.

(** The inner [while not data_queue.empty()] loop. *)
Fixpoint drain (pending : list processed) (df : list frame_row)
    (last : option processed) : list frame_row * option processed :=
  match pending with
  | [] => (df, last)
  | data_array :: tl =>
      let df1 := concat_data df data_array in
      let df2 := if (buffer_limit <? List.length df1)%nat
                 then iloc_last buffer_limit df1 else df1 in
      drain tl df2 (Some data_array)
  end.

(** The dictionary [my_data] of one output, [None] when the source leaves
    it unassigned (an empty resample result). *)
Definition my_data_of (enough_data_for_1hz : bool) (df : list frame_row)
    (exact_second_timestamp : datetime) (last : processed) : option pydict :=
  if enough_data_for_1hz
  then match resample_1s_mean df with
       | row0 :: _ =>
           Some (row_dict exact_second_timestamp (U row0) (V row0) (W row0)
                   (d2 row0) (d3 row0) (Az row0) (Ele_deg row0)
                   (Press_raw row0) (Temp row0) (RH row0) (Sonic row0)
                   (p_err last))
       | [] => None
       end
  else Some (row_dict exact_second_timestamp (p_u last) (p_v last) (p_w last)
               (p_d2 last) (p_d3 last) (p_az last) (p_ele last)
               (p_press last) (p_temp last) (p_rh last) (p_sonic last)
               (p_err last)).

Record std_output : Type := mk_std_output {
  displayed : option pydict;   (* the row given to [format_data_display] *)
  written : option pydict      (* the row given to [write_logfile] *)
}.

Definition no_output : std_output := mk_std_output None None.

(** One iteration of the [while] loop of [StandardLogger.run].  [mode] is
    [sdl_mode.value], [current_time] is [time.time()], [now] is
    [datetime.now()], [data_queue] holds what the queue delivers. *)
Definition std_iteration (standard_rate : seconds) (st : std_state)
    (mode : pyfloat) (current_time : seconds) (now : datetime)
    (data_queue : list processed) : std_state * std_output :=
  let current_mode := mode in
  let st1 :=
    if fneb current_mode (std_last_mode st)
    then mk_std_state (data_frame st) (last_1hz_update st)
           (if gt0 current_mode then 0%Qc else last_display_update st)
           (last_data st) current_mode true 0
    else st in
  let enough_data_for_1hz := (buffer_limit <=? List.length (data_frame st1))%nat in
  let time_for_1hz_update :=
    elapsed_ge current_time (last_1hz_update st1) standard_rate in
  let time_for_display :=
    elapsed_ge current_time (last_display_update st1) 1%Qc in
  let '(df, last) := drain data_queue (data_frame st1) (last_data st1) in
  let st2 := mk_std_state df (last_1hz_update st1) (last_display_update st1)
               last (std_last_mode st1) (std_mode_changed st1)
               (display_counter st1) in
  match last with
  | Some last_data_now =>
      if time_for_1hz_update || (gt0 mode && time_for_display)
      then
        let st3 := mk_std_state df
                     (if time_for_1hz_update then current_time
                      else last_1hz_update st2)
                     (if time_for_display then current_time
                      else last_display_update st2)
                     last (std_last_mode st2) (std_mode_changed st2)
                     (display_counter st2) in
        let exact_second_timestamp := truncate_microseconds now in
        match my_data_of enough_data_for_1hz df exact_second_timestamp
                last_data_now with
        | Some my_data =>
            match prepare_data_for_logging my_data with
            | Ok my_data_rounded =>
                let shown := eq0 mode || time_for_display in
                let st4 := mk_std_state df (last_1hz_update st3)
                             (last_display_update st3) last
                             (std_last_mode st3) (std_mode_changed st3)
                             (if shown then display_counter st3 + 1
                              else display_counter st3) in
                (st4,
                 mk_std_output
                   (if shown then Some my_data_rounded else None)
                   (if time_for_1hz_update && eq0 mode
                    then Some my_data_rounded else None))
            | Raise _ => (st3, no_output)
            end
        | None => (st3, no_output)
        end
      else (st2, no_output)
  | None => (st2, no_output)
  end.

(** *** ModeMonitor *)

(** What [select] and [recvfrom] deliver on one poll. *)
Inductive poll : Type :=
| NoDatagram
| SocketError
| Datagram (decoded : option string).   (* [None]: [data.decode()] raises *)

(** A datagram sent with [sendto(msg, (host, port))]. *)
Record sent : Type := mk_sent {
  to_host : string;
  to_port : Z;
  payload : string
}.

Record mode_result : Type := mk_mode_result {
  new_mode : pyfloat;          (* [sdl_mode.value] after the call *)
  mode_change : bool;          (* the returned bool *)
  replies : list sent          (* datagrams sent on the transient socket *)
}.

(** [ModeMonitor.check_mode_command]; [send_ok] tells whether creating the
    response socket and sending on it succeed. *)
Definition check_mode_command (host : string) (incoming : poll)
    (send_ok : bool) (sdl_mode : pyfloat) : mode_result :=
  match incoming with
  | Datagram (Some text) =>
      let command := strip text in
      if String.eqb (upper command) "STATUS"
      then
        let mode_str := if gt0 sdl_mode then "32Hz" else "1Hz" in
        let status_msg := String.append "CURRENT_MODE:" mode_str in
        mk_mode_result sdl_mode false
          (if send_ok then [mk_sent host 8251 status_msg] else [])
      else
        match py_float command with
        | Some new_status =>
            if fneb new_status sdl_mode
            then mk_mode_result new_status true []
            else mk_mode_result sdl_mode false []
        | None => mk_mode_result sdl_mode false []
        end
  | _ => mk_mode_result sdl_mode false []
  end.

End Threads.

(** ** weather_logger/logger.py *)

Module Logger.
Import PyFloat PyStr Py.

(** One line of a CSV log file. *)
Inductive line : Type :=
| HeaderLine (names : list string)
| RowLine (cells : list (option pyval)).

(** The file operations a [DataLogger] performs, in order. *)
Inductive file_op : Type :=
| OpOpen (name : string) (existed : bool)   (* [open(name, "a")] *)
| OpClose (name : string)
| OpWriteHeader (name : string)
| OpWriteRow (name : string) (cells : list (option pyval)).

Record state : Type := mk_state {
  fs : gmap string (list line);   (* the regular files of the disk *)
  fname_prefix : string;
  fd_log : string;                (* the name of the open file *)
  file_exists : bool;
  first_log_line : bool;
  dw_log : option string;         (* the file the [DictWriter] writes to *)
  q_fname : list string;
  name_change_cnt : Z;
  clock_reads : nat;              (* clock readings taken so far *)
  ops : list file_op
}.

Section DataLogger.
Variable log_dir : string.
Variable fieldnames : list string.
(** [datetime.now().strftime(strftime_str)] at the [n]-th reading. *)
Variable strftime_now : nat -> string.

Definition log_path (prefix : string) : string :=
  String.append log_dir
    (String.append "/" (String.append prefix "_weather_station_data.csv")).

(** [fd.write] in append mode. *)
Definition append_line (files : gmap string (list line)) (name : string)
    (l : line) : gmap string (list line) :=
  <[name := default [] (files !! name) ++ [l]]> files.

(** [open_new_logfile_at_current_time]; [open] is taken to succeed (its
    failure ends the process), and the maintenance of the two symbolic
    links, which touches no log file, is left out. *)
Definition open_new_logfile_at_current_time (st : state) : state :=
  let prefix := strftime_now (clock_reads st) in
  let csv_name_log := log_path prefix in
  let existed := bool_decide (is_Some (fs st !! csv_name_log)) in
  mk_state
    (if existed then fs st else <[csv_name_log := []]> (fs st))
    prefix csv_name_log existed true (dw_log st) (q_fname st)
    (name_change_cnt st) (S (clock_reads st))
    (ops st ++ [OpOpen csv_name_log existed]).

(** [DataLogger.__init__] on a disk holding [files]. *)
Definition init (files : gmap string (list line)) : state :=
  open_new_logfile_at_current_time
    (mk_state files "" "" false false None [] 0 0%nat []).

(** One turn of [logfile_name_updater] that saw the prefix change. *)
Definition notify_rotation (st : state) (prefix : string) : state :=
  mk_state (fs st) (fname_prefix st) (fd_log st) (file_exists st)
    (first_log_line st) (dw_log st) (q_fname st ++ [prefix])
    (name_change_cnt st + 1) (clock_reads st) (ops st).

(** The [while not self.q_fname.empty()] loop of [write_logfile]. *)
Fixpoint rotate_pending (pending : list string) (st : state) : state :=
  match pending with
  | [] => st
  | _ :: tl =>
      let closed :=
        mk_state (fs st) (fname_prefix st) (fd_log st) (file_exists st)
          (first_log_line st) (dw_log st) tl (name_change_cnt st + 1)
          (clock_reads st) (ops st ++ [OpClose (fd_log st)]) in
      rotate_pending tl (open_new_logfile_at_current_time closed)
  end.

(** The [if self.first_log_line:] block. *)
Definition write_header_if_first (st : state) : state :=
  if first_log_line st
  then
    let with_header := negb (file_exists st) in
    mk_state
      (if with_header
       then append_line (fs st) (fd_log st) (HeaderLine fieldnames)
       else fs st)
      (fname_prefix st) (fd_log st) (file_exists st) false
      (Some (fd_log st)) (q_fname st) (name_change_cnt st)
      (clock_reads st)
      (if with_header then ops st ++ [OpWriteHeader (fd_log st)]
       else ops st)
  else st.

(** [csv.DictWriter.writerow]: a key outside [fieldnames] is a
    [ValueError]; the cells follow the order of [fieldnames]. *)
Definition csv_cells (data_dict : pydict) : result (list (option pyval)) :=
  if List.forallb (fun kv => key_in (fst kv) fieldnames) data_dict
  then Ok (List.map (dict_get data_dict) fieldnames)
  else Raise ValueError.

(** [write_logfile(data_dict)]: the state afterwards and the exception
    that leaves the call, if any. *)
Definition write_logfile (st : state) (data_dict : pydict)
  : state * option exn :=
  match dict_get data_dict "tNow" with
  | None => (st, Some KeyError)
  | Some _ =>
      let st1 := rotate_pending (q_fname st) st in
      let st2 := write_header_if_first st1 in
      match dw_log st2, csv_cells data_dict with
      | Some name, Ok cells =>
          (mk_state (append_line (fs st2) name (RowLine cells))
             (fname_prefix st2) (fd_log st2) (file_exists st2)
             (first_log_line st2) (dw_log st2) (q_fname st2)
             (name_change_cnt st2) (clock_reads st2)
             (ops st2 ++ [OpWriteRow name cells]),
           None)
      | _, Raise ValueError => (st2, Some (SystemExit (-2)))
      | _, _ => (st2, Some (SystemExit (-1)))
      end
  end.

(** What happens to a logger: the updater thread announces a new prefix,
    or a row is submitted. *)
Inductive event : Type :=
| Rotation (prefix : string)
| Submit (data_dict : pydict).

(** The logger after a sequence of events; it stops at the first call
    that ends the process. *)
Fixpoint run (evs : list event) (st : state) : state :=
  match evs with
  | [] => st
  | Rotation prefix :: tl => run tl (notify_rotation st prefix)
  | Submit d :: tl =>
      match write_logfile st d with
      | (st', Some (SystemExit _)) => st'
      | (st', _) => run tl st'
      end
  end.
End DataLogger.

(** The header discipline, read off a trace of file operations.  The
    open file instance is described by its name, whether the file existed
    when it was opened, and whether anything was written to it since. *)
Definition file_instance : Type := option (string * bool * bool).

(** One operation: [None] when it breaks the discipline.  A header may
    only be the first thing written to an instance whose file did not
    exist when it was opened. *)
Definition header_step (cur : file_instance) (op : file_op)
  : option file_instance :=
  match op, cur with
  | OpOpen name existed, _ => Some (Some (name, existed, false))
  | OpClose _, _ => Some None
  | OpWriteHeader name, Some (open_name, existed, written) =>
      if String.eqb name open_name && negb existed && negb written
      then Some (Some (open_name, existed, true))
      else None
  | OpWriteRow name _, Some (open_name, existed, _) =>
      if String.eqb name open_name
      then Some (Some (open_name, existed, true))
      else None
  | _, None => None
  end.

Fixpoint header_scan (cur : file_instance) (trace : list file_op)
  : option file_instance :=
  match trace with
  | [] => Some cur
  | op :: tl =>
      match header_step cur op with
      | Some next => header_scan next tl
      | None => None
      end
  end.

Definition headers_ok (trace : list file_op) : bool :=
  match header_scan None trace with
  | Some _ => true
  | None => false
  end.

End Logger.

(** ** weather_logger/serial_handler.py *)

Module SerialHandler.
Import PyFloat PyStr Py Utils.

Section ReadData.
Variable isprintable : ascii -> bool.
(** [bytes.decode()]; [None] stands for [UnicodeDecodeError]. *)
Variable decode : string -> option string.
Variable uniform_str : nat -> string.

(** [data.replace(b"\x00", b"")] *)
Definition remove_null_bytes (data : string) : string :=
  str (List.filter (fun c => negb (N.eqb (code c) 0)) (chars data)).

(** [SerialHandler.read_data]: [connected] tells whether [self.serial]
    is set, [line] is what [read_until] returns ([None] when it raises).
    The result is the new [error_count] and the returned pair. *)
Definition read_data (connected : bool) (error_count : Z)
    (line : option string) : Z * (bool * list string) :=
  if connected
  then
    match line with
    | Some data =>
        let data_clean := remove_null_bytes data in
        match decode data_clean with
        | Some text =>
            let data_decoded := strip text in
            let values := split data_decoded in
            if (List.length values <? 12)%nat
            then (error_count + 1,
                  (false, generate_simulated_data uniform_str))
            else
              let cleaned_values :=
                List.map (fun val => clean_sensor_value isprintable (VStr val))
                  values in
              (error_count, (true, cleaned_values))
        | None => (error_count + 1,
                   (false, generate_simulated_data uniform_str))
        end
    | None => (error_count + 1, (false, generate_simulated_data uniform_str))
    end
  else (error_count, (true, generate_simulated_data uniform_str)).
End ReadData.

End SerialHandler.

(** ** weather_station.py *)

Module WeatherStation.
Import PyFloat PyStr Py DataProcessor.

(** A [queue.Queue(maxsize)]. *)
Record bqueue : Type := mk_bqueue {
  maxsize : nat;
  items : list processed
}.

Definition full (q : bqueue) : bool :=
  ((0 <? maxsize q) && (maxsize q <=? List.length (items q)))%nat.

(** [q.put(x, block=False)] *)
Definition put_nowait (q : bqueue) (x : processed) : result bqueue :=
  if full q then Raise QueueFull
  else Ok (mk_bqueue (maxsize q) (items q ++ [x])).

(** [while not q.empty(): q.get_nowait()] *)
Definition clear (q : bqueue) : bqueue := mk_bqueue (maxsize q) [].

Definition queue_high_freq0 : bqueue := mk_bqueue 1000 [].
Definition queue_standard0 : bqueue := mk_bqueue 500 [].
Definition queue_visualization0 : bqueue := mk_bqueue 500 [].

Record queues : Type := mk_queues {
  queue_high_freq : bqueue;
  queue_standard : bqueue;
  queue_visualization : bqueue;
  data_points_count : Z;
  log : list string            (* the messages logged, oldest first *)
}.

(** The high-frequency part: only while the mode is positive. *)
Definition push_high_freq (mode : pyfloat) (qs : queues) (x : processed)
  : queues :=
  if gt0 mode
  then
    match put_nowait (queue_high_freq qs) x with
    | Ok q => mk_queues q (queue_standard qs) (queue_visualization qs)
                (data_points_count qs + 1) (log qs)
    | Raise _ =>
        let cleared := clear (queue_high_freq qs) in
        match put_nowait cleared x with
        | Ok q => mk_queues q (queue_standard qs) (queue_visualization qs)
                    (data_points_count qs + 1)
                    (log qs ++ ["High frequency queue cleared and new data added"])
        | Raise _ =>
            mk_queues cleared (queue_standard qs) (queue_visualization qs)
              (data_points_count qs)
              (log qs ++ ["High frequency queue handling error";
                          "High frequency queue full, skipping data point"])
        end
    end
  else qs.

Definition push_visualization (qs : queues) (x : processed) : queues :=
  match put_nowait (queue_visualization qs) x with
  | Ok q => mk_queues (queue_high_freq qs) (queue_standard qs) q
              (data_points_count qs) (log qs)
  | Raise _ =>
      let cleared := clear (queue_visualization qs) in
      match put_nowait cleared x with
      | Ok q => mk_queues (queue_high_freq qs) (queue_standard qs) q
                  (data_points_count qs)
                  (log qs ++ ["Visualization queue cleared and new data added"])
      | Raise _ =>
          mk_queues (queue_high_freq qs) (queue_standard qs) cleared
            (data_points_count qs)
            (log qs ++ ["Visualization queue handling error"])
      end
  end.

(** The block of [main] that hands one sample to the three queues. *)
Definition enqueue_sample (mode : pyfloat) (qs : queues)
    (processed_values : processed) : queues :=
  let qs1 := push_high_freq mode qs processed_values in
  match put_nowait (queue_standard qs1) processed_values with
  | Ok q =>
      push_visualization
        (mk_queues (queue_high_freq qs1) q (queue_visualization qs1)
           (data_points_count qs1) (log qs1))
        processed_values
  | Raise _ =>
      mk_queues (queue_high_freq qs1) (queue_standard qs1)
        (queue_visualization qs1) (data_points_count qs1)
        (log qs1 ++ ["Standard queue full, skipping data point"])
  end.

End WeatherStation.

(** ** sdl_high.py and sdl_low.py *)

Module SdlHigh.
Import Py Config.

(** [verify_socket.bind((HOST, PORT_STATUS))] in [verify_mode_change]:
    the address on which the operator scripts wait for the answer to
    the STATUS request they send. *)
Definition status_endpoint (env : environ) : result (string * Z) :=
  do p <- PORT_STATUS env; Ok (HOST env, p).

End SdlHigh.

(** * The vocabulary of the properties *)

Module Vocabulary.

Section Calibration.
Import PyFloat PyStr Py DataProcessor.

(** [float(values[i])] *)
Definition field (values : list pyval) (i : nat) : result pyfloat :=
  do x <- index values i; to_float x.

Definition is_ok {A} (r : result A) : bool :=
  match r with Ok _ => true | Raise _ => false end.

(** The first twelve fields exist and all convert to floats. *)
Definition parses12 (values : list pyval) : bool :=
  List.forallb (fun i => is_ok (field values i)) (List.seq 0 12).

(** [round(x, 8)] *)
Definition r8 : pyfloat -> pyfloat := round_nd 8.

(** The earliest whole second among the rows of a frame. *)
Definition earliest_second (df : list frame_row) : Z :=
  match List.map (fun r => second_of (TIME r)) df with
  | [] => 0
  | s :: ss => List.fold_left Z.min ss s
  end.
End Calibration.

Section Queues.
Import DataProcessor WeatherStation.

(** Drain-and-retry: what a push leaves in a queue that clears on
    overflow. *)
Definition pushed_or_restarted (q : bqueue) (x : processed)
  : list processed :=
  if full q then [x] else items q ++ [x].

(** Skip: what a push leaves in a queue that drops the sample on
    overflow. *)
Definition pushed_or_skipped (q : bqueue) (x : processed)
  : list processed :=
  if full q then items q else items q ++ [x].
End Queues.

Section Files.
Import Py Logger.

(** The trace so far obeys the discipline and ends in the instance the
    logger believes to be open; the writer, once made, is bound to it. *)
Definition consistent (st : state) : Prop :=
  exists written,
    header_scan None (ops st)
    = Some (Some (fd_log st, file_exists st, written))
    /\ (first_log_line st = true -> written = false)
    /\ (first_log_line st = false -> dw_log st = Some (fd_log st)).

Definition is_row (l : line) : bool :=
  match l with RowLine _ => true | HeaderLine _ => false end.

Variable fieldnames : list string.

(** How one file may differ between the start of the logger and now: an
    existing file gains rows only; a new file holds rows only, or the
    header followed by rows only. *)
Definition grown (old new : option (list line)) : Prop :=
  match old, new with
  | Some c, Some c' =>
      exists rows, c' = c ++ rows /\ List.forallb is_row rows = true
  | Some _, None => False
  | None, None => True
  | None, Some c' =>
      exists rows,
        List.forallb is_row rows = true
        /\ (c' = rows \/ c' = HeaderLine fieldnames :: rows)
  end.

Variable files : gmap string (list line).

(** Every file has grown lawfully since the logger started on [files],
    the open file exists, and an instance that still awaits its header
    is an empty file the logger created. *)
Definition tracked (st : state) : Prop :=
  (forall name : string, grown (files !! name) (fs st !! name))
  /\ is_Some (fs st !! fd_log st)
  /\ (first_log_line st = true -> file_exists st = false ->
      fs st !! fd_log st = Some [] /\ files !! fd_log st = None)
  /\ (first_log_line st = false -> dw_log st = Some (fd_log st)).
End Files.

Section Text.
Import PyFloat PyStr Py Utils.

Definition all_ascii : list ascii :=
  List.map ascii_of_nat (List.seq 0 256).

(** The words of a regular expression. *)
Inductive lang : regex -> list ascii -> Prop :=
| lang_eps : lang Eps []
| lang_class f c : f c = true -> lang (Class f) [c]
| lang_cat r1 r2 l1 l2 :
    lang r1 l1 -> lang r2 l2 -> lang (Cat r1 r2) (l1 ++ l2)
| lang_alt_l r1 r2 l : lang r1 l -> lang (Alt r1 r2) l
| lang_alt_r r1 r2 l : lang r2 l -> lang (Alt r1 r2) l
| lang_star_nil r : lang (Star r) []
| lang_star_cons r l1 l2 :
    lang r l1 -> lang (Star r) l2 -> lang (Star r) (l1 ++ l2).

Definition all_in (f : ascii -> bool) (l : list ascii) : Prop :=
  List.forallb f l = true.

Definition at_most_one (f : ascii -> bool) (l : list ascii) : Prop :=
  l = [] \/ exists c, l = [c] /\ f c = true.

Definition exponent_part (ex : list ascii) : Prop :=
  ex = [] \/
  exists e sg d,
    ex = e :: sg ++ d /\ is_exp e = true /\ at_most_one is_sign sg
    /\ d <> [] /\ all_in is_digit d.

(** The characters that occur in a word of [float_pattern]. *)
Definition floaty (c : ascii) : bool :=
  is_sign c || is_digit c || is_char "." c || is_exp c.

(** [float(s)] returns a value. *)
Definition float_parseable (s : string) : Prop :=
  exists x, py_float s = Some x.

(** The test [clean_sensor_value] applies to the cleaned text. *)
Definition keeps (isprintable : ascii -> bool) (s : string) : bool :=
  let p := printable_only isprintable s in
  negb (String.eqb p "") && re_match_anchored float_pattern p.

(** ASCII only: the printable characters are SPACE .. TILDE. *)
Definition ascii_printable (c : ascii) : bool := in_range 32 126 c.
End Text.

Section Endpoints.
Import Threads.

(** A datagram is addressed to an endpoint: its host and its port. *)
Definition addressed_to (endpoint : string * Z) (d : sent) : bool :=
  String.eqb (to_host d) (fst endpoint) && Z.eqb (to_port d) (snd endpoint).
End Endpoints.

End Vocabulary.

(** * Concrete runs *)

Module Scenarios.
Import PyFloat PyStr Py DataProcessor Threads WeatherStation.

(** A line of the sensor, split into its twelve fields. *)
Definition sensor_line : list pyval :=
  [ VStr "1.5"; VStr "-2.25"; VStr "0.5"; VStr "2.7"; VStr "2.75";
    VStr "123.4"; VStr "-10"; VStr "3500"; VStr "2900"; VStr "2400";
    VStr "21.5"; VStr "0" ].

(** The sensor line whose twelfth field carries nine decimals. *)
Definition noisy_line : list pyval :=
  [ VStr "1.5"; VStr "-2.25"; VStr "0.5"; VStr "2.7"; VStr "2.75";
    VStr "123.4"; VStr "-10"; VStr "3500"; VStr "2900"; VStr "2400";
    VStr "21.5"; VStr "0.123456789" ].

(** The high-frequency logger once it has seen the mode [1]. *)
Definition hf_running : hf_state := mk_hf_state 0%Qc (of_Z 1) false.

Definition plain_sample : processed :=
  mk_processed 1500000 (of_frac 1 3) (of_Z 0) (of_Z 0) (of_Z 0) (of_Z 0)
    (of_Z 0) (of_Z 0) (of_Z 101325) (of_Z 20) (of_Z 50) (of_Z 21) (of_Z 2).

(** Thirty-two samples taken at 10 Hz whose values count 0, 1, .., 31. *)
Definition ramp_sample (i : nat) : processed :=
  let x := of_Z (Z.of_nat i) in
  mk_processed (Z.of_nat i * 100000) x x x x x x x x x x x (of_Z 0).

Definition ramp32 : list processed := List.map ramp_sample (List.seq 0 32).

(** The standard logger after one cycle that took in the 32 samples. *)
Definition std_filled : std_state :=
  fst (std_iteration 1%Qc std_initial (of_Z 0) (Q2Qc 4) 4000000 ramp32).

Definition stale : processed :=
  let z := of_Z 0 in mk_processed 0 z z z z z z z z z z z z.

Definition fresh : processed :=
  let z := of_Z 1 in mk_processed 1000000 z z z z z z z z z z z z.

(** A standard queue that its consumer has let run full. *)
Definition backlog : queues :=
  mk_queues queue_high_freq0 (mk_bqueue 500 (List.repeat stale 500))
    queue_visualization0 0 [].

(** A logger whose clock shows one day at its first reading and the next
    day afterwards. *)
Definition clock (n : nat) : string :=
  match n with 0%nat => "2025_01_01" | _ => "2025_01_02" end.

Definition day1_file : string :=
  "/var/tmp/wx/2025_01_01_weather_station_data.csv".

Definition one_row : pydict := hf_row plain_sample.

Definition cells_of_row : list (option pyval) :=
  List.map (dict_get one_row) Config.FIELDNAMES.

(** An installation whose [.env] moves the status port. *)
Definition moved_status_port : Config.environ := {[ "PORT_STATUS" := "9000" ]}.

End Scenarios.

(** * More of the code *)

(** ** weather_logger/data_processor.py: [downsample_data] *)

Module Downsampling.
Import PyFloat Py DataProcessor Threads.

(** [df.iloc[-n:]] for any [n]; [-0] is [0], so [n = 0] keeps every row. *)
Definition iloc_tail (n : nat) (df : list frame_row) : list frame_row :=
  match n with
  | O => df
  | _ => List.skipn (List.length df - n) df
  end.

(** [downsample_data(df_data, buffer_limit)]; [None] is Python's [None]. *)
Definition downsample_data (df_data : list frame_row) (buffer_limit : nat)
  : option (list frame_row) :=
  let df_data :=
    if (buffer_limit <? List.length df_data)%nat
    then iloc_tail buffer_limit df_data
    else df_data in
  if (buffer_limit <=? List.length df_data)%nat
  then Some (resample_1s_mean df_data)
  else None.

End Downsampling.

(** ** weather_logger/logger.py: [logfile_name_updater] *)

Module NameUpdater.

(** One turn of the [while] loop: [fname_test] is the formatted current
    time; the result is the local [fname_prefix] and the queue. *)
Definition updater_turn (fname_prefix : string) (q_fname : list string)
    (fname_test : string) : string * list string :=
  if negb (String.eqb fname_prefix fname_test)
  then (fname_test, q_fname ++ [fname_test])
  else (fname_prefix, q_fname).

(** The thread over the clock readings of its successive turns. *)
Fixpoint updater (readings : list string) (fname_prefix : string)
    (q_fname : list string) : string * list string :=
  match readings with
  | [] => (fname_prefix, q_fname)
  | fname_test :: tl =>
      let '(p, q) := updater_turn fname_prefix q_fname fname_test in
      updater tl p q
  end.

End NameUpdater.

(** ** weather_station.py: the pacing of [main] *)

Module MainLoop.
Import PyFloat Py Threads.

Record pace : Type := mk_pace {
  data_interval : seconds;
  last_mode : pyfloat;
  sample_count : Z;
  data_points_count : Z
}.

Section Rates.
Variable HIGH_FREQ_RATE : seconds.
Variable STANDARD_RATE : seconds.

(** The state before the loop. *)
Definition pace_initial : pace :=
  mk_pace (STANDARD_RATE / Q2Qc 10)%Qc (of_Z 0) 0 0.

(** The block "Adjust data collection rate if mode changed";
    [current_mode] is [sdl_mode.value]. *)
Definition adjust_rate (st : pace) (current_mode : pyfloat) : pace :=
  if fneb current_mode (last_mode st)
  then mk_pace
         (if gt0 current_mode then HIGH_FREQ_RATE
          else (STANDARD_RATE / Q2Qc 10)%Qc)
         current_mode 0 0
  else st.

(** The test "Wait until it's time for the next sample": [true] when the
    loop goes on to read the sensor. *)
Definition sample_due (st : pace) (current_time last_data_time : seconds)
  : bool :=
  elapsed_ge current_time last_data_time (data_interval st).
End Rates.

End MainLoop.

(** ** weather_logger/udp_sender.py *)

Module UdpSender.
Import PyFloat Py DataProcessor Threads.

Record sender_state : Type := mk_sender_state {
  last_sent_time : seconds;
  packet_count : Z;
  last_log_time : seconds
}.

(** The dictionary of [_format_data], before it is turned into JSON; the
    timestamp stays a time (its ISO text is not modelled). *)
Definition format_data (data_point : processed) : pydict :=
  [ ("timestamp", VTime (p_time data_point));
    ("u_m_s", VNum (p_u data_point)); ("v_m_s", VNum (p_v data_point));
    ("w_m_s", VNum (p_w data_point)); ("speed_2d", VNum (p_d2 data_point));
    ("speed_3d", VNum (p_d3 data_point)); ("azimuth", VNum (p_az data_point));
    ("elevation", VNum (p_ele data_point));
    ("pressure", VNum (p_press data_point));
    ("temperature", VNum (p_temp data_point));
    ("humidity", VNum (p_rh data_point));
    ("sonic_temp", VNum (p_sonic data_point));
    ("error", VNum (p_err data_point)) ].

Definition min_interval : seconds := Q2Qc (1 # 10).

(** One turn of [_sender_loop]; [send_ok] tells whether [sendto] returns.
    The result carries the dictionary that was sent, if any. *)
Definition sender_turn (st : sender_state) (current_time : seconds)
    (data_queue : list processed) (send_ok : bool)
  : sender_state * list processed * option pydict :=
  if negb (elapsed_ge current_time (last_sent_time st) min_interval)
  then (st, data_queue, None)
  else
    match data_queue with
    | data_point :: rest =>
        let counted := packet_count st + 1 in
        let data_to_send := format_data data_point in
        if send_ok
        then
          if elapsed_ge current_time (last_log_time st) (Q2Qc 10)
          then (mk_sender_state current_time 0 current_time, rest,
                Some data_to_send)
          else (mk_sender_state current_time counted (last_log_time st),
                rest, Some data_to_send)
        else (mk_sender_state (last_sent_time st) counted (last_log_time st),
              rest, None)
    | [] => (st, [], None)
    end.

End UdpSender.

(** ** The threads over many iterations *)

Module Runs.
Import PyFloat Py DataProcessor Threads UdpSender WeatherStation.

(** What one iteration of a consumer sees: the mode, the clock, and the
    samples the producer queued since the iteration before. *)
Record tick : Type := mk_tick {
  tick_mode : pyfloat;
  tick_time : seconds;
  tick_now : datetime;
  arrivals : list processed;
  tick_send_ok : bool
}.

(** The rows the high-frequency logger hands to the writer, each with the
    clock reading of its iteration. *)
Fixpoint hf_run (rate : seconds) (ticks : list tick) (st : hf_state)
    (queue : list processed) : list (seconds * pydict) :=
  match ticks with
  | [] => []
  | tk :: tl =>
      match hf_iteration rate st (tick_mode tk) (tick_time tk)
              (queue ++ arrivals tk) with
      | Ok (st', queue', out) =>
          match out with
          | Some row => (tick_time tk, row) :: hf_run rate tl st' queue'
          | None => hf_run rate tl st' queue'
          end
      | Raise _ => []
      end
  end.

(** The rows the standard logger hands to the writer. *)
Fixpoint std_run (rate : seconds) (ticks : list tick) (st : std_state)
  : list (seconds * pydict) :=
  match ticks with
  | [] => []
  | tk :: tl =>
      let '(st', out) :=
        std_iteration rate st (tick_mode tk) (tick_time tk) (tick_now tk)
          (arrivals tk) in
      match written out with
      | Some row => (tick_time tk, row) :: std_run rate tl st'
      | None => std_run rate tl st'
      end
  end.

(** The dictionaries the visualization sender puts on the wire. *)
Fixpoint sender_run (ticks : list tick) (st : sender_state)
    (queue : list processed) : list (seconds * pydict) :=
  match ticks with
  | [] => []
  | tk :: tl =>
      let '(st', queue', out) :=
        sender_turn st (tick_time tk) (queue ++ arrivals tk)
          (tick_send_ok tk) in
      match out with
      | Some d => (tick_time tk, d) :: sender_run tl st' queue'
      | None => sender_run tl st' queue'
      end
  end.

(** The producer over many samples, each with the mode read for it. *)
Fixpoint enqueue_all (samples : list (pyfloat * processed)) (qs : queues)
  : queues :=
  match samples with
  | [] => qs
  | (mode, x) :: tl => enqueue_all tl (enqueue_sample mode qs x)
  end.

(** The main loop over the successive readings of the mode. *)
Definition adjust_all (hf std : seconds) (modes : list pyfloat)
    (st : MainLoop.pace) : MainLoop.pace :=
  List.fold_left (MainLoop.adjust_rate hf std) modes st.

End Runs.

(** ** The vocabulary of the further properties *)

Module Vocabulary2.
Import PyFloat Py DataProcessor Threads WeatherStation Logger.

(** Successive clock readings lie at least [gap] apart, the first of them
    after [prev]. *)
Fixpoint spaced (gap : seconds) (prev : option seconds)
    (times : list seconds) : bool :=
  match times with
  | [] => true
  | t :: tl =>
      match prev with
      | Some p => elapsed_ge t p gap
      | None => true
      end && spaced gap (Some t) tl
  end.

(** The row [concat_data] appends for a sample. *)
Definition frame_of (x : processed) : frame_row :=
  mk_frame_row (p_time x) (p_u x) (p_v x) (p_w x) (p_d2 x) (p_d3 x)
    (p_az x) (p_ele x) (p_press x) (p_temp x) (p_rh x) (p_sonic x).

(** A queue within its capacity. *)
Definition within_capacity (q : bqueue) : Prop :=
  (maxsize q = 0 \/ List.length (items q) <= maxsize q)%nat.

(** No two neighbours of the list, the first after [prev], are equal. *)
Fixpoint changes (prev : string) (l : list string) : Prop :=
  match l with
  | [] => True
  | x :: tl => x <> prev /\ changes x tl
  end.

(** The maximal runs of equal readings, one reading for each, leaving out
    a first run equal to [prev]. *)
Fixpoint dedup (prev : string) (l : list string) : list string :=
  match l with
  | [] => []
  | x :: tl => if String.eqb prev x then dedup prev tl else x :: dedup x tl
  end.

(** One file handle: a file is opened only when none is open, and closed
    or written only while it is the open one.  [handle_step] gives the
    open file after an operation, [None] when the operation breaks the
    rule. *)
Definition handle_step (cur : option string) (op : file_op)
  : option (option string) :=
  match op, cur with
  | OpOpen name _, None => Some (Some name)
  | OpOpen _ _, Some _ => None
  | OpClose name, Some open_name =>
      if String.eqb name open_name then Some None else None
  | OpWriteHeader name, Some open_name
  | OpWriteRow name _, Some open_name =>
      if String.eqb name open_name then Some cur else None
  | _, None => None
  end.

Fixpoint handle_scan (cur : option string) (trace : list file_op)
  : option (option string) :=
  match trace with
  | [] => Some cur
  | op :: tl =>
      match handle_step cur op with
      | Some next => handle_scan next tl
      | None => None
      end
  end.

Definition one_handle (trace : list file_op) : bool :=
  match handle_scan None trace with
  | Some _ => true
  | None => false
  end.

(** The trace ends with the logger's file open, and the writer, once
    made, is bound to it. *)
Definition handle_held (st : state) : Prop :=
  handle_scan None (ops st) = Some (Some (fd_log st))
  /\ (first_log_line st = false -> dw_log st = Some (fd_log st)).

(** The rows of a trace, in order. *)
Fixpoint rows_written (trace : list file_op) : list (list (option pyval)) :=
  match trace with
  | [] => []
  | OpWriteRow _ cells :: tl => cells :: rows_written tl
  | _ :: tl => rows_written tl
  end.

(** The rows of the submissions among the events, in order. *)
Fixpoint rows_submitted (fieldnames : list string) (evs : list event)
  : list (list (option pyval)) :=
  match evs with
  | [] => []
  | Submit d :: tl =>
      List.map (dict_get d) fieldnames :: rows_submitted fieldnames tl
  | Rotation _ :: tl => rows_submitted fieldnames tl
  end.

(** A submission the writer accepts: it has a timestamp and no key
    outside the schema. *)
Definition well_formed (fieldnames : list string) (ev : event) : bool :=
  match ev with
  | Rotation _ => true
  | Submit d =>
      match dict_get d "tNow" with Some _ => true | None => false end
      && List.forallb (fun kv => key_in (fst kv) fieldnames) d
  end.

(** What [round_only_roundable_dict_keys] makes of one item. *)
Definition rounded_item (keys_to_round : list string) (kv : string * pyval)
  : string * pyval :=
  match kv with
  | (k, VNum x) =>
      if key_in k keys_to_round then (k, VNum (round_nd 8 x)) else kv
  | _ => kv
  end.

(** Every value under a key to round is a number. *)
Definition roundable (keys_to_round : list string) (d : pydict) : bool :=
  List.forallb
    (fun kv => match snd kv with
               | VNum _ => true
               | _ => negb (key_in (fst kv) keys_to_round)
               end) d.

(** The three queues are within their capacities, which are [h], [s]
    and [v]. *)
Definition all_within (h s v : nat) (qs : queues) : Prop :=
  (within_capacity (queue_high_freq qs) /\ maxsize (queue_high_freq qs) = h)
  /\ (within_capacity (queue_standard qs) /\ maxsize (queue_standard qs) = s)
  /\ (within_capacity (queue_visualization qs)
      /\ maxsize (queue_visualization qs) = v).

(** The sampling interval that goes with a mode. *)
Definition interval_for (HIGH_FREQ_RATE STANDARD_RATE : seconds)
    (mode : pyfloat) : seconds :=
  if gt0 mode then HIGH_FREQ_RATE else (STANDARD_RATE / Q2Qc 10)%Qc.

End Vocabulary2.

(** ** More concrete runs *)

Module Scenarios2.
Import PyFloat Py DataProcessor Threads Runs Scenarios.

(** Four turns of the standard logger within 1.5 s, a sample arriving at
    each. *)
Definition busy_second : list tick :=
  [ mk_tick (of_Z 0) (Q2Qc 100) 100000000 [plain_sample] true;
    mk_tick (of_Z 0) (Q2Qc (1001 # 10)) 100100000 [plain_sample] true;
    mk_tick (of_Z 0) (Q2Qc (1009 # 10)) 100900000 [plain_sample] true;
    mk_tick (of_Z 0) (Q2Qc (1015 # 10)) 101500000 [plain_sample] true ].

(** The dictionary of the usage example that ships with the rounding
    function. *)
Definition mixed_data : pydict :=
  [ ("tNow", VTime 1695600000000000); ("var1", VNum (of_frac 3 10));
    ("var2", VNum (of_frac 2000000000004 100000000000));
    ("c", VNum (of_Z 3)); ("myCoolString", VStr "hola, amigo") ].

End Scenarios2.

(** * Properties *)

(** ** Calibration and error accounting ([process_raw_data]) *)

Section ProcessRawData.
Import PyFloat PyStr Py DataProcessor Vocabulary Scenarios.

Lemma Fin_canon (a b : Qc) : (this a == this b)%Q -> Fin a = Fin b.
Proof. intros H. f_equal. apply Qc_is_canon. exact H. Qed.

Lemma hundred_over_4000 :
  fmul (of_Z 100) (fdiv (of_Z 1) (of_Z 4000)) = fdiv (of_Z 100) (of_Z 4000).
Proof. vm_compute. f_equal. Qed.

Lemma parse_and_correct_ok values u v w d2 d3 az ele press_raw temp rh sonic err :
  List.map (field values) (List.seq 0 12)
  = List.map Ok [u; v; w; d2; d3; az; ele; press_raw; temp; rh; sonic; err] ->
  parse_and_correct values
  = Ok (u, v, w, d2, d3, az, ele,
        fmul (fadd (fmul (of_frac 2 100) press_raw) (of_Z 950)) (of_Z 100),
        fsub (fmul (fmul (of_Z 100) (fdiv (of_Z 1) (of_Z 4000))) temp) (of_Z 50),
        fmul (fmul (of_Z 100) (fdiv (of_Z 1) (of_Z 4000))) rh,
        sonic, err).
Proof.
  intros H. cbn [List.map List.seq] in H.
  injection H as H0 H1 H2 H3 H4 H5 H6 H7 H8 H9 H10 H11.
  unfold field in *. unfold parse_and_correct. cbn [Nat.add].
  rewrite H0, H1, H2, H3, H4, H5, H6, H7, H8, H9, H10, H11.
  reflexivity.
Qed.


Lemma parses12_fields values :
  parses12 values = true ->
  exists u v w d2 d3 az ele press_raw temp rh sonic err,
    List.map (field values) (List.seq 0 12)
    = List.map Ok [u; v; w; d2; d3; az; ele; press_raw; temp; rh; sonic; err].
Proof.
  unfold parses12. cbn [List.forallb List.seq List.map].
  intros H.
  repeat match goal with
  | H : context [field values ?i] |- _ =>
      destruct (field values i) as [?x|?e]; cbn [is_ok andb] in H;
      [ | discriminate H ]
  end.
  do 12 eexists. reflexivity.
Qed.


Lemma process_raw_data_ok values error_count t_now
    u v w d2 d3 az ele press_raw temp rh sonic err :
  List.map (field values) (List.seq 0 12)
  = List.map Ok [u; v; w; d2; d3; az; ele; press_raw; temp; rh; sonic; err] ->
  let corrected_press :=
    fmul (fadd (fmul (of_frac 2 100) press_raw) (of_Z 950)) (of_Z 100) in
  let corrected_temp :=
    fsub (fmul (fmul (of_Z 100) (fdiv (of_Z 1) (of_Z 4000))) temp) (of_Z 50) in
  let corrected_rh := fmul (fmul (of_Z 100) (fdiv (of_Z 1) (of_Z 4000))) rh in
  process_raw_data values error_count t_now
  = Ok (mk_processed t_now u v w d2 d3 az ele corrected_press corrected_temp
          corrected_rh sonic err,
        row_dict t_now u v w d2 d3 az ele corrected_press corrected_temp
          corrected_rh sonic err).
Proof.
  intros H. unfold process_raw_data.
  rewrite (parse_and_correct_ok _ _ _ _ _ _ _ _ _ _ _ _ _ H).
  reflexivity.
Qed.


(** C5.  When the twelve raw fields convert to the floats [u .. err], the
    sample holds [pressure = (0.02 * press_raw + 950) * 100],
    [temperature = (100 / 4000) * temp_raw - 50] and
    [humidity = (100 / 4000) * rh_raw], and [u], [v], [w], the two speeds,
    azimuth, elevation and sonic temperature are the converted raw fields,
    unchanged. *)
Theorem calibration_formulas values error_count t_now
    u v w d2 d3 az ele press_raw temp rh sonic err :
  List.map (field values) (List.seq 0 12)
  = List.map Ok [u; v; w; d2; d3; az; ele; press_raw; temp; rh; sonic; err] ->
  exists sample data_dict,
    process_raw_data values error_count t_now = Ok (sample, data_dict)
    /\ p_press sample
       = fmul (fadd (fmul (of_frac 2 100) press_raw) (of_Z 950)) (of_Z 100)
    /\ p_temp sample
       = fsub (fmul (fdiv (of_Z 100) (of_Z 4000)) temp) (of_Z 50)
    /\ p_rh sample = fmul (fdiv (of_Z 100) (of_Z 4000)) rh
    /\ [p_u sample; p_v sample; p_w sample; p_d2 sample; p_d3 sample;
        p_az sample; p_ele sample; p_sonic sample]
       = [u; v; w; d2; d3; az; ele; sonic]
    /\ data_dict
       = row_dict t_now u v w d2 d3 az ele (p_press sample) (p_temp sample)
           (p_rh sample) sonic err.
Proof.
  intros H. do 2 eexists. split.
  - apply (process_raw_data_ok values error_count t_now _ _ _ _ _ _ _ _ _ _ _ _ H).
  - cbn [p_press p_temp p_rh p_u p_v p_w p_d2 p_d3 p_az p_ele p_sonic].
    rewrite hundred_over_4000. repeat split; reflexivity.
Qed.

Lemma calibration_formulas_witness :
  exists sample data_dict,
    process_raw_data sensor_line 7 1000000 = Ok (sample, data_dict)
    /\ p_press sample = of_Z 102000
    /\ p_temp sample = of_frac 45 2
    /\ p_rh sample = of_Z 60.
Proof.
  edestruct (calibration_formulas sensor_line 7 1000000)
    as (sample & data_dict & Hrun & Hp & Ht & Hh & _).
  { vm_compute. reflexivity. }
  exists sample, data_dict. split; [exact Hrun|].
  rewrite Hp, Ht, Hh.
  repeat split; vm_compute; apply Fin_canon; reflexivity.
Defined.


End ProcessRawData.

(** ** Rounding of log rows ([prepare_data_for_logging]) *)

Section Rounding.
Import PyFloat PyStr Py DataProcessor Threads Vocabulary Scenarios.

Lemma prepare_row_dict t u v w d2 d3 az ele press temp rh sonic err :
  prepare_data_for_logging (row_dict t u v w d2 d3 az ele press temp rh sonic err)
  = Ok (row_dict t (r8 u) (r8 v) (r8 w) (r8 d2) (r8 d3) (r8 az) (r8 ele)
          (r8 press) (r8 temp) (r8 rh) (r8 sonic) (r8 err)).
Proof. reflexivity. Qed.

Lemma Qred_integer (z : Z) : Qred (inject_Z z) = inject_Z z.
Proof.
  apply Qred_identity. unfold inject_Z. cbn [Qnum Qden].
  apply Z.gcd_1_r.
Qed.

Lemma round_nd_integer (n : nat) (z : Z) : round_nd n (of_Z z) = of_Z z.
Proof.
  unfold round_nd, of_Z. apply Fin_canon.
  cbn [this Q2Qc]. rewrite !Qred_integer. cbn [inject_Z Qnum Qden].
  unfold round_half_even.
  rewrite Z.mod_1_r, Z.div_1_r. cbn [Z.mul Z.compare].
  rewrite Qred_correct.
  assert (Hpos : 0 < 10 ^ Z.of_nat n) by (apply Z.pow_pos_nonneg; lia).
  unfold Qeq. cbn [Qnum Qden].
  rewrite Z2Pos.id by exact Hpos.
  change (2 * 0 ?= 1) with Lt. cbn iota. unfold inject_Z. cbn [Qnum Qden]. ring.
Qed.

Lemma std_rows_are_rounded rate st mode current_time now queue row :
  written (snd (std_iteration rate st mode current_time now queue)) = Some row
  \/ displayed (snd (std_iteration rate st mode current_time now queue))
     = Some row ->
  exists last u v w d2 d3 az ele press temp rh sonic,
    snd (drain queue (data_frame st) (last_data st)) = Some last
    /\ row = row_dict (truncate_microseconds now) (r8 u) (r8 v) (r8 w)
               (r8 d2) (r8 d3) (r8 az) (r8 ele) (r8 press) (r8 temp)
               (r8 rh) (r8 sonic) (r8 (p_err last)).
Proof.
  unfold std_iteration.
  set (st1 := if fneb mode (std_last_mode st) then _ else st).
  assert (Hdf : data_frame st1 = data_frame st)
    by (subst st1; destruct (fneb mode (std_last_mode st)); reflexivity).
  assert (Hlast : last_data st1 = last_data st)
    by (subst st1; destruct (fneb mode (std_last_mode st)); reflexivity).
  rewrite Hdf, Hlast.
  destruct (drain queue (data_frame st) (last_data st)) as [df last].
  cbn [snd].
  destruct last as [last|]; [|intros [H|H]; discriminate H].
  destruct (_ || _); [|intros [H|H]; discriminate H].
  unfold my_data_of.
  destruct (buffer_limit <=? List.length (data_frame st))%nat.
  - destruct (resample_1s_mean df) as [|row0 rest];
      [intros [H|H]; discriminate H|].
    rewrite prepare_row_dict. cbn [snd written displayed].
    intros [H|H];
      match type of H with
      | (if ?c then _ else _) = _ => destruct c; [|discriminate H]
      end;
      injection H as <-; exists last; do 11 eexists;
      (split; [reflexivity|reflexivity]).
  - rewrite prepare_row_dict. cbn [snd written displayed].
    intros [H|H];
      match type of H with
      | (if ?c then _ else _) = _ => destruct c; [|discriminate H]
      end;
      injection H as <-; exists last; do 11 eexists;
      (split; [reflexivity|reflexivity]).
Qed.

(** C2 (amended).  Preparing a row for logging rounds every numeric field
    to 8 decimals, the Error field included; only the timestamp is carried
    through unchanged.  So the row the high-frequency logger hands to the
    writer holds the time of the dequeued sample and its twelve numbers,
    each rounded; and a row the standard logger writes or displays holds
    the current time cut to whole seconds and twelve rounded numbers, the
    last of them the rounded error value of the most recent sample.  An
    Error value that is a whole number is not changed by the rounding. *)
Theorem logged_row_rounding :
  (forall t u v w d2 d3 az ele press temp rh sonic err,
      prepare_data_for_logging
        (row_dict t u v w d2 d3 az ele press temp rh sonic err)
      = Ok (row_dict t (r8 u) (r8 v) (r8 w) (r8 d2) (r8 d3) (r8 az) (r8 ele)
              (r8 press) (r8 temp) (r8 rh) (r8 sonic) (r8 err)))
  /\ (forall rate st mode now queue st' queue' row,
         hf_iteration rate st mode now queue = Ok (st', queue', Some row) ->
         exists x, List.head (if fneb mode (hf_last_mode st) then [] else queue)
                   = Some x
                   /\ row = row_dict (p_time x) (r8 (p_u x)) (r8 (p_v x))
                              (r8 (p_w x)) (r8 (p_d2 x)) (r8 (p_d3 x))
                              (r8 (p_az x)) (r8 (p_ele x)) (r8 (p_press x))
                              (r8 (p_temp x)) (r8 (p_rh x)) (r8 (p_sonic x))
                              (r8 (p_err x)))
  /\ (forall rate st mode current_time now queue row,
         written (snd (std_iteration rate st mode current_time now queue))
         = Some row
         \/ displayed (snd (std_iteration rate st mode current_time now queue))
            = Some row ->
         exists last u v w d2 d3 az ele press temp rh sonic,
           snd (drain queue (data_frame st) (last_data st)) = Some last
           /\ row = row_dict (truncate_microseconds now) (r8 u) (r8 v) (r8 w)
                      (r8 d2) (r8 d3) (r8 az) (r8 ele) (r8 press) (r8 temp)
                      (r8 rh) (r8 sonic) (r8 (p_err last)))
  /\ (forall count : Z, r8 (of_Z count) = of_Z count).
Proof.
  split; [exact prepare_row_dict|].
  split; [|split; [exact std_rows_are_rounded|exact (round_nd_integer 8)]].
  intros rate st mode now queue st' queue' row. unfold hf_iteration.
  destruct (fneb mode (hf_last_mode st)); cbn [List.head].
  - intros H. discriminate H.
  - destruct queue as [|x rest]; [intros H; discriminate H|].
    destruct (gt0 mode); [|intros H; discriminate H].
    destruct (negb _); [intros H; discriminate H|].
    unfold hf_row. rewrite prepare_row_dict. cbn [bind].
    intros H. injection H as _ _ H. exists x. split; [reflexivity|].
    symmetry. exact H.
Qed.

Lemma logged_row_rounding_witness :
  exists row,
    hf_iteration (Q2Qc (1 # 32)) hf_running (of_Z 1) (Q2Qc 10) [plain_sample]
    = Ok (mk_hf_state (Q2Qc 10) (of_Z 1) false, [], Some row)
    /\ dict_get row "u_m_s" = Some (VNum (r8 (of_frac 1 3)))
    /\ dict_get row "Error" = Some (VNum (r8 (of_Z 2))).
Proof.
  eexists. split; [vm_compute; reflexivity|].
  edestruct (proj1 (proj2 logged_row_rounding) (Q2Qc (1 # 32)) hf_running
               (of_Z 1) (Q2Qc 10) [plain_sample]) as (x & Hx & Hrow).
  { vm_compute. reflexivity. }
  vm_compute in Hx. injection Hx as Hx. subst x.
  split; vm_compute; reflexivity.
Defined.

(** C2, as stated, fails: the Error value [0.123456789] that calibration
    passes on is logged by the high-frequency path as [0.12345679]. *)
Lemma error_field_rounded_counterexample :
  exists sample data_dict row,
    process_raw_data noisy_line 0 1500000 = Ok (sample, data_dict)
    /\ p_err sample = of_frac 123456789 1000000000
    /\ hf_iteration (Q2Qc (1 # 32)) hf_running (of_Z 1) (Q2Qc 10) [sample]
       = Ok (mk_hf_state (Q2Qc 10) (of_Z 1) false, [], Some row)
    /\ dict_get row "Error" = Some (VNum (of_frac 12345679 100000000))
    /\ dict_get row "Error" <> Some (VNum (p_err sample)).
Proof.
  do 3 eexists. split; [vm_compute; reflexivity|].
  split; [vm_compute; apply Fin_canon; reflexivity|].
  split; [vm_compute; reflexivity|].
  split; [vm_compute; f_equal; f_equal; apply Fin_canon; reflexivity|].
  intros H. vm_compute in H. injection H as H. discriminate H.
Qed.

End Rounding.

(** ** The mode controller ([ModeMonitor.check_mode_command]) *)

Section ModeController.
Import PyFloat PyStr Py DataProcessor Threads Vocabulary Scenarios.

Lemma forall_ascii (P : ascii -> bool) :
  List.forallb P all_ascii = true -> forall c, P c = true.
Proof.
  intros H c. rewrite List.forallb_forall in H. apply H.
  rewrite <- (ascii_nat_embedding c). unfold all_ascii.
  apply List.in_map. apply List.in_seq.
  pose proof (nat_ascii_bounded c). lia.
Qed.

Lemma chars_str l : chars (str l) = l.
Proof. apply list_ascii_of_string_of_list_ascii. Qed.

Lemma str_chars s : str (chars s) = s.
Proof. apply string_of_list_ascii_of_string. Qed.

Lemma space_not_lower c : is_space c = true -> upper_char c = c.
Proof.
  intros H.
  pose proof (forall_ascii
                (fun c => implb (is_space c) (Ascii.eqb (upper_char c) c))
                eq_refl c) as Hc.
  cbn beta in Hc. rewrite H in Hc. apply Ascii.eqb_eq. exact Hc.
Qed.

Lemma upper_not_space c x :
  upper_char c = x -> is_space x = false -> is_space c = false.
Proof.
  intros Hu Hx. destruct (is_space c) eqn:Hs; [|reflexivity].
  rewrite (space_not_lower c Hs) in Hu. subst x. congruence.
Qed.

Lemma strip_status text : upper text = "STATUS" -> strip text = text.
Proof.
  intros H. apply (f_equal chars) in H. unfold upper in H.
  rewrite chars_str in H. unfold strip.
  rewrite <- (str_chars text) at 2. f_equal.
  destruct (chars text) as [|c1 [|c2 [|c3 [|c4 [|c5 [|c6 [|c7 l]]]]]]];
    try discriminate H.
  cbn [List.map chars list_ascii_of_string] in H.
  injection H as H1 _ _ _ _ H6.
  apply upper_not_space in H1; [|reflexivity].
  apply upper_not_space in H6; [|reflexivity].
  unfold strip_chars. cbn [lstrip]. rewrite H1.
  cbn [List.rev List.app lstrip]. rewrite H6. reflexivity.
Qed.

Lemma status_branch host text send_ok sdl_mode :
  upper (strip text) = "STATUS" ->
  check_mode_command host (Datagram (Some text)) send_ok sdl_mode
  = mk_mode_result sdl_mode false
      (if send_ok
       then [mk_sent host 8251
               (if gt0 sdl_mode then "CURRENT_MODE:32Hz" else "CURRENT_MODE:1Hz")]
       else []).
Proof.
  intros H. unfold check_mode_command. rewrite H. cbn [String.eqb].
  change (("STATUS" =? "STATUS")%string) with true. cbn iota.
  destruct (gt0 sdl_mode); reflexivity.
Qed.

(** C7.  The monitor that [main] builds on [HOST] answers a datagram
    whose payload is STATUS in any letter case with [CURRENT_MODE:32Hz]
    when the mode is positive (HIGH_FREQUENCY) and [CURRENT_MODE:1Hz]
    otherwise, through the transient socket; the shared mode is left as
    it was and no mode change is reported.  The answer, though, goes to
    port 8251 of the host whatever [PORT_STATUS] the installation
    configures: it is addressed to the status endpoint, where the
    operator scripts wait for it, only under a configured port of 8251. *)
Theorem status_reply_ignores_configured_port
    env text send_ok sdl_mode endpoint :
  upper text = "STATUS" ->
  SdlHigh.status_endpoint env = Ok endpoint ->
  let r := check_mode_command (Config.HOST env) (Datagram (Some text))
             send_ok sdl_mode in
  new_mode r = sdl_mode
  /\ mode_change r = false
  /\ replies r
     = (if send_ok
        then [mk_sent (Config.HOST env) 8251
                (if gt0 sdl_mode then "CURRENT_MODE:32Hz"
                 else "CURRENT_MODE:1Hz")]
        else [])
  /\ List.existsb (addressed_to endpoint) (replies r)
     = send_ok && (snd endpoint =? 8251).
Proof.
  intros H Hep r. subst r.
  rewrite status_branch by (rewrite (strip_status text H); exact H).
  cbn [new_mode mode_change replies].
  repeat split.
  unfold SdlHigh.status_endpoint in Hep.
  destruct (Config.PORT_STATUS env) as [p|e]; [|discriminate].
  cbn in Hep. injection Hep as <-.
  destruct send_ok; [|reflexivity].
  cbn [List.existsb andb]. unfold addressed_to.
  cbn [to_host to_port fst snd].
  rewrite String.eqb_refl, Z.eqb_sym.
  destruct (p =? 8251); reflexivity.
Qed.

Lemma status_reply_ignores_configured_port_witness :
  SdlHigh.status_endpoint moved_status_port = Ok ("localhost", 9000)
  /\ (let r := check_mode_command "localhost" (Datagram (Some "status"))
                 true (of_Z 1) in
      replies r = [mk_sent "localhost" 8251 "CURRENT_MODE:32Hz"]
      /\ List.existsb (addressed_to ("localhost", 9000)) (replies r) = false).
Proof.
  split; [vm_compute; reflexivity|].
  destruct (status_reply_ignores_configured_port moved_status_port
              "status" true (of_Z 1) ("localhost", 9000))
    as (_ & _ & Hr & Ha).
  { vm_compute. reflexivity. }
  { vm_compute. reflexivity. }
  split; [exact Hr | exact Ha].
Defined.

Lemma same_value_once host text send_ok v sdl_mode :
  py_float (strip text) = Some v ->
  feqb v sdl_mode = true ->
  let r := check_mode_command host (Datagram (Some text)) send_ok sdl_mode in
  new_mode r = sdl_mode /\ mode_change r = false.
Proof.
  intros Hv Heq. cbv zeta. unfold check_mode_command.
  destruct (String.eqb (upper (strip text)) "STATUS"); [split; reflexivity|].
  rewrite Hv. unfold fneb. rewrite Heq. split; reflexivity.
Qed.

(** C8.  A mode-set datagram that carries the value the shared mode
    already holds changes nothing, however often it is repeated: after any
    number of such datagrams the mode is the same value, and the next one
    again reports no mode change. *)
Theorem same_mode_value_is_noop host text send_ok v sdl_mode (n : nat) :
  py_float (strip text) = Some v ->
  feqb v sdl_mode = true ->
  let step m := check_mode_command host (Datagram (Some text)) send_ok m in
  let after := Nat.iter n (fun m => new_mode (step m)) sdl_mode in
  after = sdl_mode /\ mode_change (step after) = false.
Proof.
  intros Hv Heq step after. subst after.
  assert (Hiter : Nat.iter n (fun m => new_mode (step m)) sdl_mode = sdl_mode).
  { induction n as [|k IH]; [reflexivity|].
    rewrite Nat.iter_succ, IH.
    apply (same_value_once host text send_ok v sdl_mode Hv Heq). }
  rewrite Hiter. split; [reflexivity|].
  apply (same_value_once host text send_ok v sdl_mode Hv Heq).
Qed.

Lemma same_mode_value_is_noop_witness :
  let step m := check_mode_command "localhost" (Datagram (Some "1")) true m in
  Nat.iter 3 (fun m => new_mode (step m)) (new_mode (step (of_Z 0)))
  = new_mode (step (of_Z 0))
  /\ mode_change (step (of_Z 0)) = true
  /\ mode_change (step (new_mode (step (of_Z 0)))) = false.
Proof.
  intros step.
  destruct (same_mode_value_is_noop "localhost" "1" true
              (new_mode (step (of_Z 0))) (new_mode (step (of_Z 0))) 3)
    as [H1 H2].
  { vm_compute. reflexivity. }
  { vm_compute. reflexivity. }
  split; [exact H1|]. split; [vm_compute; reflexivity|].
  vm_compute. reflexivity.
Defined.

End ModeController.

(** ** The two loggers and the mode ([HighFrequencyLogger], [StandardLogger]) *)

Section Loggers.
Import PyFloat PyStr Py DataProcessor Threads Vocabulary Scenarios.

Lemma std_writes_only_at_zero rate st mode current_time now queue :
  eq0 mode = false ->
  written (snd (std_iteration rate st mode current_time now queue)) = None.
Proof.
  intros H. unfold std_iteration. rewrite H.
  destruct (drain _ _ _) as [df last].
  destruct last as [ld|]; [|reflexivity].
  destruct (_ || _); [|reflexivity].
  destruct (my_data_of _ _ _ _); [|reflexivity].
  destruct (prepare_data_for_logging _); [|reflexivity].
  cbn [snd written]. rewrite andb_false_r. reflexivity.
Qed.

Lemma hf_writes_only_when_positive rate st mode current_time queue :
  gt0 mode = false ->
  exists st' queue',
    hf_iteration rate st mode current_time queue = Ok (st', queue', None).
Proof.
  intros H. unfold hf_iteration. rewrite H.
  destruct (fneb mode (hf_last_mode st)).
  - do 2 eexists. reflexivity.
  - destruct queue; do 2 eexists; reflexivity.
Qed.

(** C3, at the datagram [-1].  The payload converts to a number [v <= 0]
    and the controller stores it and announces the standard mode; from
    then on neither logger hands a row to the writer: the standard logger
    persists only while the stored value equals [0], the high-frequency
    logger only while it is positive. *)
Theorem negative_mode_logs_nothing host send_ok :
  let r := check_mode_command host (Datagram (Some "-1")) send_ok (of_Z 0) in
  py_float "-1" = Some (of_Z (-1))
  /\ le0 (of_Z (-1)) = true
  /\ new_mode r = of_Z (-1)
  /\ mode_change r = true
  /\ (forall rate st current_time now queue,
        written (snd (std_iteration rate st (new_mode r) current_time now queue))
        = None)
  /\ (forall rate st current_time queue,
        exists st' queue',
          hf_iteration rate st (new_mode r) current_time queue
          = Ok (st', queue', None)).
Proof.
  cbv zeta.
  assert (Hm : new_mode (check_mode_command host (Datagram (Some "-1")) send_ok
                           (of_Z 0)) = of_Z (-1)).
  { vm_compute. reflexivity. }
  rewrite Hm.
  split; [vm_compute; reflexivity|].
  split; [vm_compute; reflexivity|].
  split; [reflexivity|].
  split; [vm_compute; reflexivity|].
  split.
  - intros. apply std_writes_only_at_zero. vm_compute. reflexivity.
  - intros. apply hf_writes_only_when_positive. vm_compute. reflexivity.
Qed.

Lemma fold_min_le ss : forall s, List.fold_left Z.min ss s <= s.
Proof.
  induction ss as [|x ss IH]; intros s; cbn [List.fold_left]; [lia|].
  specialize (IH (Z.min s x)). lia.
Qed.

Lemma fold_max_ge ss : forall s, s <= List.fold_left Z.max ss s.
Proof.
  induction ss as [|x ss IH]; intros s; cbn [List.fold_left]; [lia|].
  specialize (IH (Z.max s x)). lia.
Qed.

Lemma resample_head df :
  df <> [] ->
  exists rest,
    resample_1s_mean df = bucket_mean df (earliest_second df) :: rest.
Proof.
  intros Hne. unfold resample_1s_mean, earliest_second.
  destruct df as [|r df]; [congruence|]. cbn [List.map].
  set (s := second_of (TIME r)).
  set (ss := List.map (fun r => second_of (TIME r)) df).
  pose proof (fold_min_le ss s) as Hlo.
  pose proof (fold_max_ge ss s) as Hhi.
  destruct (Z.to_nat (List.fold_left Z.max ss s - List.fold_left Z.min ss s + 1))
    as [|k] eqn:Hk; [lia|].
  cbn [List.seq List.map]. rewrite Z.add_0_r. eexists. reflexivity.
Qed.

Lemma concat_data_length df x :
  List.length (concat_data df x) = S (List.length df).
Proof.
  unfold concat_data. destruct df as [|r df]; [reflexivity|].
  rewrite List.length_app. cbn [List.length]. lia.
Qed.

Lemma iloc_last_length n df :
  (n <= List.length df)%nat -> List.length (iloc_last n df) = n.
Proof. intros H. unfold iloc_last. rewrite List.length_skipn. lia. Qed.

(** The window never exceeds its capacity, and once full it stays full. *)
Lemma drain_length pending : forall df last,
  (List.length df <= buffer_limit)%nat ->
  List.length (fst (drain pending df last))
  = Nat.min buffer_limit (List.length df + List.length pending).
Proof.
  induction pending as [|x tl IH]; intros df last Hle; cbn [drain fst List.length].
  - lia.
  - pose proof (concat_data_length df x) as Hc.
    destruct (Nat.ltb_spec buffer_limit (List.length (concat_data df x))) as [Hlt|Hge].
    + rewrite IH by (rewrite iloc_last_length; lia).
      rewrite iloc_last_length by lia. lia.
    + rewrite IH by lia. lia.
Qed.

Lemma drain_nonempty pending : forall df last,
  df <> [] -> fst (drain pending df last) <> [].
Proof.
  induction pending as [|x tl IH]; intros df last Hne; cbn [drain fst]; [exact Hne|].
  apply IH. pose proof (concat_data_length df x) as Hc.
  destruct (Nat.ltb_spec buffer_limit (List.length (concat_data df x))) as [Hlt|Hge].
  - intros Hnil. apply (f_equal (@List.length _)) in Hnil.
    rewrite iloc_last_length in Hnil by lia. discriminate Hnil.
  - intros Hnil. rewrite Hnil in Hc. discriminate Hc.
Qed.

(** The row of a cycle is always assigned: a window that counted as full
    is not empty, so its resample has a first row. *)
Lemma my_data_assigned enough df t last :
  (enough = true -> df <> []) -> my_data_of enough df t last <> None.
Proof.
  intros H. unfold my_data_of. destruct enough; [|discriminate].
  destruct (resample_head df (H eq_refl)) as [rest ->]. discriminate.
Qed.

(** C1 (amended).  At a persist tick in standard mode, when the window
    already held 32 rows at the start of the cycle, the written row holds,
    for each averaged field, the mean of that field over the window rows
    that fall in the earliest whole second of the window (the first
    wall-clock bucket of the 1-second resample), rounded to 8 decimals;
    its Error is the error value of the most recent sample, rounded to 8
    decimals like the other fields and never averaged; its timestamp is
    the current time cut to whole seconds.  [df] is the window after the
    queue has been drained. *)
Theorem standard_row_is_first_second_mean
    rate st mode current_time now queue df last :
  (buffer_limit <= List.length (data_frame st))%nat ->
  eq0 mode = true ->
  elapsed_ge current_time (last_1hz_update st) rate = true ->
  drain queue (data_frame st) (last_data st) = (df, Some last) ->
  let first_second := bucket df (earliest_second df) in
  let avg (f : frame_row -> pyfloat) := r8 (mean (List.map f first_second)) in
  written (snd (std_iteration rate st mode current_time now queue))
  = Some (row_dict (truncate_microseconds now) (avg U) (avg V) (avg W)
            (avg d2) (avg d3) (avg Az) (avg Ele_deg) (avg Press_raw)
            (avg Temp) (avg RH) (avg Sonic) (r8 (p_err last))).
Proof.
  intros Hfull Hmode Htick Hdrain first_second avg.
  assert (Hne : df <> []).
  { replace df with (fst (drain queue (data_frame st) (last_data st)))
      by (rewrite Hdrain; reflexivity).
    apply drain_nonempty. intros Hnil. rewrite Hnil in Hfull.
    unfold buffer_limit in Hfull. cbn in Hfull. lia. }
  destruct (resample_head df Hne) as [rest Hres].
  unfold std_iteration.
  set (st1 := if fneb mode (std_last_mode st) then _ else st).
  assert (Hdf : data_frame st1 = data_frame st)
    by (subst st1; destruct (fneb mode (std_last_mode st)); reflexivity).
  assert (Hlast : last_data st1 = last_data st)
    by (subst st1; destruct (fneb mode (std_last_mode st)); reflexivity).
  assert (Hupd : last_1hz_update st1 = last_1hz_update st)
    by (subst st1; destruct (fneb mode (std_last_mode st)); reflexivity).
  rewrite Hdf, Hlast, Hupd, Hdrain, Htick, Hmode.
  destruct (Nat.leb_spec buffer_limit (List.length (data_frame st))) as [_|Hlt];
    [|lia].
  cbn [orb]. unfold my_data_of. rewrite Hres.
  rewrite prepare_row_dict. cbn [snd written andb]. reflexivity.
Qed.

Lemma standard_row_is_first_second_mean_witness :
  exists row,
    written (snd (std_iteration 1%Qc std_filled (of_Z 0) (Q2Qc 5) 5000000 []))
    = Some row
    /\ dict_get row "tNow" = Some (VTime 5000000).
Proof.
  eexists. split.
  - eapply (standard_row_is_first_second_mean 1%Qc std_filled (of_Z 0)
              (Q2Qc 5) 5000000 []).
    + vm_compute. lia.
    + vm_compute. reflexivity.
    + vm_compute. reflexivity.
    + vm_compute. reflexivity.
  - vm_compute. reflexivity.
Defined.

(** C1, as stated, fails: with the 32 samples in the window, the persist
    tick writes [u = 4.5], the mean of the ten samples of the first second,
    while the mean over the whole window is [15.5]. *)
Lemma window_mean_counterexample :
  List.length (data_frame std_filled) = 32%nat
  /\ (exists row,
        written (snd (std_iteration 1%Qc std_filled (of_Z 0) (Q2Qc 5) 5000000 []))
        = Some row
        /\ dict_get row "u_m_s" = Some (VNum (of_frac 9 2)))
  /\ r8 (mean (List.map U (data_frame std_filled))) = of_frac 31 2
  /\ of_frac 9 2 <> of_frac 31 2.
Proof.
  split; [vm_compute; reflexivity|].
  split.
  - eexists. split; [vm_compute; reflexivity|].
    vm_compute. f_equal. f_equal. apply Fin_canon. reflexivity.
  - split.
    + vm_compute. apply Fin_canon. reflexivity.
    + intros H. vm_compute in H. injection H as H. discriminate H.
Qed.

End Loggers.

(** ** Handing a sample to the queues ([main]) *)

Section Queues.
Import PyFloat PyStr Py DataProcessor WeatherStation Vocabulary Scenarios.

Lemma put_after_clear q x :
  full q = true -> put_nowait (clear q) x = Ok (mk_bqueue (maxsize q) [x]).
Proof.
  unfold full, put_nowait, clear, full. cbn [maxsize items List.length].
  intros H. apply andb_prop in H as [Hpos _]. rewrite Hpos.
  apply Nat.ltb_lt in Hpos.
  destruct (Nat.leb_spec (maxsize q) 0) as [Hle|_]; [lia|reflexivity].
Qed.

Lemma put_full q x : full q = true -> put_nowait q x = Raise QueueFull.
Proof. intros H. unfold put_nowait. rewrite H. reflexivity. Qed.

Lemma put_room q x :
  full q = false ->
  put_nowait q x = Ok (mk_bqueue (maxsize q) (items q ++ [x])).
Proof. intros H. unfold put_nowait. rewrite H. reflexivity. Qed.

Lemma push_high_freq_items mode qs x :
  let qs' := push_high_freq mode qs x in
  items (queue_high_freq qs')
  = (if gt0 mode then pushed_or_restarted (queue_high_freq qs) x
     else items (queue_high_freq qs))
  /\ queue_standard qs' = queue_standard qs
  /\ queue_visualization qs' = queue_visualization qs.
Proof.
  cbv zeta. unfold push_high_freq, pushed_or_restarted.
  destruct (gt0 mode); [|repeat split].
  destruct (full (queue_high_freq qs)) eqn:Hfull.
  - rewrite (put_full _ x Hfull), (put_after_clear _ x Hfull). repeat split.
  - rewrite (put_room _ x Hfull). repeat split.
Qed.

Lemma push_visualization_items qs x :
  let qs' := push_visualization qs x in
  items (queue_visualization qs') = pushed_or_restarted (queue_visualization qs) x
  /\ queue_standard qs' = queue_standard qs
  /\ queue_high_freq qs' = queue_high_freq qs.
Proof.
  cbv zeta. unfold push_visualization, pushed_or_restarted.
  destruct (full (queue_visualization qs)) eqn:Hfull.
  - rewrite (put_full _ x Hfull), (put_after_clear _ x Hfull). repeat split.
  - rewrite (put_room _ x Hfull). repeat split.
Qed.

(** C4 (amended).  Handing a sample to the queues never blocks and always
    returns.  The high-frequency queue (fed only while the mode is
    positive) and the visualization queue take the sample when they have
    room and, when full, are drained completely before the push is
    retried once, which then succeeds.  The standard queue takes the
    sample when it has room; when it is full the sample is skipped with
    the warning "Standard queue full, skipping data point" and the queue
    is left as it is, neither drained nor retried. *)
Theorem enqueue_sample_policy mode qs x :
  let qs' := enqueue_sample mode qs x in
  items (queue_high_freq qs')
  = (if gt0 mode then pushed_or_restarted (queue_high_freq qs) x
     else items (queue_high_freq qs))
  /\ items (queue_standard qs') = pushed_or_skipped (queue_standard qs) x
  /\ (if full (queue_standard qs)
      then exists earlier,
          log qs' = earlier ++ ["Standard queue full, skipping data point"]
      else items (queue_visualization qs')
           = pushed_or_restarted (queue_visualization qs) x).
Proof.
  cbv zeta. unfold enqueue_sample, pushed_or_skipped.
  destruct (push_high_freq_items mode qs x) as (Hhf & Hstd & Hviz).
  cbv zeta in Hhf, Hstd, Hviz.
  rewrite Hstd.
  destruct (full (queue_standard qs)) eqn:Hfull.
  - rewrite (put_full _ x Hfull).
    cbn [queue_high_freq queue_standard queue_visualization log].
    rewrite ?Hhf, ?Hstd, ?Hviz. repeat split. eexists. reflexivity.
  - rewrite (put_room _ x Hfull).
    match goal with
    | |- context [push_visualization ?q x] =>
        destruct (push_visualization_items q x) as (Hv & Hs & Hh)
    end.
    cbv zeta in Hv, Hs, Hh. rewrite Hv, Hs, Hh.
    cbn [queue_high_freq queue_standard queue_visualization items].
    rewrite ?Hhf, ?Hviz. repeat split.
Qed.

(** C4, as stated, fails for the standard queue: pushed onto the full
    queue, the fresh sample is dropped and the 500 stale samples stay;
    draining and retrying would have left the fresh sample alone in it. *)
Lemma standard_queue_counterexample :
  full (queue_standard backlog) = true
  /\ items (queue_standard (enqueue_sample (of_Z 0) backlog fresh))
     = List.repeat stale 500
  /\ items (queue_standard (enqueue_sample (of_Z 0) backlog fresh)) <> [fresh].
Proof.
  split; [vm_compute; reflexivity|].
  split; [vm_compute; reflexivity|].
  intros H. apply (f_equal (@List.length _)) in H.
  vm_compute in H. discriminate H.
Qed.

End Queues.

(** ** The CSV header of a log file ([DataLogger.write_logfile]) *)

Section Header.
Import PyFloat PyStr Py Logger Vocabulary Scenarios.

Variable log_dir : string.
Variable fieldnames : list string.
Variable strftime_now : nat -> string.

Lemma header_scan_app a : forall cur b,
  header_scan cur (a ++ b)
  = match header_scan cur a with
    | Some next => header_scan next b
    | None => None
    end.
Proof.
  induction a as [|op a IH]; intros cur b; cbn [header_scan List.app]; [reflexivity|].
  destruct (header_step cur op); [apply IH|reflexivity].
Qed.

Lemma open_consistent st cur :
  header_scan None (ops st) = Some cur ->
  consistent (open_new_logfile_at_current_time log_dir strftime_now st).
Proof.
  intros H. exists false. unfold open_new_logfile_at_current_time.
  cbn [ops fd_log file_exists first_log_line dw_log].
  rewrite header_scan_app, H. cbn [header_scan header_step].
  repeat split. intros Hf. discriminate Hf.
Qed.

Lemma rotate_consistent pending : forall st,
  consistent st ->
  consistent (rotate_pending log_dir strftime_now pending st).
Proof.
  induction pending as [|p tl IH]; intros st Hst; cbn [rotate_pending]; [exact Hst|].
  apply IH. destruct Hst as (w & Hscan & _).
  apply (open_consistent _ None). cbn [ops].
  rewrite header_scan_app, Hscan. reflexivity.
Qed.

Lemma header_consistent st :
  consistent st ->
  consistent (write_header_if_first fieldnames st)
  /\ first_log_line (write_header_if_first fieldnames st) = false.
Proof.
  intros (w & Hscan & Hfirst & Hdw). unfold write_header_if_first.
  destruct (first_log_line st) eqn:Hf.
  2:{ split; [|exact Hf]. exists w. rewrite Hf.
      split; [exact Hscan|]. split; assumption. }
  rewrite (Hfirst eq_refl) in Hscan.
  split; [|reflexivity].
  destruct (file_exists st) eqn:He; cbn [negb].
  - exists false. cbn [ops fd_log file_exists first_log_line dw_log].
    rewrite ?He. split; [exact Hscan|]. split; intros _; reflexivity.
  - exists true. cbn [ops fd_log file_exists first_log_line dw_log].
    rewrite header_scan_app, Hscan. cbn [header_scan header_step].
    rewrite String.eqb_refl, ?He. cbn [negb andb].
    split; [reflexivity|]. split; [intros Hc; discriminate Hc|].
    intros _. reflexivity.
Qed.

Lemma write_consistent st data_dict :
  consistent st ->
  consistent (fst (write_logfile log_dir fieldnames strftime_now st data_dict)).
Proof.
  intros Hst. unfold write_logfile.
  destruct (dict_get data_dict "tNow"); [|exact Hst].
  pose proof (rotate_consistent (q_fname st) st Hst) as Hrot.
  destruct (header_consistent _ Hrot) as [Hhead Hfl].
  set (st2 := write_header_if_first fieldnames _) in *.
  destruct Hhead as (w & Hscan & Hfirst & Hdw).
  rewrite (Hdw Hfl).
  destruct (csv_cells fieldnames data_dict) as [cells|e].
  - cbn [fst]. exists true.
    cbn [ops fd_log file_exists first_log_line dw_log].
    rewrite header_scan_app, Hscan. cbn [header_scan header_step].
    rewrite String.eqb_refl. split; [reflexivity|].
    split; [intros Hc; rewrite Hfl in Hc; discriminate Hc|].
    intros _. reflexivity.
  - destruct e; cbn [fst]; exists w; auto.
Qed.

Lemma notify_consistent st prefix :
  consistent st -> consistent (notify_rotation st prefix).
Proof. intros (w & H). exists w. exact H. Qed.

Lemma run_consistent evs : forall st,
  consistent st ->
  consistent (run log_dir fieldnames strftime_now evs st).
Proof.
  induction evs as [|ev tl IH]; intros st Hst; cbn [run]; [exact Hst|].
  destruct ev as [prefix|d].
  - apply IH, notify_consistent, Hst.
  - pose proof (write_consistent st d Hst) as Hw.
    destruct (write_logfile log_dir fieldnames strftime_now st d) as [st' [e|]];
      cbn [fst] in Hw.
    + destruct e; try (apply IH; exact Hw). exact Hw.
    + apply IH. exact Hw.
Qed.

(** *** The same discipline, read off the files *)

Lemma grown_row old c cells :
  grown fieldnames old (Some c) ->
  grown fieldnames old (Some (c ++ [RowLine cells])).
Proof.
  destruct old as [c0|]; cbn [grown].
  - intros (rows & -> & Hrows). exists (rows ++ [RowLine cells]).
    rewrite List.app_assoc, List.forallb_app, Hrows. split; reflexivity.
  - intros (rows & Hrows & [->| ->]); exists (rows ++ [RowLine cells]);
      rewrite List.forallb_app, Hrows; (split; [reflexivity|]);
      [left|right]; reflexivity.
Qed.

Section Files.
Variable files : gmap string (list line).

Lemma open_tracked st :
  (forall name : string,
      grown fieldnames (files !! name) (fs st !! name)) ->
  tracked fieldnames files
    (open_new_logfile_at_current_time log_dir strftime_now st).
Proof.
  intros Hg. unfold open_new_logfile_at_current_time.
  set (n := log_path log_dir (strftime_now (clock_reads st))).
  unfold tracked. cbn [fs fd_log file_exists first_log_line dw_log].
  destruct (bool_decide (is_Some (fs st !! n))) eqn:Hex.
  - apply bool_decide_eq_true in Hex.
    split; [exact Hg|]. split; [exact Hex|].
    split; intros H1; [intros H2|]; discriminate.
  - apply bool_decide_eq_false in Hex.
    assert (Hnone : fs st !! n = None).
    { destruct (fs st !! n) eqn:E; [|reflexivity].
      exfalso. apply Hex. eexists. reflexivity. }
    assert (Hold : files !! n = None).
    { specialize (Hg n). rewrite Hnone in Hg.
      destruct (files !! n); [destruct Hg|reflexivity]. }
    split.
    + intros name. destruct (decide (n = name)) as [<-|Hne].
      * rewrite lookup_insert_eq, Hold. exists []. split; [reflexivity|].
        left. reflexivity.
      * rewrite lookup_insert_ne by exact Hne. apply Hg.
    + rewrite lookup_insert_eq. split; [eexists; reflexivity|].
      split; [auto|]. intros H1. discriminate.
Qed.

Lemma rotate_tracked pending : forall st,
  tracked fieldnames files st ->
  tracked fieldnames files
    (rotate_pending log_dir strftime_now pending st).
Proof.
  induction pending as [|p tl IH]; intros st Hst; cbn [rotate_pending];
    [exact Hst|].
  apply IH. apply open_tracked. cbn [fs]. apply Hst.
Qed.

Lemma header_tracked st :
  tracked fieldnames files st ->
  tracked fieldnames files (write_header_if_first fieldnames st)
  /\ first_log_line (write_header_if_first fieldnames st) = false.
Proof.
  intros (Hg & Hopen & Hfresh & Hdw). unfold write_header_if_first.
  destruct (first_log_line st) eqn:Hf.
  2:{ split; [|exact Hf]. unfold tracked. rewrite Hf. auto. }
  split; [|reflexivity].
  unfold tracked. cbn [fs fd_log file_exists first_log_line dw_log].
  destruct (file_exists st) eqn:He; cbn [negb].
  - split; [exact Hg|]. split; [exact Hopen|].
    split; [intros H1; discriminate|reflexivity].
  - destruct (Hfresh eq_refl eq_refl) as [Hempty Hold].
    unfold append_line. rewrite Hempty. cbv [default from_option id]. cbn [List.app].
    split.
    + intros name. destruct (decide (fd_log st = name)) as [<-|Hne].
      * rewrite lookup_insert_eq, Hold. exists []. split; [reflexivity|].
        right. reflexivity.
      * rewrite lookup_insert_ne by exact Hne. apply Hg.
    + rewrite lookup_insert_eq. split; [eexists; reflexivity|].
      split; [intros H1; discriminate|reflexivity].
Qed.

Lemma write_tracked st data_dict :
  tracked fieldnames files st ->
  tracked fieldnames files
    (fst (write_logfile log_dir fieldnames strftime_now st data_dict)).
Proof.
  intros Hst. unfold write_logfile.
  destruct (dict_get data_dict "tNow"); [|exact Hst].
  pose proof (rotate_tracked (q_fname st) st Hst) as Hrot.
  destruct (header_tracked _ Hrot) as [Hhead Hfl].
  set (st2 := write_header_if_first fieldnames _) in *.
  destruct Hhead as (Hg & Hopen & Hfresh & Hdw).
  rewrite (Hdw Hfl).
  destruct (csv_cells fieldnames data_dict) as [cells|e].
  - cbn [fst]. unfold tracked.
    cbn [fs fd_log file_exists first_log_line dw_log].
    destruct Hopen as [c Hc]. unfold append_line. rewrite Hc.
    cbv [default from_option id]. split.
    + intros name. destruct (decide (fd_log st2 = name)) as [<-|Hne].
      * rewrite lookup_insert_eq. apply grown_row.
        rewrite <- Hc. apply Hg.
      * rewrite lookup_insert_ne by exact Hne. apply Hg.
    + rewrite lookup_insert_eq. split; [eexists; reflexivity|].
      split; [intros H1; rewrite Hfl in H1; discriminate|].
      intros _. reflexivity.
  - destruct e; cbn [fst]; unfold tracked; auto.
Qed.

Lemma run_tracked evs : forall st,
  tracked fieldnames files st ->
  tracked fieldnames files (run log_dir fieldnames strftime_now evs st).
Proof.
  induction evs as [|ev tl IH]; intros st Hst; cbn [run]; [exact Hst|].
  destruct ev as [prefix|d].
  - apply IH. exact Hst.
  - pose proof (write_tracked st d Hst) as Hw.
    destruct (write_logfile log_dir fieldnames strftime_now st d)
      as [st' [e|]]; cbn [fst] in Hw.
    + destruct e; try (apply IH; exact Hw). exact Hw.
    + apply IH. exact Hw.
Qed.

Lemma init_tracked : tracked fieldnames files (init log_dir strftime_now files).
Proof.
  unfold init. apply open_tracked. cbn [fs]. intros name.
  destruct (files !! name) as [c|]; cbn [grown]; [|trivial].
  exists []. rewrite List.app_nil_r. split; reflexivity.
Qed.
End Files.

(** C6.  Whatever rotations are announced and whatever rows are submitted
    to a logger started on any disk, the file operations it performs obey
    the header discipline: to each file instance (one [open]) the header
    is written at most once, before any row, and only when the file did
    not exist at the time it was opened; an instance whose file existed
    gets rows only.  On the disk, accordingly, a file that existed when
    the logger started has gained rows only, and a file the logger created
    holds rows only or the header followed by rows only. *)
Theorem header_once_per_new_file files evs :
  let final := run log_dir fieldnames strftime_now evs
                 (init log_dir strftime_now files) in
  headers_ok (ops final) = true
  /\ forall name : string,
      grown fieldnames (files !! name) (fs final !! name).
Proof.
  cbv zeta. split.
  - assert (Hinit : consistent (init log_dir strftime_now files)).
    { unfold init. apply (open_consistent _ None). reflexivity. }
    destruct (run_consistent evs _ Hinit) as (w & Hscan & _).
    unfold headers_ok. rewrite Hscan. reflexivity.
  - apply (run_tracked files evs _ (init_tracked files)).
Qed.

End Header.

(** ** Cleaned sensor values convert to floats ([clean_sensor_value]) *)

Section FloatStrings.
Import PyFloat PyStr Py Utils SerialHandler Vocabulary Scenarios.

Lemma nullable_lang r : nullable r = true -> lang r [].
Proof.
  induction r as [| |f|r1 IH1 r2 IH2|r1 IH1 r2 IH2|r IH]; cbn [nullable]; intros H.
  - discriminate H.
  - constructor.
  - discriminate H.
  - apply andb_prop in H as [H1 H2].
    change (@nil ascii) with (@nil ascii ++ @nil ascii).
    constructor; auto.
  - apply orb_prop in H as [H|H]; [apply lang_alt_l|apply lang_alt_r]; auto.
  - constructor.
Qed.

Lemma deriv_lang r : forall c l, lang (deriv c r) l -> lang r (c :: l).
Proof.
  induction r as [| |f|r1 IH1 r2 IH2|r1 IH1 r2 IH2|r IH]; intros c l H;
    cbn [deriv] in H.
  - inversion H.
  - inversion H.
  - destruct (f c) eqn:Hf; inversion H; subst. constructor. exact Hf.
  - destruct (nullable r1) eqn:Hn.
    + inversion H as [| | |? ? ? Hl|? ? ? Hr| |]; subst.
      * inversion Hl as [| |? ? l1 l2 H1 H2| | | |]; subst.
        change (c :: l1 ++ l2) with ((c :: l1) ++ l2).
        constructor; auto.
      * change (c :: l) with ([] ++ c :: l).
        constructor; [apply nullable_lang; exact Hn|auto].
    + inversion H as [| |? ? l1 l2 H1 H2| | | |]; subst.
      change (c :: l1 ++ l2) with ((c :: l1) ++ l2).
      constructor; auto.
  - inversion H; subst; [apply lang_alt_l|apply lang_alt_r]; auto.
  - inversion H as [| |? ? l1 l2 H1 H2| | | |]; subst.
    change (c :: l1 ++ l2) with ((c :: l1) ++ l2).
    constructor; auto.
Qed.

Lemma matches_lang l : forall r, matches r l = true -> lang r l.
Proof.
  induction l as [|c l IH]; intros r H; cbn [matches] in H.
  - apply nullable_lang. exact H.
  - apply deriv_lang. apply IH. exact H.
Qed.

(** *** The shape of the words of [float_pattern] *)

Lemma lang_class_inv f l : lang (Class f) l -> exists c, l = [c] /\ f c = true.
Proof. intros H. inversion H; subst. eauto. Qed.

Lemma lang_opt_class f l : lang (Opt (Class f)) l -> at_most_one f l.
Proof.
  intros H. inversion H as [| | |? ? ? Hl|? ? ? Hr| |]; subst.
  - right. apply lang_class_inv. exact Hl.
  - left. inversion Hr. reflexivity.
Qed.

Lemma lang_star_class f l : lang (Star (Class f)) l -> all_in f l.
Proof.
  intros H. remember (Star (Class f)) as r eqn:Hr.
  induction H as [| | | | | |r0 l1 l2 H1 _ H2 IH2]; try discriminate Hr.
  - reflexivity.
  - injection Hr as ->. destruct (lang_class_inv _ _ H1) as (c & -> & Hc).
    unfold all_in. cbn [List.app List.forallb]. rewrite Hc.
    apply IH2. reflexivity.
Qed.

Lemma lang_plus_class f l :
  lang (Plus (Class f)) l -> l <> [] /\ all_in f l.
Proof.
  intros H. inversion H as [| |? ? l1 l2 H1 H2| | | |]; subst.
  destruct (lang_class_inv _ _ H1) as (c & -> & Hc).
  split; [discriminate|].
  unfold all_in. cbn [List.app List.forallb]. rewrite Hc.
  apply (lang_star_class _ _ H2).
Qed.

Lemma float_pattern_shape l :
  lang float_pattern l ->
  exists sg d1 dot d2 ex,
    l = sg ++ d1 ++ dot ++ d2 ++ ex
    /\ at_most_one is_sign sg /\ all_in is_digit d1
    /\ at_most_one (is_char ".") dot
    /\ d2 <> [] /\ all_in is_digit d2 /\ exponent_part ex.
Proof.
  unfold float_pattern. intros H.
  inversion H as [| |? ? sg l1 Hsg H1| | | |]; subst.
  inversion H1 as [| |? ? d1 l2 Hd1 H2| | | |]; subst.
  inversion H2 as [| |? ? dot l3 Hdot H3| | | |]; subst.
  inversion H3 as [| |? ? d2 ex Hd2 Hex| | | |]; subst.
  exists sg, d1, dot, d2, ex. split; [reflexivity|].
  split; [apply lang_opt_class; exact Hsg|].
  split; [apply lang_star_class; exact Hd1|].
  split; [apply lang_opt_class; exact Hdot|].
  destruct (lang_plus_class _ _ Hd2) as [Hne Hall].
  split; [exact Hne|]. split; [exact Hall|].
  inversion Hex as [| | |? ? ? Hl|? ? ? Hr| |]; subst.
  - right.
    inversion Hl as [| |? ? e0 l4 He H4| | | |]; subst.
    inversion H4 as [| |? ? sg2 d3 Hsg2 Hd3| | | |]; subst.
    destruct (lang_class_inv _ _ He) as (e & -> & Hexp).
    destruct (lang_plus_class _ _ Hd3) as [Hne3 Hall3].
    exists e, sg2, d3. cbn [List.app].
    split; [reflexivity|]. split; [exact Hexp|].
    split; [apply lang_opt_class; exact Hsg2|]. split; assumption.
  - left. inversion Hr. reflexivity.
Qed.

(** *** [float] accepts those words *)

Lemma ascii_fact (P : ascii -> bool) (c : ascii) :
  List.forallb P all_ascii = true -> P c = true.
Proof. intros H. apply forall_ascii. exact H. Qed.

Lemma floaty_plain c :
  floaty c = true -> is_number_space c = false /\ is_char "_" c = false.
Proof.
  intros H.
  pose proof (ascii_fact
                (fun c => implb (floaty c)
                            (negb (is_number_space c) && negb (is_char "_" c)))
                c eq_refl) as Hc.
  cbn beta in Hc. rewrite H in Hc. cbn [implb] in Hc.
  apply andb_prop in Hc as [H1 H2].
  split; [apply negb_true_iff in H1|apply negb_true_iff in H2]; assumption.
Qed.

Lemma digit_plain c :
  is_digit c = true ->
  is_char "-" c = false /\ is_char "+" c = false /\ is_char "." c = false
  /\ is_exp c = false.
Proof.
  intros H.
  pose proof (ascii_fact
                (fun c => implb (is_digit c)
                            (negb (is_char "-" c) && negb (is_char "+" c)
                             && negb (is_char "." c) && negb (is_exp c)))
                c eq_refl) as Hc.
  cbn beta in Hc. rewrite H in Hc. cbn [implb] in Hc.
  apply andb_prop in Hc as [Hc H4]. apply andb_prop in Hc as [Hc H3].
  apply andb_prop in Hc as [H1 H2].
  repeat split; apply negb_true_iff; assumption.
Qed.

Lemma dot_plain c :
  is_char "." c = true ->
  is_char "-" c = false /\ is_char "+" c = false /\ is_digit c = false.
Proof.
  intros H. apply Ascii.eqb_eq in H. subst c. repeat split.
Qed.

Lemma exp_plain c :
  is_exp c = true -> is_digit c = false /\ is_char "." c = false.
Proof.
  intros H.
  pose proof (ascii_fact
                (fun c => implb (is_exp c)
                            (negb (is_digit c) && negb (is_char "." c)))
                c eq_refl) as Hc.
  cbn beta in Hc. rewrite H in Hc. cbn [implb] in Hc.
  apply andb_prop in Hc as [H1 H2].
  split; apply negb_true_iff; assumption.
Qed.

Lemma all_in_app f l1 l2 : all_in f l1 -> all_in f l2 -> all_in f (l1 ++ l2).
Proof.
  unfold all_in. intros H1 H2. rewrite List.forallb_app, H1, H2. reflexivity.
Qed.

Lemma all_in_weaken (f g : ascii -> bool) l :
  (forall c, f c = true -> g c = true) -> all_in f l -> all_in g l.
Proof.
  unfold all_in. intros Hfg H. rewrite List.forallb_forall in *.
  intros c Hc. auto.
Qed.

Lemma at_most_one_all_in f l : at_most_one f l -> all_in f l.
Proof.
  intros [->|(c & -> & Hc)]; unfold all_in; cbn [List.forallb];
    [reflexivity|]. rewrite Hc. reflexivity.
Qed.

Lemma shape_floaty sg d1 dot d2 ex :
  at_most_one is_sign sg -> all_in is_digit d1 ->
  at_most_one (is_char ".") dot -> all_in is_digit d2 -> exponent_part ex ->
  all_in floaty (sg ++ d1 ++ dot ++ d2 ++ ex).
Proof.
  intros Hsg Hd1 Hdot Hd2 Hex.
  assert (Hs : forall c, is_sign c = true -> floaty c = true)
    by (intros c H; unfold floaty; rewrite H; reflexivity).
  assert (Hd : forall c, is_digit c = true -> floaty c = true)
    by (intros c H; unfold floaty; rewrite H, orb_true_r; reflexivity).
  assert (Hp : forall c, is_char "." c = true -> floaty c = true)
    by (intros c H; unfold floaty; rewrite H, orb_true_r; reflexivity).
  assert (He : forall c, is_exp c = true -> floaty c = true)
    by (intros c H; unfold floaty; rewrite H, orb_true_r; reflexivity).
  repeat apply all_in_app.
  - apply (all_in_weaken is_sign); [exact Hs|]. apply at_most_one_all_in, Hsg.
  - apply (all_in_weaken is_digit); assumption.
  - apply (all_in_weaken (is_char ".")); [exact Hp|].
    apply at_most_one_all_in, Hdot.
  - apply (all_in_weaken is_digit); assumption.
  - destruct Hex as [->|(e & sg2 & d3 & -> & Hexp & Hsg2 & _ & Hd3)];
      [reflexivity|].
    change (e :: sg2 ++ d3) with ([e] ++ sg2 ++ d3).
    repeat apply all_in_app.
    + unfold all_in. cbn [List.forallb]. rewrite (He e Hexp). reflexivity.
    + apply (all_in_weaken is_sign); [exact Hs|].
      apply at_most_one_all_in, Hsg2.
    + apply (all_in_weaken is_digit); assumption.
Qed.

Lemma number_lstrip_id l :
  match l with c :: _ => is_number_space c = false | [] => True end -> number_lstrip l = l.
Proof. destruct l as [|c tl]; cbn [number_lstrip]; [reflexivity|]. intros ->. reflexivity. Qed.

Lemma all_in_head f l :
  all_in f l -> match l with c :: _ => f c = true | [] => True end.
Proof.
  destruct l as [|c tl]; [trivial|]. unfold all_in. cbn [List.forallb].
  intros H. apply andb_prop in H as [H _]. exact H.
Qed.

Lemma all_in_rev f l : all_in f l -> all_in f (List.rev l).
Proof.
  unfold all_in. rewrite !List.forallb_forall. intros H c Hc.
  apply H. apply List.in_rev. exact Hc.
Qed.

Lemma no_space_head l :
  all_in floaty l ->
  match l with c :: _ => is_number_space c = false | [] => True end.
Proof.
  intros H. apply all_in_head in H. destruct l as [|c tl]; [trivial|].
  apply floaty_plain. exact H.
Qed.

Lemma strip_floaty l : all_in floaty l -> number_strip l = l.
Proof.
  intros H. unfold number_strip.
  rewrite (number_lstrip_id l) by (apply no_space_head; exact H).
  rewrite number_lstrip_id by (apply no_space_head, all_in_rev; exact H).
  apply List.rev_involutive.
Qed.

Lemma strip_floaty_newline l :
  l <> [] -> all_in floaty l -> number_strip (l ++ [newline]) = l.
Proof.
  intros Hne H. unfold number_strip.
  rewrite (number_lstrip_id (l ++ [newline])).
  - rewrite List.rev_app_distr. cbn [List.rev List.app number_lstrip].
    change (is_number_space newline) with true. cbn iota.
    rewrite number_lstrip_id by (apply no_space_head, all_in_rev; exact H).
    apply List.rev_involutive.
  - pose proof (no_space_head l H) as Hh.
    destruct l as [|c tl]; [congruence|exact Hh].
Qed.

Lemma drop_underscores_id l : forall prev,
  all_in floaty l ->
  match prev with Some p => is_char "_" p = false | None => True end ->
  drop_underscores prev l = Some l.
Proof.
  induction l as [|c tl IH]; intros prev Hall Hprev; cbn [drop_underscores].
  - destruct prev as [p|]; [rewrite Hprev|]; reflexivity.
  - unfold all_in in Hall. cbn [List.forallb] in Hall.
    apply andb_prop in Hall as [Hc Htl].
    destruct (floaty_plain c Hc) as [_ Hu]. rewrite Hu.
    assert (Hpu : match prev with Some p => is_char "_" p | None => false end
                  = false) by (destruct prev; auto).
    rewrite Hpu. cbn [andb].
    rewrite (IH (Some c) Htl Hu). reflexivity.
Qed.

Lemma span_digits_app d : forall rest,
  all_in is_digit d ->
  span_digits (d ++ rest)
  = (d ++ fst (span_digits rest), snd (span_digits rest)).
Proof.
  induction d as [|c d IH]; intros rest H; cbn [List.app].
  - destruct (span_digits rest); reflexivity.
  - unfold all_in in H. cbn [List.forallb] in H.
    apply andb_prop in H as [Hc Hd].
    cbn [span_digits]. rewrite Hc, (IH rest Hd). reflexivity.
Qed.

Lemma span_digits_stop l :
  match l with c :: _ => is_digit c = false | [] => True end ->
  span_digits l = ([], l).
Proof.
  destruct l as [|c tl]; cbn [span_digits]; [reflexivity|].
  intros ->. reflexivity.
Qed.

Lemma span_digits_all d : all_in is_digit d -> span_digits d = (d, []).
Proof.
  intros H. rewrite <- (List.app_nil_r d) at 1.
  rewrite (span_digits_app d [] H). cbn [span_digits fst snd].
  rewrite List.app_nil_r. reflexivity.
Qed.

Lemma take_sign_digits d :
  d <> [] -> all_in is_digit d -> take_sign d = (false, d).
Proof.
  intros Hne H. destruct d as [|c tl]; [congruence|].
  apply all_in_head in H. destruct (digit_plain c H) as (Hm & Hp & _).
  unfold take_sign. rewrite Hm, Hp. reflexivity.
Qed.

Lemma take_sign_one sg rest :
  at_most_one is_sign sg ->
  match rest with
  | c :: _ => is_char "-" c = false /\ is_char "+" c = false
  | [] => True
  end ->
  exists neg, take_sign (sg ++ rest) = (neg, rest).
Proof.
  intros [->|(c & -> & Hc)] Hrest; cbn [List.app].
  - exists false. destruct rest as [|c tl]; [reflexivity|].
    destruct Hrest as [Hm Hp]. unfold take_sign. rewrite Hm, Hp. reflexivity.
  - unfold take_sign. unfold is_sign in Hc.
    destruct (is_char "-" c) eqn:Hm; [eexists; reflexivity|].
    destruct (is_char "+" c) eqn:Hp; [eexists; reflexivity|].
    discriminate Hc.
Qed.

Lemma exponent_head ex :
  exponent_part ex ->
  match ex with
  | c :: _ => is_digit c = false /\ is_char "." c = false
  | [] => True
  end.
Proof.
  intros [->|(e & sg & d & -> & He & _)]; [trivial|]. apply exp_plain, He.
Qed.

Lemma parse_exponent_ok ex :
  exponent_part ex -> exists e, parse_exponent ex = Some e.
Proof.
  intros [->|(e & sg & d & -> & He & Hsg & Hne & Hd)]; [exists 0; reflexivity|].
  unfold parse_exponent. rewrite He.
  destruct (take_sign_one sg d Hsg) as [neg Hts].
  { pose proof (all_in_head _ _ Hd) as Hh. destruct d as [|c tl]; [trivial|].
    destruct (digit_plain c Hh) as (Hm & Hp & _). split; assumption. }
  rewrite Hts, (span_digits_all d Hd).
  destruct d as [|c tl]; [congruence|]. eexists. reflexivity.
Qed.

Lemma parse_decimal_ok neg d1 dot d2 ex :
  all_in is_digit d1 -> at_most_one (is_char ".") dot ->
  d2 <> [] -> all_in is_digit d2 -> exponent_part ex ->
  exists x, parse_decimal neg (d1 ++ dot ++ d2 ++ ex) = Some x.
Proof.
  intros Hd1 Hdot Hne Hd2 Hex.
  destruct (parse_exponent_ok ex Hex) as [e He].
  pose proof (exponent_head ex Hex) as Hh.
  assert (Hstop : span_digits ex = ([], ex)).
  { apply span_digits_stop. destruct ex; [trivial|]. apply Hh. }
  unfold parse_decimal.
  destruct Hdot as [->|(c & -> & Hc)]; cbn [List.app].
  - rewrite List.app_assoc.
    rewrite (span_digits_app (d1 ++ d2) ex (all_in_app _ _ _ Hd1 Hd2)).
    rewrite Hstop. cbn [fst snd]. rewrite List.app_nil_r.
    assert (Hfp : match ex with
                  | c :: tl => if is_char "." c then span_digits tl
                               else ([], ex)
                  | [] => ([], [])
                  end = ([], ex)).
    { destruct ex as [|c tl]; [reflexivity|].
      destruct Hh as [_ Hdotc]. rewrite Hdotc. reflexivity. }
    rewrite Hfp, List.app_nil_r, He.
    destruct (d1 ++ d2) eqn:Hd; [|eexists; reflexivity].
    apply List.app_eq_nil in Hd as [_ Hd]. congruence.
  - destruct (dot_plain c Hc) as (_ & _ & Hnd).
    rewrite (span_digits_app d1 (c :: d2 ++ ex) Hd1).
    rewrite (span_digits_stop (c :: d2 ++ ex)) by exact Hnd.
    cbn [fst snd]. rewrite List.app_nil_r, Hc.
    rewrite (span_digits_app d2 ex Hd2), Hstop. cbn [fst snd].
    rewrite List.app_nil_r, He.
    destruct (d1 ++ d2) eqn:Hd; [|eexists; reflexivity].
    apply List.app_eq_nil in Hd as [_ Hd]. congruence.
Qed.

Lemma body_head d1 dot d2 ex :
  all_in is_digit d1 -> at_most_one (is_char ".") dot ->
  d2 <> [] -> all_in is_digit d2 ->
  match d1 ++ dot ++ d2 ++ ex with
  | c :: _ => is_char "-" c = false /\ is_char "+" c = false
  | [] => True
  end.
Proof.
  intros Hd1 Hdot Hne Hd2.
  destruct d1 as [|c tl]; cbn [List.app].
  - destruct Hdot as [->|(c & -> & Hc)]; cbn [List.app].
    + destruct d2 as [|c tl]; [congruence|]. cbn [List.app].
      apply all_in_head in Hd2. destruct (digit_plain c Hd2) as (Hm & Hp & _).
      split; assumption.
    + destruct (dot_plain c Hc) as (Hm & Hp & _). split; assumption.
  - apply all_in_head in Hd1. destruct (digit_plain c Hd1) as (Hm & Hp & _).
    split; assumption.
Qed.

Lemma float_pattern_parses l :
  lang float_pattern l ->
  l <> [] /\ all_in floaty l
  /\ exists x, parse_float_chars l = Some x.
Proof.
  intros H.
  destruct (float_pattern_shape l H)
    as (sg & d1 & dot & d2 & ex & -> & Hsg & Hd1 & Hdot & Hne & Hd2 & Hex).
  pose proof (shape_floaty sg d1 dot d2 ex Hsg Hd1 Hdot Hd2 Hex) as Hfl.
  split.
  { intros Hnil. do 3 (apply List.app_eq_nil in Hnil as [_ Hnil]).
    apply List.app_eq_nil in Hnil as [Hnil _]. congruence. }
  split; [exact Hfl|].
  unfold parse_float_chars.
  rewrite (strip_floaty _ Hfl), (drop_underscores_id _ None Hfl I).
  destruct (take_sign_one sg (d1 ++ dot ++ d2 ++ ex) Hsg
              (body_head d1 dot d2 ex Hd1 Hdot Hne Hd2)) as [neg Hts].
  rewrite Hts.
  destruct (parse_special neg _) as [x|]; [exists x; reflexivity|].
  apply parse_decimal_ok; assumption.
Qed.

Lemma float_pattern_parses_newline l :
  lang float_pattern l -> exists x, parse_float_chars (l ++ [newline]) = Some x.
Proof.
  intros H. destruct (float_pattern_parses l H) as (Hne & Hfl & x & Hx).
  exists x. unfold parse_float_chars in *.
  rewrite (strip_floaty_newline l Hne Hfl).
  rewrite (strip_floaty l Hfl) in Hx. exact Hx.
Qed.

Lemma re_match_parses s :
  re_match_anchored float_pattern s = true -> float_parseable s.
Proof.
  unfold re_match_anchored, float_parseable, py_float. intros H.
  apply orb_prop in H as [H|H].
  - apply matches_lang in H. apply float_pattern_parses in H.
    destruct H as (_ & _ & H). exact H.
  - destruct (List.rev (chars s)) as [|c tl] eqn:Hrev; [discriminate H|].
    apply andb_prop in H as [Hc H]. apply Ascii.eqb_eq in Hc. subst c.
    apply matches_lang in H.
    assert (Hs : chars s = List.rev tl ++ [newline]).
    { rewrite <- (List.rev_involutive (chars s)), Hrev. reflexivity. }
    rewrite Hs. apply float_pattern_parses_newline. exact H.
Qed.

Section Printable.
Variable isprintable : ascii -> bool.

Lemma filter_idem (l : list ascii) :
  List.filter isprintable (List.filter isprintable l)
  = List.filter isprintable l.
Proof.
  induction l as [|c l IH]; cbn [List.filter]; [reflexivity|].
  destruct (isprintable c) eqn:Hc; [|exact IH].
  cbn [List.filter]. rewrite Hc, IH. reflexivity.
Qed.

Lemma printable_only_idem s :
  printable_only isprintable (printable_only isprintable s)
  = printable_only isprintable s.
Proof.
  unfold printable_only. rewrite chars_str, filter_idem. reflexivity.
Qed.

Lemma clean_sensor_value_str s :
  clean_sensor_value isprintable (VStr s)
  = if keeps isprintable s then printable_only isprintable s else "0.0".
Proof.
  unfold clean_sensor_value, is_valid_float_string, keeps.
  rewrite printable_only_idem.
  destruct (String.eqb (printable_only isprintable s) ""); reflexivity.
Qed.

Lemma zero_parses : float_parseable "0.0".
Proof. eexists. vm_compute. reflexivity. Qed.

Lemma clean_sensor_value_parses v :
  float_parseable (clean_sensor_value isprintable v).
Proof.
  destruct v as [s|x|t|]; try exact zero_parses.
  rewrite clean_sensor_value_str. unfold keeps.
  destruct (String.eqb (printable_only isprintable s) ""); cbn [negb andb];
    [exact zero_parses|].
  destruct (re_match_anchored float_pattern (printable_only isprintable s))
    eqn:Hm; [|exact zero_parses].
  apply re_match_parses. exact Hm.
Qed.

Variable decode : string -> option string.
Variable uniform_str : nat -> string.

Lemma simulated_parse :
  (forall i, float_parseable (uniform_str i)) ->
  List.Forall float_parseable (generate_simulated_data uniform_str).
Proof.
  intros H. unfold generate_simulated_data.
  repeat (constructor; [apply H|]).
  constructor; [|constructor]. eexists. vm_compute. reflexivity.
Qed.

(** C10.  [clean_sensor_value] returns, for every input, a string that
    [float] converts: a non-string is replaced by "0.0", and a string is
    replaced by "0.0" unless its printable characters form a non-empty
    match of the decimal pattern, in which case those characters are
    returned.  Consequently every list [read_data] returns holds only
    strings that [float] converts, provided the texts of the simulated
    draws do. *)
Theorem cleaned_values_parse :
  (forall v,
      float_parseable (clean_sensor_value isprintable v)
      /\ clean_sensor_value isprintable v
         = match v with
           | VStr s => if keeps isprintable s
                       then printable_only isprintable s
                       else "0.0"
           | _ => "0.0"
           end)
  /\ ((forall i, float_parseable (uniform_str i)) ->
      forall connected error_count line,
        List.Forall float_parseable
          (snd (snd (read_data isprintable decode uniform_str connected
                       error_count line)))).
Proof.
  split.
  - intros v. split; [apply clean_sensor_value_parses|].
    destruct v; try reflexivity. apply clean_sensor_value_str.
  - intros Hsim connected error_count line.
    pose proof (simulated_parse Hsim) as Hs.
    unfold read_data.
    destruct connected; [|exact Hs].
    destruct line as [data|]; [|exact Hs].
    destruct (decode (remove_null_bytes data)) as [text|]; [|exact Hs].
    destruct (List.length (split (strip text)) <? 12)%nat; [exact Hs|].
    cbn [snd]. apply List.Forall_forall. intros s Hin.
    apply List.in_map_iff in Hin as (val & <- & _).
    apply clean_sensor_value_parses.
Qed.
End Printable.

Lemma cleaned_values_parse_witness :
  snd (read_data ascii_printable Some (fun _ => "1.5") true 0
         (Some "1.0 2.0 x3 4 5 6 7 8 9 10 11 12"))
  = (true, ["1.0"; "2.0"; "0.0"; "4"; "5"; "6"; "7"; "8"; "9"; "10"; "11"; "12"])
  /\ List.Forall float_parseable
       (snd (snd (read_data ascii_printable Some (fun _ => "1.5") true 0
                    (Some "1.0 2.0 x3 4 5 6 7 8 9 10 11 12")))).
Proof.
  split; [vm_compute; reflexivity|].
  apply (proj2 (cleaned_values_parse ascii_printable Some (fun _ => "1.5"))).
  intros i. eexists. vm_compute. reflexivity.
Defined.

End FloatStrings.

(** ** The embedding at work on small inputs *)

Section Checks.
Import PyFloat PyStr Py Utils DataProcessor Threads Logger SerialHandler
  WeatherStation Vocabulary Scenarios.

Example float_accepts :
  List.map (fun s => is_ok (to_float (VStr s)))
    [ "1.5"; "+.5e-3"; " 12 "; "1_000"; "1."; "nan"; "-Infinity";
      ""; "."; "1e"; "1__0"; "12abc"; "STATUS" ]
  = [ true; true; true; true; true; true; true;
      false; false; false; false; false; false ].
Proof. vm_compute. reflexivity. Qed.

Example float_values :
  py_float "-2.25" = Some (of_frac (-9) 4)
  /\ py_float "1e2" = Some (of_Z 100)
  /\ py_float "0.5" = Some (of_frac 1 2).
Proof. repeat split; vm_compute; f_equal; apply Fin_canon; reflexivity. Qed.

Example float_whitespace :
  let fs_one_us := str [ascii_of_N 28; "1"%char; ascii_of_N 31] in
  let nel_one_nbsp := str [ascii_of_N 133; "1"%char; ascii_of_N 160] in
  strip fs_one_us = "1"
  /\ py_float fs_one_us = None
  /\ py_float nel_one_nbsp = Some (of_Z 1).
Proof. repeat split; vm_compute; f_equal; apply Fin_canon; reflexivity. Qed.

Example float_range :
  py_float "1e400" = Some PInf
  /\ py_float "-1e400" = Some NInf
  /\ py_float "1e-400" = Some (of_Z 0)
  /\ py_float "-1e-400" = Some (of_Z 0).
Proof. repeat split; vm_compute; f_equal; apply Fin_canon; reflexivity. Qed.

Example int_accepts :
  List.map py_int
    [ "8251"; " 9000 "; "+80"; "-007"; "8_000"; ""; "80.0"; "8 0"; "_8";
      "port" ]
  = [ Some 8251; Some 9000; Some 80; Some (-7); Some 8000; None; None;
      None; None; None ].
Proof. vm_compute. reflexivity. Qed.

Example status_port_from_environment :
  Config.PORT_STATUS (empty : Config.environ) = Ok 8251
  /\ Config.PORT_STATUS moved_status_port = Ok 9000
  /\ Config.PORT_STATUS {[ "PORT_STATUS" := "status" ]} = Raise ValueError
  /\ SdlHigh.status_endpoint {[ "HOST" := "10.0.0.7" ]} = Ok ("10.0.0.7", 8251).
Proof. repeat split; vm_compute; reflexivity. Qed.

Example pattern_matches :
  List.map (re_match_anchored float_pattern)
    [ "1.5"; "-.5"; "3"; "2E+10"; "1."; "1.5.2"; "e5"; "0x10"; "nan" ]
  = [ true; true; true; true; false; false; false; false; false ].
Proof. vm_compute. reflexivity. Qed.

Example cleaning :
  List.map (clean_sensor_value ascii_printable)
    [ VStr "12.5"; VStr "1x"; VStr ""; VNone; VNum (of_Z 3); VStr "-7" ]
  = [ "12.5"; "0.0"; "0.0"; "0.0"; "0.0"; "-7" ].
Proof. vm_compute. reflexivity. Qed.

Example rounding_half_even :
  r8 (of_frac 1 3) = of_frac 33333333 100000000
  /\ r8 (of_frac 5 1000000000) = of_Z 0
  /\ r8 (of_frac 15 1000000000) = of_frac 2 100000000
  /\ r8 NaN = NaN.
Proof.
  repeat split; try reflexivity; vm_compute; apply Fin_canon; reflexivity.
Qed.

(** A mode-set datagram switches the mode once; garbage is ignored. *)
Example mode_commands :
  check_mode_command "localhost" (Datagram (Some "1")) true (of_Z 0)
  = mk_mode_result (of_Z 1) true []
  /\ check_mode_command "localhost" (Datagram (Some "fast")) true (of_Z 0)
     = mk_mode_result (of_Z 0) false []
  /\ check_mode_command "localhost" NoDatagram true (of_Z 1)
     = mk_mode_result (of_Z 1) false [].
Proof. repeat split; vm_compute; reflexivity. Qed.

(** The cycle that takes in the 32 samples judges the window by its size
    before the queue was read, and writes the latest sample as it is. *)
Example first_tick_writes_latest_sample :
  written (snd (std_iteration 1%Qc std_initial (of_Z 0) (Q2Qc 4) 4000000 ramp32))
  = Some (let x := r8 (of_Z 31) in
          row_dict 4000000 x x x x x x x x x x x (r8 (of_Z 0))).
Proof. vm_compute. reflexivity. Qed.

(** In high-frequency mode the standard logger displays and does not
    write. *)
Example high_frequency_mode_is_display_only :
  let out := snd (std_iteration 1%Qc std_filled (of_Z 1) (Q2Qc 5) 5000000 []) in
  written out = None /\ displayed out <> None.
Proof. split; [vm_compute; reflexivity|]. vm_compute. discriminate. Qed.

(** A fresh disk: the header, then the rows. *)
Example new_file_gets_header :
  fs (run "/var/tmp/wx" Config.FIELDNAMES clock [Submit one_row; Submit one_row]
        (init "/var/tmp/wx" clock ∅)) !! day1_file
  = Some [HeaderLine Config.FIELDNAMES; RowLine cells_of_row;
          RowLine cells_of_row].
Proof. vm_compute. reflexivity. Qed.

(** A restart on the same day: the rows are appended, without a header. *)
Example resumed_file_gets_no_header :
  fs (run "/var/tmp/wx" Config.FIELDNAMES clock [Submit one_row]
        (init "/var/tmp/wx" clock
           {[ day1_file := [HeaderLine Config.FIELDNAMES; RowLine cells_of_row] ]}))
    !! day1_file
  = Some [HeaderLine Config.FIELDNAMES; RowLine cells_of_row;
          RowLine cells_of_row].
Proof. vm_compute. reflexivity. Qed.

(** A rotation: the next row opens the file of the new day. *)
Example rotation_opens_next_file :
  ops (run "/var/tmp/wx" Config.FIELDNAMES clock
         [Submit one_row; Rotation "2025_01_02"; Submit one_row]
         (init "/var/tmp/wx" clock ∅))
  = [ OpOpen day1_file false; OpWriteHeader day1_file;
      OpWriteRow day1_file cells_of_row; OpClose day1_file;
      OpOpen "/var/tmp/wx/2025_01_02_weather_station_data.csv" false;
      OpWriteHeader "/var/tmp/wx/2025_01_02_weather_station_data.csv";
      OpWriteRow "/var/tmp/wx/2025_01_02_weather_station_data.csv" cells_of_row ].
Proof. vm_compute. reflexivity. Qed.

(** A row with a key outside the schema ends the process with status -2. *)
Example schema_mismatch_is_fatal :
  snd (write_logfile "/var/tmp/wx" Config.FIELDNAMES clock
         (init "/var/tmp/wx" clock ∅)
         (dict_set one_row "Gust" (VNum (of_Z 1))))
  = Some (SystemExit (-2)).
Proof. vm_compute. reflexivity. Qed.

(** A full visualization queue restarts from the fresh sample. *)
Example visualization_queue_restarts :
  items (queue_visualization
           (enqueue_sample (of_Z 0)
              (mk_queues queue_high_freq0 queue_standard0
                 (mk_bqueue 500 (List.repeat stale 500)) 0 [])
              fresh))
  = [fresh].
Proof. vm_compute. reflexivity. Qed.

End Checks.

(** * Further properties *)

(** ** Pacing: the spacing of writes and sends *)

Section Pacing.
Import PyFloat PyStr Py DataProcessor Threads UdpSender Runs Vocabulary
  Vocabulary2 Scenarios Scenarios2.

Lemma elapsed_ge_spec (a b c : seconds) :
  elapsed_ge a b c = true <-> (this c + this b <= this a)%Q.
Proof.
  unfold elapsed_ge. rewrite Qle_bool_iff.
  unfold Qcminus, Qcplus, Qcopp. cbn [this Q2Qc].
  rewrite !Qred_correct. split; intros H; lra.
Qed.

Lemma hf_keeps_last_write rate st mode t queue st' queue' :
  hf_iteration rate st mode t queue = Ok (st', queue', None) ->
  hf_last_write_time st' = hf_last_write_time st.
Proof.
  unfold hf_iteration.
  destruct (fneb mode (hf_last_mode st)).
  - intros H. injection H as <- _. reflexivity.
  - destruct queue as [|x rest]; [intros H; injection H as <- _; reflexivity|].
    destruct (gt0 mode); [|intros H; injection H as <- _; reflexivity].
    destruct (negb _); [intros H; injection H as <- _; reflexivity|].
    unfold hf_row. rewrite prepare_row_dict. cbn [bind].
    intros H. discriminate H.
Qed.

Lemma hf_write_is_due rate st mode t queue st' queue' row :
  hf_iteration rate st mode t queue = Ok (st', queue', Some row) ->
  elapsed_ge t (hf_last_write_time st) rate = true
  /\ hf_last_write_time st' = t.
Proof.
  unfold hf_iteration.
  destruct (fneb mode (hf_last_mode st)); [intros H; discriminate H|].
  destruct queue as [|x rest]; [intros H; discriminate H|].
  destruct (gt0 mode); [|intros H; discriminate H].
  destruct (elapsed_ge t (hf_last_write_time st) rate);
    cbn [negb]; [|intros H; discriminate H].
  unfold hf_row. rewrite prepare_row_dict. cbn [bind].
  intros H. injection H as <- _ _. split; reflexivity.
Qed.

(** X1.  However the mode, the clock and the arrivals go, two successive
    rows of the high-frequency logger are written at clock readings at
    least [high_freq_rate] apart, the first of them at least that long
    after the last write before the run. *)
Theorem hf_writes_are_spaced rate ticks : forall st queue,
  spaced rate (Some (hf_last_write_time st))
    (List.map fst (hf_run rate ticks st queue)) = true.
Proof.
  induction ticks as [|tk tl IH]; intros st queue; cbn [hf_run]; [reflexivity|].
  destruct (hf_iteration rate st (tick_mode tk) (tick_time tk)
              (queue ++ arrivals tk)) as [[[st' queue'] out]|e] eqn:Hit;
    [|reflexivity].
  destruct out as [row|].
  - destruct (hf_write_is_due _ _ _ _ _ _ _ _ Hit) as [Hdue Hlast].
    cbn [List.map fst spaced]. rewrite Hdue. cbn [andb].
    rewrite <- Hlast. apply IH.
  - rewrite <- (hf_keeps_last_write _ _ _ _ _ _ _ Hit). apply IH.
Qed.

Lemma sender_keeps_last_sent st t queue ok st' queue' :
  sender_turn st t queue ok = (st', queue', None) ->
  last_sent_time st' = last_sent_time st.
Proof.
  unfold sender_turn. destruct (negb _); [intros H; injection H as <- _; reflexivity|].
  destruct queue as [|x rest]; [intros H; injection H as <- _; reflexivity|].
  destruct ok.
  - destruct (elapsed_ge t (last_log_time st) (Q2Qc 10));
      intros H; discriminate H.
  - intros H. injection H as <- _. reflexivity.
Qed.

Lemma sender_send_is_due st t queue ok st' queue' d :
  sender_turn st t queue ok = (st', queue', Some d) ->
  elapsed_ge t (last_sent_time st) min_interval = true
  /\ last_sent_time st' = t.
Proof.
  unfold sender_turn.
  destruct (elapsed_ge t (last_sent_time st) min_interval);
    cbn [negb]; [|intros H; discriminate H].
  destruct queue as [|x rest]; [intros H; discriminate H|].
  destruct ok; [|intros H; discriminate H].
  destruct (elapsed_ge t (last_log_time st) (Q2Qc 10));
    intros H; injection H as <- _ _; split; reflexivity.
Qed.

(** X2.  Two successive datagrams of the visualization sender leave at
    clock readings at least 0.1 s apart, whatever arrives and whether or
    not sends fail in between. *)
Theorem sends_are_spaced ticks : forall st queue,
  spaced min_interval (Some (last_sent_time st))
    (List.map fst (sender_run ticks st queue)) = true.
Proof.
  induction ticks as [|tk tl IH]; intros st queue; cbn [sender_run]; [reflexivity|].
  destruct (sender_turn st (tick_time tk) (queue ++ arrivals tk)
              (tick_send_ok tk)) as [[st' queue'] out] eqn:Hit.
  destruct out as [d|].
  - destruct (sender_send_is_due _ _ _ _ _ _ _ Hit) as [Hdue Hlast].
    cbn [List.map fst spaced]. rewrite Hdue. cbn [andb].
    rewrite <- Hlast. apply IH.
  - rewrite <- (sender_keeps_last_sent _ _ _ _ _ _ Hit). apply IH.
Qed.

Lemma std_tick_facts rate st mode t now queue :
  let st' := fst (std_iteration rate st mode t now queue) in
  let out := snd (std_iteration rate st mode t now queue) in
  (last_1hz_update st' = last_1hz_update st /\ written out = None)
  \/ (elapsed_ge t (last_1hz_update st) rate = true
      /\ last_1hz_update st' = t).
Proof.
  cbv zeta. unfold std_iteration.
  set (st1 := if fneb mode (std_last_mode st) then _ else st).
  assert (Hupd : last_1hz_update st1 = last_1hz_update st)
    by (subst st1; destruct (fneb mode (std_last_mode st)); reflexivity).
  rewrite Hupd.
  destruct (drain queue (data_frame st1) (last_data st1)) as [df last].
  destruct last as [ld|]; [|left; split; reflexivity].
  destruct (elapsed_ge t (last_1hz_update st) rate) eqn:Hdue.
  - right. split; [reflexivity|]. cbn [orb].
    destruct (my_data_of _ _ _ _); [|reflexivity].
    destruct (prepare_data_for_logging _); reflexivity.
  - left. cbn [orb].
    destruct (gt0 mode && _); [|split; reflexivity].
    destruct (my_data_of _ _ _ _); [|split; reflexivity].
    destruct (prepare_data_for_logging _); (split; reflexivity).
Qed.

Lemma std_spaced_from rate ticks :
  (0 <= this rate)%Q ->
  forall st prev,
    (this prev <= this (last_1hz_update st))%Q ->
    spaced rate (Some prev) (List.map fst (std_run rate ticks st)) = true.
Proof.
  intros Hrate. induction ticks as [|tk tl IH]; intros st prev Hprev;
    cbn [std_run]; [reflexivity|].
  pose proof (std_tick_facts rate st (tick_mode tk) (tick_time tk)
                (tick_now tk) (arrivals tk)) as Hfacts.
  cbv zeta in Hfacts.
  destruct (std_iteration rate st (tick_mode tk) (tick_time tk) (tick_now tk)
              (arrivals tk)) as [st' out].
  cbn [fst snd] in Hfacts.
  destruct Hfacts as [[Hsame Hnone]|[Hdue Hnew]].
  - rewrite Hnone. apply IH. rewrite Hsame. exact Hprev.
  - apply elapsed_ge_spec in Hdue.
    destruct (written out) as [row|].
    + cbn [List.map fst spaced].
      assert (Hgap : elapsed_ge (tick_time tk) prev rate = true)
        by (apply elapsed_ge_spec; lra).
      rewrite Hgap. cbn [andb]. apply IH. rewrite Hnew. lra.
    + apply IH. rewrite Hnew. lra.
Qed.

(** X3.  With a non-negative [standard_rate], two successive rows of the
    standard logger are written at clock readings at least
    [standard_rate] apart, the first of them at least that long after the
    last 1 Hz update before the run: at most one row per period, however
    often the loop turns. *)
Theorem std_writes_are_spaced rate ticks st :
  (0 <= this rate)%Q ->
  spaced rate (Some (last_1hz_update st))
    (List.map fst (std_run rate ticks st)) = true.
Proof.
  intros Hrate. apply (std_spaced_from rate ticks Hrate). lra.
Qed.

Lemma std_writes_are_spaced_witness :
  List.map fst (std_run 1%Qc busy_second std_initial)
  = [Q2Qc 100; Q2Qc (1015 # 10)]
  /\ spaced 1%Qc (Some 0%Qc) (List.map fst (std_run 1%Qc busy_second std_initial))
     = true.
Proof.
  split; [vm_compute; reflexivity|].
  apply (std_writes_are_spaced 1%Qc busy_second std_initial).
  vm_compute. discriminate.
Defined.

End Pacing.

(** ** The averaging window and the two loggers *)

Section Window.
Import PyFloat PyStr Py DataProcessor Threads Runs Vocabulary Vocabulary2
  Scenarios Scenarios2.

Lemma concat_data_app df x : concat_data df x = df ++ [frame_of x].
Proof. unfold concat_data, frame_of. destruct df; reflexivity. Qed.

Lemma iloc_last_short n df :
  (List.length df <= n)%nat -> iloc_last n df = df.
Proof.
  intros H. unfold iloc_last.
  replace (List.length df - n)%nat with 0%nat by lia. reflexivity.
Qed.

Lemma iloc_last_app n l r :
  iloc_last n (iloc_last n l ++ r) = iloc_last n (l ++ r).
Proof.
  destruct (Nat.le_gt_cases (List.length l) n) as [Hle|Hgt].
  - rewrite (iloc_last_short n l Hle). reflexivity.
  - unfold iloc_last at 1 3.
    rewrite !List.length_app, iloc_last_length by lia.
    replace (n + List.length r - n)%nat with (List.length r) by lia.
    replace (List.length l + List.length r - n)%nat
      with (List.length r + (List.length l - n))%nat by lia.
    rewrite <- List.skipn_skipn. f_equal.
    rewrite List.skipn_app.
    replace (List.length l - n - List.length l)%nat with 0%nat by lia.
    reflexivity.
Qed.

Lemma drain_window pending : forall df last,
  (List.length df <= buffer_limit)%nat ->
  fst (drain pending df last)
  = iloc_last buffer_limit (df ++ List.map frame_of pending).
Proof.
  induction pending as [|x tl IH]; intros df last Hle; cbn [drain List.map].
  - rewrite List.app_nil_r, iloc_last_short by exact Hle. reflexivity.
  - rewrite concat_data_app.
    assert (Htrim : (if (buffer_limit <? List.length (df ++ [frame_of x]))%nat
                     then iloc_last buffer_limit (df ++ [frame_of x])
                     else df ++ [frame_of x])
                    = iloc_last buffer_limit (df ++ [frame_of x])).
    { destruct (Nat.ltb_spec buffer_limit (List.length (df ++ [frame_of x])))
        as [Hlt|Hge]; [reflexivity|].
      rewrite iloc_last_short by exact Hge. reflexivity. }
    rewrite Htrim. rewrite IH.
    + rewrite iloc_last_app, <- List.app_assoc. reflexivity.
    + unfold iloc_last. rewrite List.length_skipn. lia.
Qed.

Lemma std_iteration_frame rate st mode t now queue :
  data_frame (fst (std_iteration rate st mode t now queue))
  = fst (drain queue (data_frame st) (last_data st)).
Proof.
  unfold std_iteration.
  set (st1 := if fneb mode (std_last_mode st) then _ else st).
  assert (Hdf : data_frame st1 = data_frame st)
    by (subst st1; destruct (fneb mode (std_last_mode st)); reflexivity).
  assert (Hlast : last_data st1 = last_data st)
    by (subst st1; destruct (fneb mode (std_last_mode st)); reflexivity).
  rewrite Hdf, Hlast.
  destruct (drain queue (data_frame st) (last_data st)) as [df last].
  destruct last as [ld|]; [|reflexivity].
  destruct (_ || _); [|reflexivity].
  destruct (my_data_of _ _ _ _); [|reflexivity].
  destruct (prepare_data_for_logging _); reflexivity.
Qed.

(** X4.  The window of the standard logger is a sliding window of the
    last 32 samples: after an iteration it holds the last 32 rows of the
    old window followed by the rows of the samples just taken from the
    queue, in order, and so never more than 32 rows.  Modes, clocks and
    mode changes do not touch it. *)
Theorem window_holds_last_32 rate st mode t now queue :
  (List.length (data_frame st) <= buffer_limit)%nat ->
  let st' := fst (std_iteration rate st mode t now queue) in
  data_frame st'
  = iloc_last buffer_limit (data_frame st ++ List.map frame_of queue)
  /\ (List.length (data_frame st') <= buffer_limit)%nat.
Proof.
  intros Hle st'. subst st'. rewrite std_iteration_frame.
  rewrite (drain_window queue _ _ Hle). split; [reflexivity|].
  unfold iloc_last. rewrite List.length_skipn. lia.
Qed.

Lemma window_holds_last_32_witness :
  data_frame (fst (std_iteration 1%Qc std_filled (of_Z 0) (Q2Qc 5) 5000000
                     [plain_sample; plain_sample]))
  = List.skipn 2 (data_frame std_filled)
    ++ [frame_of plain_sample; frame_of plain_sample].
Proof.
  rewrite (proj1 (window_holds_last_32 1%Qc std_filled (of_Z 0) (Q2Qc 5)
                    5000000 [plain_sample; plain_sample]
                    ltac:(vm_compute; lia))).
  vm_compute. reflexivity.
Defined.

(** X5.  At a persist tick in standard mode, when the window held fewer
    than 32 rows at the start of the cycle, the written row is the most
    recent sample as it is: its eleven values and its error value, each
    rounded to 8 decimals, under the current time cut to whole seconds.
    Nothing is averaged, however many samples the cycle itself takes in. *)
Theorem short_window_writes_latest rate st mode t now queue df last :
  (List.length (data_frame st) < buffer_limit)%nat ->
  eq0 mode = true ->
  elapsed_ge t (last_1hz_update st) rate = true ->
  drain queue (data_frame st) (last_data st) = (df, Some last) ->
  written (snd (std_iteration rate st mode t now queue))
  = Some (row_dict (truncate_microseconds now) (r8 (p_u last))
            (r8 (p_v last)) (r8 (p_w last)) (r8 (p_d2 last))
            (r8 (p_d3 last)) (r8 (p_az last)) (r8 (p_ele last))
            (r8 (p_press last)) (r8 (p_temp last)) (r8 (p_rh last))
            (r8 (p_sonic last)) (r8 (p_err last))).
Proof.
  intros Hshort Hmode Htick Hdrain.
  unfold std_iteration.
  set (st1 := if fneb mode (std_last_mode st) then _ else st).
  assert (Hdf : data_frame st1 = data_frame st)
    by (subst st1; destruct (fneb mode (std_last_mode st)); reflexivity).
  assert (Hlast : last_data st1 = last_data st)
    by (subst st1; destruct (fneb mode (std_last_mode st)); reflexivity).
  assert (Hupd : last_1hz_update st1 = last_1hz_update st)
    by (subst st1; destruct (fneb mode (std_last_mode st)); reflexivity).
  rewrite Hdf, Hlast, Hupd, Hdrain, Htick, Hmode.
  destruct (Nat.leb_spec buffer_limit (List.length (data_frame st))) as [Hge|_];
    [lia|].
  cbn [orb]. unfold my_data_of.
  rewrite prepare_row_dict. cbn [snd written andb]. reflexivity.
Qed.

Lemma short_window_writes_latest_witness :
  exists row,
    written (snd (std_iteration 1%Qc std_initial (of_Z 0) (Q2Qc 4) 4000000
                    ramp32)) = Some row
    /\ dict_get row "u_m_s" = Some (VNum (r8 (of_Z 31))).
Proof.
  eexists. split.
  - eapply (short_window_writes_latest 1%Qc std_initial (of_Z 0) (Q2Qc 4)
              4000000 ramp32).
    + vm_compute. lia.
    + vm_compute. reflexivity.
    + vm_compute. reflexivity.
    + vm_compute. reflexivity.
  - vm_compute. reflexivity.
Defined.

(** X6.  An iteration of the high-frequency logger always returns, and
    does one of three things to its queue: on a mode change it empties it
    and writes nothing; otherwise it either leaves it as it is and writes
    nothing, or takes the oldest sample off it and hands exactly that
    sample, rounded, to the writer.  Samples are never reordered or
    written twice. *)
Theorem hf_iteration_fifo rate st mode t queue :
  exists st' queue' out,
    hf_iteration rate st mode t queue = Ok (st', queue', out)
    /\ if fneb mode (hf_last_mode st)
       then queue' = [] /\ out = None
       else (queue' = queue /\ out = None)
            \/ exists x,
                queue = x :: queue'
                /\ gt0 mode = true
                /\ out = Some (row_dict (p_time x) (r8 (p_u x)) (r8 (p_v x))
                                 (r8 (p_w x)) (r8 (p_d2 x)) (r8 (p_d3 x))
                                 (r8 (p_az x)) (r8 (p_ele x))
                                 (r8 (p_press x)) (r8 (p_temp x))
                                 (r8 (p_rh x)) (r8 (p_sonic x))
                                 (r8 (p_err x))).
Proof.
  unfold hf_iteration.
  destruct (fneb mode (hf_last_mode st)).
  - do 3 eexists. split; [reflexivity|]. split; reflexivity.
  - destruct queue as [|x rest];
      [do 3 eexists; split; [reflexivity|left; split; reflexivity]|].
    destruct (gt0 mode) eqn:Hpos;
      [|do 3 eexists; split; [reflexivity|left; split; reflexivity]].
    destruct (negb _);
      [do 3 eexists; split; [reflexivity|left; split; reflexivity]|].
    unfold hf_row. rewrite prepare_row_dict. cbn [bind].
    do 3 eexists. split; [reflexivity|]. right. exists x.
    repeat split.
Qed.

Lemma zero_not_positive x : eq0 x = true -> gt0 x = false.
Proof.
  destruct x as [q| | |]; cbn [eq0 gt0]; try discriminate.
  unfold qc_is_zero, qc_is_pos. intros ->. apply andb_false_r.
Qed.

(** X7.  For one value of the shared mode the two loggers never both
    write: whenever an iteration of the standard logger hands a row to the
    writer, an iteration of the high-frequency logger under the same mode
    value hands it none. *)
Theorem loggers_never_both_write
    std_rate std_st t now queue hf_rate hf_st t' hf_queue mode :
  written (snd (std_iteration std_rate std_st mode t now queue)) = None
  \/ exists st' queue',
      hf_iteration hf_rate hf_st mode t' hf_queue = Ok (st', queue', None).
Proof.
  destruct (eq0 mode) eqn:Hz.
  - right. apply hf_writes_only_when_positive. apply zero_not_positive, Hz.
  - left. apply std_writes_only_at_zero. exact Hz.
Qed.

End Window.

(** ** Queues within their capacity *)

Section Capacity.
Import PyFloat PyStr Py DataProcessor WeatherStation Runs Vocabulary
  Vocabulary2 Scenarios Scenarios2.

Lemma put_within q x q' :
  within_capacity q -> put_nowait q x = Ok q' ->
  within_capacity q' /\ maxsize q' = maxsize q.
Proof.
  unfold within_capacity, put_nowait, full. intros Hq.
  destruct (Nat.ltb_spec 0 (maxsize q)) as [Hpos|Hzero]; cbn [andb].
  - destruct (Nat.leb_spec (maxsize q) (List.length (items q))) as [Hfull|Hroom];
      [intros H; discriminate H|].
    intros H. injection H as <-. cbn [maxsize items].
    rewrite List.length_app. cbn [List.length]. split; [right; lia|reflexivity].
  - intros H. injection H as <-. cbn [maxsize items].
    split; [left; lia|reflexivity].
Qed.

Lemma clear_within q : within_capacity (clear q) /\ maxsize (clear q) = maxsize q.
Proof. unfold within_capacity, clear. cbn [maxsize items List.length]. split; [right; lia|reflexivity]. Qed.

Lemma push_high_freq_within mode qs x :
  within_capacity (queue_high_freq qs) ->
  within_capacity (queue_high_freq (push_high_freq mode qs x))
  /\ maxsize (queue_high_freq (push_high_freq mode qs x))
     = maxsize (queue_high_freq qs).
Proof.
  intros Hq. unfold push_high_freq.
  destruct (gt0 mode); [|split; [exact Hq|reflexivity]].
  destruct (put_nowait (queue_high_freq qs) x) as [q|e] eqn:Hput.
  - cbn [queue_high_freq]. apply (put_within _ _ _ Hq Hput).
  - destruct (clear_within (queue_high_freq qs)) as [Hc Hm].
    destruct (put_nowait (clear (queue_high_freq qs)) x) as [q|e'] eqn:Hput2.
    + cbn [queue_high_freq].
      destruct (put_within _ _ _ Hc Hput2) as [Hw Hm2].
      split; [exact Hw|]. rewrite Hm2. exact Hm.
    + cbn [queue_high_freq]. split; assumption.
Qed.

Lemma push_visualization_within qs x :
  within_capacity (queue_visualization qs) ->
  within_capacity (queue_visualization (push_visualization qs x))
  /\ maxsize (queue_visualization (push_visualization qs x))
     = maxsize (queue_visualization qs).
Proof.
  intros Hq. unfold push_visualization.
  destruct (put_nowait (queue_visualization qs) x) as [q|e] eqn:Hput.
  - cbn [queue_visualization]. apply (put_within _ _ _ Hq Hput).
  - destruct (clear_within (queue_visualization qs)) as [Hc Hm].
    destruct (put_nowait (clear (queue_visualization qs)) x) as [q|e'] eqn:Hput2.
    + cbn [queue_visualization].
      destruct (put_within _ _ _ Hc Hput2) as [Hw Hm2].
      split; [exact Hw|]. rewrite Hm2. exact Hm.
    + cbn [queue_visualization]. split; assumption.
Qed.

Lemma enqueue_sample_within h s v mode qs x :
  all_within h s v qs -> all_within h s v (enqueue_sample mode qs x).
Proof.
  intros ((Hh & Mh) & (Hs & Ms) & (Hv & Mv)). unfold enqueue_sample.
  destruct (push_high_freq_items mode qs x) as (_ & Estd & Eviz).
  cbv zeta in Estd, Eviz.
  destruct (push_high_freq_within mode qs x Hh) as [Hh1 Mh1].
  set (qs1 := push_high_freq mode qs x) in *.
  destruct (put_nowait (queue_standard qs1) x) as [q|e] eqn:Hput.
  - rewrite Estd in Hput. destruct (put_within _ _ _ Hs Hput) as [Hq Mq].
    match goal with
    | |- all_within _ _ _ (push_visualization ?q0 x) =>
        destruct (push_visualization_items q0 x) as (_ & Es & Eh);
        destruct (push_visualization_within q0 x) as [Hv2 Mv2]
    end.
    { cbn [queue_visualization]. rewrite Eviz. exact Hv. }
    cbv zeta in Es, Eh. unfold all_within. rewrite Es, Eh.
    cbn [queue_high_freq queue_standard queue_visualization] in *.
    rewrite Eviz in Mv2.
    repeat split; try assumption; congruence.
  - unfold all_within.
    cbn [queue_high_freq queue_standard queue_visualization].
    rewrite Estd, Eviz. repeat split; try assumption; congruence.
Qed.

(** X8.  However many samples the producer hands over, and under whatever
    modes, without any consumer taking one away: the high-frequency
    queue never holds more than 1000 samples, the standard queue never
    more than 500 and the visualization queue never more than 500. *)
Theorem queues_stay_within_capacity samples :
  let qs := enqueue_all samples
              (mk_queues queue_high_freq0 queue_standard0
                 queue_visualization0 0 []) in
  (List.length (items (queue_high_freq qs)) <= 1000)%nat
  /\ (List.length (items (queue_standard qs)) <= 500)%nat
  /\ (List.length (items (queue_visualization qs)) <= 500)%nat.
Proof.
  cbv zeta.
  assert (Hall : forall l qs, all_within 1000 500 500 qs ->
                              all_within 1000 500 500 (enqueue_all l qs)).
  { induction l as [|[mode x] tl IH]; intros qs Hqs; cbn [enqueue_all];
      [exact Hqs|]. apply IH, enqueue_sample_within, Hqs. }
  destruct (Hall samples (mk_queues queue_high_freq0 queue_standard0
                            queue_visualization0 0 []))
    as ((Hh & Mh) & (Hs & Ms) & (Hv & Mv)).
  { unfold all_within, within_capacity.
    cbn [queue_high_freq queue_standard queue_visualization maxsize items
           queue_high_freq0 queue_standard0 queue_visualization0 List.length].
    repeat split; try reflexivity; right; lia. }
  unfold within_capacity in *. rewrite Mh in Hh. rewrite Ms in Hs.
  rewrite Mv in Hv. repeat split; lia.
Qed.

End Capacity.

(** ** Rounding *)

Section RoundingMore.
Import PyFloat PyStr Py Utils DataProcessor Vocabulary Vocabulary2 Scenarios Scenarios2.

Lemma round_half_even_exact (m : Z) (b : positive) :
  round_half_even (m * Zpos b) b = m.
Proof.
  unfold round_half_even.
  rewrite Z.div_mul by lia. rewrite Z.mod_mul by lia.
  change (2 * 0 ?= Z.pos b) with Lt. reflexivity.
Qed.

Lemma round_nd_of_rounded (n : nat) (m : Z) :
  let scale := Z.to_pos (10 ^ Z.of_nat n) in
  round_nd n (Fin (Q2Qc (m # scale))) = Fin (Q2Qc (m # scale)).
Proof.
  cbv zeta. unfold round_nd. do 2 f_equal.
  cbn [this Q2Qc].
  assert (Hpos : 0 < 10 ^ Z.of_nat n) by (apply Z.pow_pos_nonneg; lia).
  pose proof (Qred_correct (m # Z.to_pos (10 ^ Z.of_nat n))) as Heq.
  destruct (Qred (m # Z.to_pos (10 ^ Z.of_nat n))) as [a b].
  unfold Qeq in Heq. cbn [Qnum Qden] in *.
  rewrite Z2Pos.id in Heq by exact Hpos.
  rewrite Heq. f_equal. apply round_half_even_exact.
Qed.

Lemma round_nd_idempotent (n : nat) (x : pyfloat) :
  round_nd n (round_nd n x) = round_nd n x.
Proof.
  destruct x as [q| | |]; try reflexivity.
  unfold round_nd at 2. apply round_nd_of_rounded.
Qed.

(** X9.  Rounding a prepared row again changes nothing: the row a logger
    hands to the writer is a fixed point of [prepare_data_for_logging]. *)
Theorem prepare_is_idempotent t u v w d2 d3 az ele press temp rh sonic err :
  exists row,
    prepare_data_for_logging
      (row_dict t u v w d2 d3 az ele press temp rh sonic err) = Ok row
    /\ prepare_data_for_logging row = Ok row.
Proof.
  eexists. split; [apply prepare_row_dict|].
  rewrite prepare_row_dict. unfold r8.
  rewrite !round_nd_idempotent. reflexivity.
Qed.

Lemma dict_set_fresh (d : pydict) k v :
  ~ List.In k (List.map fst d) -> dict_set d k v = d ++ [(k, v)].
Proof.
  induction d as [|[k' v'] d IH]; cbn [dict_set List.map fst List.app];
    intros Hin; [reflexivity|].
  destruct (String.eqb_spec k k') as [->|Hne].
  - exfalso. apply Hin. left. reflexivity.
  - rewrite IH; [reflexivity|]. intros H. apply Hin. right. exact H.
Qed.

Lemma round_loop_spec keys items : forall acc,
  List.NoDup (List.map fst acc ++ List.map fst items) ->
  round_loop items keys acc
  = if roundable keys items
    then Ok (acc ++ List.map (rounded_item keys) items)
    else Raise TypeError.
Proof.
  induction items as [|[k v] tl IH]; intros acc Hnd;
    cbn [round_loop roundable List.forallb List.map fst snd].
  - rewrite List.app_nil_r. reflexivity.
  - fold (roundable keys tl).
    assert (Hfresh : ~ List.In k (List.map fst acc)).
    { cbn [List.map fst] in Hnd. apply List.NoDup_remove_2 in Hnd.
      intros H. apply Hnd. apply List.in_or_app. left. exact H. }
    assert (Hnd' : forall v', List.NoDup (List.map fst (dict_set acc k v')
                                          ++ List.map fst tl)).
    { intros v'. rewrite (dict_set_fresh acc k v' Hfresh).
      rewrite List.map_app, <- List.app_assoc. exact Hnd. }
    destruct (key_in k keys) eqn:Hk.
    + destruct v as [s|x|t|]; cbn [round8 bind negb andb]; try reflexivity.
      rewrite (IH _ (Hnd' _)), (dict_set_fresh acc k _ Hfresh).
      cbn [rounded_item]. rewrite Hk, <- List.app_assoc. reflexivity.
    + rewrite (IH _ (Hnd' _)), (dict_set_fresh acc k _ Hfresh).
      assert (Hitem : rounded_item keys (k, v) = (k, v))
        by (destruct v; cbn [rounded_item]; rewrite ?Hk; reflexivity).
      rewrite Hitem, <- List.app_assoc.
      destruct v; reflexivity.
Qed.

(** X11.  On a dictionary (its keys are distinct),
    [round_only_roundable_dict_keys] either rounds or raises: when every
    value under a key to round is a number, it returns the items in their
    order, each number under a key to round rounded to 8 decimals and
    everything else untouched; when some value under a key to round is not
    a number (a time, a string, [None]) it raises [TypeError]. *)
Theorem round_only_roundable_spec (my_data : pydict) (keys_to_round : list string) :
  List.NoDup (List.map fst my_data) ->
  round_only_roundable_dict_keys my_data keys_to_round
  = if roundable keys_to_round my_data
    then Ok (List.map (rounded_item keys_to_round) my_data)
    else Raise TypeError.
Proof.
  intros Hnd. unfold round_only_roundable_dict_keys.
  rewrite (round_loop_spec keys_to_round my_data []); [reflexivity|exact Hnd].
Qed.

Lemma round_only_roundable_spec_witness :
  round_only_roundable_dict_keys mixed_data ["var1"; "var2"]
  = Ok (List.map (rounded_item ["var1"; "var2"]) mixed_data)
  /\ round_only_roundable_dict_keys mixed_data [] = Ok mixed_data
  /\ round_only_roundable_dict_keys mixed_data ["tNow"] = Raise TypeError.
Proof.
  assert (Hnd : List.NoDup (List.map fst mixed_data)).
  { cbn [mixed_data List.map fst].
    repeat (constructor; [cbn [List.In]; intuition discriminate|]).
    constructor. }
  split; [|split].
  - rewrite (round_only_roundable_spec mixed_data ["var1"; "var2"] Hnd).
    reflexivity.
  - rewrite (round_only_roundable_spec mixed_data [] Hnd). reflexivity.
  - rewrite (round_only_roundable_spec mixed_data ["tNow"] Hnd). reflexivity.
Defined.

End RoundingMore.

(** ** The mode: controller, main loop *)

Section ModeMore.
Import PyFloat PyStr Py DataProcessor Threads MainLoop Runs Vocabulary
  Vocabulary2 Scenarios Scenarios2.

Lemma upper_char_case (x lo c : ascii) :
  List.forallb
    (fun c => implb (Ascii.eqb (upper_char c) x)
                (Ascii.eqb c x || Ascii.eqb c lo)) all_ascii = true ->
  upper_char c = x -> c = x \/ c = lo.
Proof.
  intros Hall Hc. pose proof (forall_ascii _ Hall c) as H. cbn beta in H.
  rewrite Hc, Ascii.eqb_refl in H. cbn [implb] in H.
  apply orb_prop in H as [H|H]; apply Ascii.eqb_eq in H; auto.
Qed.

Lemma status_is_no_number s : upper s = "STATUS" -> py_float s = None.
Proof.
  intros H. apply (f_equal chars) in H. unfold upper in H.
  rewrite chars_str in H. unfold py_float.
  destruct (chars s) as [|c1 [|c2 [|c3 [|c4 [|c5 [|c6 [|c7 l]]]]]]];
    try discriminate H.
  cbn [List.map chars list_ascii_of_string] in H.
  injection H as H1 H2 H3 H4 H5 H6.
  apply (upper_char_case "S" "s" c1 eq_refl) in H1.
  apply (upper_char_case "T" "t" c2 eq_refl) in H2.
  apply (upper_char_case "A" "a" c3 eq_refl) in H3.
  apply (upper_char_case "T" "t" c4 eq_refl) in H4.
  apply (upper_char_case "U" "u" c5 eq_refl) in H5.
  apply (upper_char_case "S" "s" c6 eq_refl) in H6.
  destruct H1 as [-> | ->], H2 as [-> | ->], H3 as [-> | ->],
    H4 as [-> | ->], H5 as [-> | ->], H6 as [-> | ->];
    vm_compute; reflexivity.
Qed.

Lemma feqb_gt0 a b : feqb a b = true -> gt0 a = gt0 b.
Proof.
  destruct a as [p| | |], b as [q| | |]; cbn [feqb gt0]; try discriminate;
    try reflexivity.
  intros H. apply Qeq_bool_eq in H. apply Qc_is_canon in H. subst q.
  reflexivity.
Qed.

Lemma mode_after_set host text send_ok v sdl_mode :
  py_float (strip text) = Some v ->
  let r := check_mode_command host (Datagram (Some text)) send_ok sdl_mode in
  gt0 (new_mode r) = gt0 v /\ replies r = [].
Proof.
  intros Hv. cbv zeta. unfold check_mode_command.
  destruct (String.eqb_spec (upper (strip text)) "STATUS") as [Hs|_].
  - apply status_is_no_number in Hs. congruence.
  - rewrite Hv. unfold fneb.
    destruct (feqb v sdl_mode) eqn:Heq; cbn [negb new_mode replies].
    + split; [symmetry; apply feqb_gt0; exact Heq|reflexivity].
    + split; reflexivity.
Qed.

Lemma status_request_reply_parts host text sdl_mode :
  upper text = "STATUS" ->
  let r := check_mode_command host (Datagram (Some text)) true sdl_mode in
  new_mode r = sdl_mode
  /\ replies r
     = [mk_sent host 8251
          (if gt0 sdl_mode then "CURRENT_MODE:32Hz" else "CURRENT_MODE:1Hz")].
Proof.
  intros H. cbv zeta.
  rewrite status_branch by (rewrite (strip_status text H); exact H).
  split; reflexivity.
Qed.

(** X12.  After any mode-set datagram, whose payload is a number [v], a
    STATUS request is answered [CURRENT_MODE:32Hz] when [v > 0] and
    [CURRENT_MODE:1Hz] otherwise, whatever the mode was before; the request
    leaves the mode as the datagram set it. *)
Theorem mode_set_then_status host text send_ok v sdl_mode status_text :
  py_float (strip text) = Some v ->
  upper status_text = "STATUS" ->
  let set := check_mode_command host (Datagram (Some text)) send_ok sdl_mode in
  let ask := check_mode_command host (Datagram (Some status_text)) true
               (new_mode set) in
  replies ask
  = [mk_sent host 8251
       (if gt0 v then "CURRENT_MODE:32Hz" else "CURRENT_MODE:1Hz")]
  /\ new_mode ask = new_mode set.
Proof.
  intros Hv Hs set ask.
  destruct (mode_after_set host text send_ok v sdl_mode Hv) as [Hgt _].
  fold set in Hgt.
  destruct (status_request_reply_parts host status_text (new_mode set) Hs)
    as [Hmode Hrep].
  fold ask in Hmode, Hrep. rewrite Hrep, Hgt. split; [reflexivity|exact Hmode].
Qed.

Lemma mode_set_then_status_witness :
  replies (check_mode_command "localhost" (Datagram (Some "status")) true
             (new_mode (check_mode_command "localhost"
                          (Datagram (Some " 2.5 ")) true (of_Z 0))))
  = [mk_sent "localhost" 8251 "CURRENT_MODE:32Hz"]
  /\ replies (check_mode_command "localhost" (Datagram (Some "STATUS")) true
                (new_mode (check_mode_command "localhost"
                             (Datagram (Some "-3")) true (of_Z 1))))
     = [mk_sent "localhost" 8251 "CURRENT_MODE:1Hz"].
Proof.
  split.
  - apply (mode_set_then_status "localhost" " 2.5 " true (of_frac 5 2)
             (of_Z 0) "status").
    + vm_compute. do 2 f_equal. apply Qc_is_canon. reflexivity.
    + vm_compute. reflexivity.
  - apply (mode_set_then_status "localhost" "-3" true (of_Z (-3))
             (of_Z 1) "STATUS").
    + vm_compute. reflexivity.
    + vm_compute. reflexivity.
Defined.

Section Rates.
Variable HIGH_FREQ_RATE : seconds.
Variable STANDARD_RATE : seconds.

Lemma adjust_rate_follows st c :
  data_interval st = interval_for HIGH_FREQ_RATE STANDARD_RATE (last_mode st) ->
  let st' := adjust_rate HIGH_FREQ_RATE STANDARD_RATE st c in
  data_interval st' = interval_for HIGH_FREQ_RATE STANDARD_RATE (last_mode st')
  /\ gt0 (last_mode st') = gt0 c.
Proof.
  intros Hinv. cbv zeta. unfold adjust_rate, fneb.
  destruct (feqb c (last_mode st)) eqn:Heq; cbn [negb].
  - split; [exact Hinv|]. symmetry. apply feqb_gt0. exact Heq.
  - cbn [data_interval last_mode]. split; reflexivity.
Qed.

Lemma last_cons {A} (c : A) tl d : List.last (c :: tl) d = List.last tl c.
Proof.
  revert c d. induction tl as [|x tl IH]; intros c d; [reflexivity|].
  change (List.last (c :: x :: tl) d) with (List.last (x :: tl) d).
  rewrite (IH x d), (IH x c). reflexivity.
Qed.

Lemma adjust_all_follows modes : forall st d,
  data_interval st = interval_for HIGH_FREQ_RATE STANDARD_RATE (last_mode st) ->
  gt0 d = gt0 (last_mode st) ->
  data_interval (adjust_all HIGH_FREQ_RATE STANDARD_RATE modes st)
  = interval_for HIGH_FREQ_RATE STANDARD_RATE (List.last modes d).
Proof.
  induction modes as [|c tl IH]; intros st d Hinv Hd.
  - cbn [adjust_all List.fold_left List.last]. rewrite Hinv.
    unfold interval_for. rewrite Hd. reflexivity.
  - destruct (adjust_rate_follows st c Hinv) as [Hinv' Hgt].
    cbv zeta in Hinv', Hgt.
    unfold adjust_all. cbn [List.fold_left].
    fold (adjust_all HIGH_FREQ_RATE STANDARD_RATE tl
            (adjust_rate HIGH_FREQ_RATE STANDARD_RATE st c)).
    rewrite last_cons. apply IH; [exact Hinv'|]. symmetry. exact Hgt.
Qed.

(** X13.  The sampling interval of the main loop follows the mode: after
    the loop has read any sequence of mode values, the interval is
    [HIGH_FREQ_RATE] when the value read last is positive and
    [STANDARD_RATE / 10] otherwise, as it is before the first reading. *)
Theorem interval_follows_mode (modes : list pyfloat) :
  data_interval
    (adjust_all HIGH_FREQ_RATE STANDARD_RATE modes
       (pace_initial STANDARD_RATE))
  = interval_for HIGH_FREQ_RATE STANDARD_RATE (List.last modes (of_Z 0)).
Proof.
  apply adjust_all_follows; reflexivity.
Qed.
End Rates.

End ModeMore.

(** ** The rotation notices ([logfile_name_updater]) *)

Section Notices.
Import NameUpdater Vocabulary2.

Lemma dedup_changes l : forall prev, changes prev (dedup prev l).
Proof.
  induction l as [|x tl IH]; intros prev; cbn [dedup changes]; [trivial|].
  destruct (String.eqb_spec prev x) as [->|Hne]; [apply IH|].
  cbn [changes]. split; [congruence|apply IH].
Qed.

(** X14.  The name updater puts a prefix on the queue exactly when a clock
    reading differs from the prefix it holds: over any readings the queue
    gains one notice for every change, so no notice repeats its
    predecessor and none repeats the starting prefix first; readings that
    stay on the current prefix add nothing.  The thread ends up holding
    the last reading. *)
Theorem notices_mark_changes readings : forall fname_start q_fname,
  updater readings fname_start q_fname
  = (List.last readings fname_start, q_fname ++ dedup fname_start readings)
  /\ changes fname_start (dedup fname_start readings)
  /\ (List.forallb (String.eqb fname_start) readings = true ->
      dedup fname_start readings = []).
Proof.
  induction readings as [|x tl IH]; intros p q.
  - cbn [updater List.last dedup]. rewrite List.app_nil_r. repeat split.
  - split; [|split; [apply dedup_changes|]].
    + cbn [updater dedup]. unfold updater_turn.
      rewrite (last_cons x tl p).
      destruct (String.eqb_spec p x) as [->|Hne]; cbn [negb].
      * apply IH.
      * destruct (IH x (q ++ [x])) as [-> _].
        rewrite <- List.app_assoc. reflexivity.
    + cbn [List.forallb dedup]. intros H. apply andb_prop in H as [Hx Htl].
      rewrite Hx. apply (proj2 (proj2 (IH p []))). exact Htl.
Qed.

Lemma notices_mark_changes_witness :
  updater ["d1"; "d1"; "d2"; "d2"; "d3"] "d1" [] = ("d3", ["d2"; "d3"])
  /\ dedup "d1" ["d1"; "d1"] = [].
Proof.
  split.
  - rewrite (proj1 (notices_mark_changes ["d1"; "d1"; "d2"; "d2"; "d3"]
                      "d1" [])).
    reflexivity.
  - apply (proj2 (proj2 (notices_mark_changes ["d1"; "d1"] "d1" []))).
    reflexivity.
Defined.

End Notices.

(** ** The writer: rows and the file handle *)

Section Writer.
Import PyFloat PyStr Py DataProcessor Threads Logger Vocabulary Vocabulary2
  Scenarios Scenarios2.

Variable log_dir : string.
Variable fieldnames : list string.
Variable strftime_now : nat -> string.

Lemma rows_written_app a b :
  rows_written (a ++ b) = rows_written a ++ rows_written b.
Proof.
  induction a as [|op a IH]; cbn [List.app rows_written]; [reflexivity|].
  destruct op; cbn [List.app]; rewrite IH; reflexivity.
Qed.

Lemma rotate_rows pending : forall st,
  rows_written (ops (rotate_pending log_dir strftime_now pending st))
  = rows_written (ops st).
Proof.
  induction pending as [|p tl IH]; intros st; cbn [rotate_pending]; [reflexivity|].
  rewrite IH. unfold open_new_logfile_at_current_time. cbn [ops].
  rewrite !rows_written_app. cbn [rows_written].
  rewrite !List.app_nil_r. reflexivity.
Qed.

Lemma header_rows st :
  rows_written (ops (write_header_if_first fieldnames st))
  = rows_written (ops st).
Proof.
  unfold write_header_if_first.
  destruct (first_log_line st); [|reflexivity].
  destruct (negb (file_exists st)); cbn [ops]; [|reflexivity].
  rewrite rows_written_app. cbn [rows_written]. apply List.app_nil_r.
Qed.

Lemma write_accepts st data_dict :
  consistent st ->
  well_formed fieldnames (Submit data_dict) = true ->
  exists st',
    write_logfile log_dir fieldnames strftime_now st data_dict = (st', None)
    /\ rows_written (ops st')
       = rows_written (ops st) ++ [List.map (dict_get data_dict) fieldnames].
Proof.
  intros Hst Hwf. cbn [well_formed] in Hwf.
  apply andb_prop in Hwf as [Ht Hkeys].
  unfold write_logfile.
  destruct (dict_get data_dict "tNow"); [|discriminate Ht].
  pose proof (rotate_consistent log_dir strftime_now (q_fname st) st Hst) as Hrot.
  destruct (header_consistent fieldnames _ Hrot) as [Hhead Hfl].
  pose proof (header_rows (rotate_pending log_dir strftime_now (q_fname st) st))
    as Hrows.
  rewrite rotate_rows in Hrows.
  set (st2 := write_header_if_first fieldnames _) in *.
  destruct Hhead as (w & _ & _ & Hdw).
  rewrite (Hdw Hfl). unfold csv_cells. rewrite Hkeys.
  eexists. split; [reflexivity|]. cbn [ops].
  rewrite rows_written_app, Hrows. reflexivity.
Qed.

Lemma run_rows evs : forall st,
  consistent st ->
  List.forallb (well_formed fieldnames) evs = true ->
  rows_written (ops (run log_dir fieldnames strftime_now evs st))
  = rows_written (ops st) ++ rows_submitted fieldnames evs.
Proof.
  induction evs as [|ev tl IH]; intros st Hst Hwf;
    cbn [run rows_submitted]; [rewrite List.app_nil_r; reflexivity|].
  cbn [List.forallb] in Hwf. apply andb_prop in Hwf as [Hev Htl].
  destruct ev as [prefix|d].
  - rewrite IH; [reflexivity|apply notify_consistent; exact Hst|exact Htl].
  - destruct (write_accepts st d Hst Hev) as (st' & Hw & Hrows).
    pose proof (write_consistent log_dir fieldnames strftime_now st d Hst) as Hc.
    rewrite Hw in *. cbn [fst] in Hc.
    rewrite (IH st' Hc Htl), Hrows, <- List.app_assoc. reflexivity.
Qed.

(** X15.  The writer loses no row and keeps their order: when every
    submitted dictionary has a timestamp and no key outside the schema,
    the rows written to the files, over all rotations, are exactly the
    submitted rows, each once, in the order of submission, with one cell
    per schema field in schema order.  No submission ends the process. *)
Theorem rows_are_written_in_order files evs :
  List.forallb (well_formed fieldnames) evs = true ->
  rows_written
    (ops (run log_dir fieldnames strftime_now evs
            (init log_dir strftime_now files)))
  = rows_submitted fieldnames evs.
Proof.
  intros Hwf.
  assert (Hinit : consistent (init log_dir strftime_now files)).
  { unfold init. apply (open_consistent _ _ _ None). reflexivity. }
  rewrite (run_rows evs _ Hinit Hwf). reflexivity.
Qed.

Lemma handle_scan_app a : forall cur b,
  handle_scan cur (a ++ b)
  = match handle_scan cur a with
    | Some next => handle_scan next b
    | None => None
    end.
Proof.
  induction a as [|op a IH]; intros cur b; cbn [handle_scan List.app]; [reflexivity|].
  destruct (handle_step cur op); [apply IH|reflexivity].
Qed.

Lemma open_held st :
  handle_scan None (ops st) = Some None ->
  handle_held (open_new_logfile_at_current_time log_dir strftime_now st).
Proof.
  intros H. unfold handle_held, open_new_logfile_at_current_time.
  cbn [ops fd_log first_log_line dw_log].
  rewrite handle_scan_app, H. split; [reflexivity|]. intros Hc. discriminate Hc.
Qed.

Lemma rotate_held pending : forall st,
  handle_held st ->
  handle_held (rotate_pending log_dir strftime_now pending st).
Proof.
  induction pending as [|p tl IH]; intros st Hst; cbn [rotate_pending];
    [exact Hst|].
  apply IH, open_held. cbn [ops]. destruct Hst as [Hscan _].
  rewrite handle_scan_app, Hscan. cbn [handle_scan handle_step].
  rewrite String.eqb_refl. reflexivity.
Qed.

Lemma header_held st :
  handle_held st ->
  handle_held (write_header_if_first fieldnames st)
  /\ first_log_line (write_header_if_first fieldnames st) = false.
Proof.
  intros [Hscan Hdw]. unfold write_header_if_first.
  destruct (first_log_line st) eqn:Hf.
  2:{ split; [|exact Hf]. split; [exact Hscan|]. rewrite Hf. exact Hdw. }
  split; [|reflexivity]. unfold handle_held.
  cbn [ops fd_log first_log_line dw_log].
  destruct (negb (file_exists st)).
  - rewrite handle_scan_app, Hscan. cbn [handle_scan handle_step].
    rewrite String.eqb_refl. split; reflexivity.
  - split; [exact Hscan|reflexivity].
Qed.

Lemma write_held st data_dict :
  handle_held st ->
  handle_held (fst (write_logfile log_dir fieldnames strftime_now st data_dict)).
Proof.
  intros Hst. unfold write_logfile.
  destruct (dict_get data_dict "tNow"); [|exact Hst].
  pose proof (rotate_held (q_fname st) st Hst) as Hrot.
  destruct (header_held _ Hrot) as [Hhead Hfl].
  set (st2 := write_header_if_first fieldnames _) in *.
  destruct Hhead as [Hscan Hdw]. rewrite (Hdw Hfl).
  destruct (csv_cells fieldnames data_dict) as [cells|e].
  - cbn [fst]. unfold handle_held.
    cbn [ops fd_log first_log_line dw_log].
    rewrite handle_scan_app, Hscan. cbn [handle_scan handle_step].
    rewrite String.eqb_refl. split; [reflexivity|]. intros _. reflexivity.
  - destruct e; cbn [fst]; split; assumption.
Qed.

Lemma run_held evs : forall st,
  handle_held st ->
  handle_held (run log_dir fieldnames strftime_now evs st).
Proof.
  induction evs as [|ev tl IH]; intros st Hst; cbn [run]; [exact Hst|].
  destruct ev as [prefix|d].
  - apply IH. exact Hst.
  - pose proof (write_held st d Hst) as Hw.
    destruct (write_logfile log_dir fieldnames strftime_now st d)
      as [st' [e|]]; cbn [fst] in Hw.
    + destruct e; try (apply IH; exact Hw). exact Hw.
    + apply IH. exact Hw.
Qed.

(** X16.  The writer holds exactly one file handle: over any rotations and
    submissions a file is opened only after the one before was closed,
    the file closed is always the open one, and the header and the rows
    go only to the file that is open at that time; at the end one file,
    the logger's [fd_log], is open. *)
Theorem one_file_open_at_a_time files evs :
  let final := run log_dir fieldnames strftime_now evs
                 (init log_dir strftime_now files) in
  one_handle (ops final) = true
  /\ handle_scan None (ops final) = Some (Some (fd_log final)).
Proof.
  cbv zeta.
  assert (Hinit : handle_held (init log_dir strftime_now files)).
  { unfold init. apply open_held. reflexivity. }
  destruct (run_held evs _ Hinit) as [Hscan _].
  unfold one_handle. rewrite Hscan. split; reflexivity.
Qed.

End Writer.

Section WriterRuns.
Import PyFloat PyStr Py DataProcessor Threads Logger Vocabulary Vocabulary2
  Scenarios Scenarios2.

Lemma rows_are_written_in_order_witness :
  rows_written
    (ops (run "/var/tmp/wx" Config.FIELDNAMES clock
            [Submit one_row; Rotation "2025_01_02"; Submit one_row]
            (init "/var/tmp/wx" clock ∅)))
  = [cells_of_row; cells_of_row].
Proof.
  rewrite (rows_are_written_in_order "/var/tmp/wx" Config.FIELDNAMES clock ∅
             [Submit one_row; Rotation "2025_01_02"; Submit one_row]
             ltac:(vm_compute; reflexivity)).
  reflexivity.
Defined.

End WriterRuns.

(** ** From the serial line to the sample *)

Section SerialMore.
Import PyFloat PyStr Py Utils DataProcessor SerialHandler Downsampling
  Threads Vocabulary Vocabulary2 Scenarios Scenarios2.

Section Reading.
Variable isprintable : ascii -> bool.
Variable decode : string -> option string.
Variable uniform_str : nat -> string.

Lemma read_data_length connected error_count line :
  (12 <= List.length
           (snd (snd (read_data isprintable decode uniform_str connected
                        error_count line))))%nat.
Proof.
  unfold read_data.
  destruct connected; cbn [snd]; [|cbn; lia].
  destruct line as [data|]; cbn [snd]; [|cbn; lia].
  destruct (decode (remove_null_bytes data)) as [text|]; cbn [snd];
    [|cbn; lia].
  destruct (Nat.ltb_spec (List.length (split (strip text))) 12) as [Hlt|Hge];
    cbn [snd]; [cbn; lia|].
  rewrite List.length_map. exact Hge.
Qed.

(** X17.  [read_data] always returns at least twelve values.  It
    reports success exactly when it leaves the error count as it is;
    when it reports failure it has added one to the count and returns
    simulated values. *)
Theorem read_data_accounting connected error_count line :
  let r := read_data isprintable decode uniform_str connected error_count
             line in
  let success := fst (snd r) in
  let values := snd (snd r) in
  (12 <= List.length values)%nat
  /\ fst r = (if success then error_count else error_count + 1)
  /\ (if success then True
      else values = generate_simulated_data uniform_str).
Proof.
  cbv zeta. split; [apply read_data_length|].
  unfold read_data.
  destruct connected; cbn [fst snd]; [|split; try reflexivity; exact I].
  destruct line as [data|]; cbn [fst snd]; [|split; reflexivity].
  destruct (decode (remove_null_bytes data)) as [text|]; cbn [fst snd];
    [|split; reflexivity].
  destruct (List.length (split (strip text)) <? 12)%nat; cbn [fst snd];
    split; try reflexivity; exact I.
Qed.

Lemma simulated_or_cleaned_parse :
  (forall i, float_parseable (uniform_str i)) ->
  forall connected error_count line,
    List.Forall float_parseable
      (snd (snd (read_data isprintable decode uniform_str connected
                   error_count line))).
Proof.
  intros Hsim connected error_count line.
  pose proof (simulated_parse uniform_str Hsim) as Hs.
  unfold read_data.
  destruct connected; [|exact Hs].
  destruct line as [data|]; [|exact Hs].
  destruct (decode (remove_null_bytes data)) as [text|]; [|exact Hs].
  destruct (List.length (split (strip text)) <? 12)%nat; [exact Hs|].
  cbn [snd]. apply List.Forall_forall. intros s Hin.
  apply List.in_map_iff in Hin as (val & <- & _).
  apply clean_sensor_value_parses.
Qed.

Lemma field_of_parseable (values : list string) i :
  (i < List.length values)%nat ->
  List.Forall float_parseable values ->
  is_ok (field (List.map VStr values) i) = true.
Proof.
  intros Hi Hall. unfold field, index.
  rewrite List.nth_error_map.
  destruct (List.nth_error values i) as [s|] eqn:Hn.
  - cbn [option_map bind to_float].
    apply List.nth_error_In in Hn.
    rewrite List.Forall_forall in Hall.
    destruct (Hall s Hn) as [x ->]. reflexivity.
  - apply List.nth_error_None in Hn. lia.
Qed.

(** X18.  What [read_data] returns always passes calibration without an
    error: given that the texts of the simulated draws convert, the
    twelve conversions of [process_raw_data] succeed on every list
    [read_data] returns, so the sample's Error is the float of the
    twelfth value and the [except] branches, with their substituted
    zeros and [error_count + 1], are never taken. *)
Theorem read_then_process_never_fails connected error_count line
    count t_now :
  (forall i, float_parseable (uniform_str i)) ->
  let values := snd (snd (read_data isprintable decode uniform_str
                            connected error_count line)) in
  parses12 (List.map VStr values) = true
  /\ exists sample data_dict,
      process_raw_data (List.map VStr values) count t_now
      = Ok (sample, data_dict)
      /\ field (List.map VStr values) 11 = Ok (p_err sample).
Proof.
  intros Hsim values.
  assert (Hall : List.Forall float_parseable values).
  { apply (simulated_or_cleaned_parse Hsim). }
  pose proof (read_data_length connected error_count line) as Hlen.
  fold values in Hlen.
  assert (Hp : parses12 (List.map VStr values) = true).
  { unfold parses12. apply List.forallb_forall. intros i Hi.
    apply List.in_seq in Hi.
    apply field_of_parseable; [lia|exact Hall]. }
  split; [exact Hp|].
  destruct (parses12_fields _ Hp)
    as (u & v & w & d2 & d3 & az & ele & pr & te & rh & so & err & H).
  do 2 eexists.
  split; [apply (process_raw_data_ok _ _ _ _ _ _ _ _ _ _ _ _ _ _ _ H)|].
  cbn [List.map List.seq] in H. injection H as _ _ _ _ _ _ _ _ _ _ _ H11.
  exact H11.
Qed.

(** X19.  Cleaning is idempotent once the characters of the fallback
    text are printable: cleaning a cleaned value returns it unchanged. *)
Theorem clean_sensor_value_idempotent v :
  isprintable "0" = true -> isprintable "." = true ->
  clean_sensor_value isprintable (VStr (clean_sensor_value isprintable v))
  = clean_sensor_value isprintable v.
Proof.
  intros H0 Hdot.
  assert (Hzero : clean_sensor_value isprintable (VStr "0.0") = "0.0").
  { rewrite clean_sensor_value_str. unfold keeps, printable_only.
    cbn [chars list_ascii_of_string List.filter].
    rewrite H0, Hdot. reflexivity. }
  destruct v as [s|x|t|]; try exact Hzero.
  rewrite (clean_sensor_value_str isprintable s).
  destruct (keeps isprintable s) eqn:Hk; [|exact Hzero].
  rewrite clean_sensor_value_str.
  unfold keeps in *. rewrite !printable_only_idem, Hk. reflexivity.
Qed.
End Reading.

Lemma read_then_process_never_fails_witness :
  exists sample data_dict,
    process_raw_data
      (List.map VStr
         (snd (snd (read_data ascii_printable Some (fun _ => "1.5") true 0
                      (Some "1.0 2.0 x3 4 5 6 7 8 9 10 11 12 13")))))
      7 0
    = Ok (sample, data_dict)
    /\ p_err sample = of_Z 12.
Proof.
  destruct (read_then_process_never_fails ascii_printable Some
              (fun _ => "1.5") true 0
              (Some "1.0 2.0 x3 4 5 6 7 8 9 10 11 12 13") 7 0)
    as (_ & sample & data_dict & Hrun & Herr).
  { intros i. eexists. vm_compute. reflexivity. }
  exists sample, data_dict. split; [exact Hrun|].
  match type of Herr with
  | ?lhs = _ => assert (Hval : lhs = Ok (of_Z 12)) by (vm_compute; reflexivity)
  end.
  rewrite Hval in Herr. injection Herr as <-. reflexivity.
Defined.

Lemma clean_sensor_value_idempotent_witness :
  clean_sensor_value ascii_printable
    (VStr (clean_sensor_value ascii_printable (VStr "12.5x")))
  = "0.0".
Proof.
  rewrite (clean_sensor_value_idempotent ascii_printable (VStr "12.5x")
             eq_refl eq_refl).
  vm_compute. reflexivity.
Defined.

(** X20.  Fields after the twelfth are ignored: a line with more than
    twelve values gives the sample of its first twelve. *)
Theorem extra_fields_are_ignored values extra error_count t_now :
  (12 <= List.length values)%nat ->
  process_raw_data (values ++ extra) error_count t_now
  = process_raw_data values error_count t_now.
Proof.
  intros Hlen.
  assert (Hidx : forall i, (i < 12)%nat ->
                           index (values ++ extra) i = index values i).
  { intros i Hi. unfold index. rewrite List.nth_error_app1 by lia. reflexivity. }
  unfold process_raw_data, parse_and_correct. cbn [Nat.add].
  rewrite !Hidx by lia. reflexivity.
Qed.

Lemma extra_fields_are_ignored_witness :
  process_raw_data (sensor_line ++ [VStr "99"; VStr "junk"]) 0 0
  = process_raw_data sensor_line 0 0.
Proof.
  apply (extra_fields_are_ignored sensor_line [VStr "99"; VStr "junk"] 0 0).
  vm_compute. lia.
Defined.

Lemma iloc_tail_length n df :
  (0 < n <= List.length df)%nat -> List.length (iloc_tail n df) = n.
Proof.
  intros H. unfold iloc_tail. destruct n as [|k]; [lia|].
  rewrite List.length_skipn. lia.
Qed.

(** X21.  [downsample_data] returns [None] exactly when the frame has
    fewer rows than [buffer_limit]; otherwise it returns the 1-second
    means of the last [buffer_limit] rows (of all rows when
    [buffer_limit] is 0), whose first row, for a frame that is not empty,
    averages the rows of the earliest second among them. *)
Theorem downsample_data_spec df buffer_limit :
  downsample_data df buffer_limit
  = (if (buffer_limit <=? List.length df)%nat
     then Some (resample_1s_mean (iloc_tail buffer_limit df))
     else None)
  /\ (df <> [] ->
      (buffer_limit <= List.length df)%nat ->
      exists rest,
        downsample_data df buffer_limit
        = Some (bucket_mean (iloc_tail buffer_limit df)
                  (earliest_second (iloc_tail buffer_limit df)) :: rest)).
Proof.
  assert (Hspec : downsample_data df buffer_limit
                  = if (buffer_limit <=? List.length df)%nat
                    then Some (resample_1s_mean (iloc_tail buffer_limit df))
                    else None).
  { unfold downsample_data.
    destruct (Nat.ltb_spec buffer_limit (List.length df)) as [Hlt|Hge].
    - destruct buffer_limit as [|k].
      + cbn [iloc_tail]. reflexivity.
      + rewrite iloc_tail_length by lia.
        rewrite Nat.leb_refl.
        destruct (Nat.leb_spec (S k) (List.length df)); [reflexivity|lia].
    - destruct (Nat.leb_spec buffer_limit (List.length df)) as [Hle|Hgt];
        [|reflexivity].
      assert (Heq : buffer_limit = List.length df) by lia.
      unfold iloc_tail. destruct buffer_limit; [reflexivity|].
      rewrite Heq, Nat.sub_diag. reflexivity. }
  split; [exact Hspec|].
  intros Hne Hle. rewrite Hspec.
  destruct (Nat.leb_spec buffer_limit (List.length df)) as [_|Hgt]; [|lia].
  assert (Htail : iloc_tail buffer_limit df <> []).
  { destruct buffer_limit as [|k]; [exact Hne|].
    intros Hnil. apply (f_equal (@List.length _)) in Hnil.
    rewrite iloc_tail_length in Hnil by lia. discriminate Hnil. }
  destruct (resample_head _ Htail) as [rest ->]. exists rest. reflexivity.
Qed.

Lemma downsample_data_spec_witness :
  downsample_data (data_frame std_filled) 33 = None
  /\ exists rest,
      downsample_data (data_frame std_filled) 10
      = Some (bucket_mean (iloc_tail 10 (data_frame std_filled)) 2 :: rest).
Proof.
  split; [vm_compute; reflexivity|].
  destruct (proj2 (downsample_data_spec (data_frame std_filled) 10))
    as [rest Hrest].
  { vm_compute. discriminate. }
  { vm_compute. lia. }
  exists rest. rewrite Hrest. do 2 f_equal.
Defined.

End SerialMore.

(** ** The loggers and the schema; the visualization sender *)

Section Schema.
Import PyFloat PyStr Py DataProcessor Threads Logger UdpSender Vocabulary
  Vocabulary2 Scenarios Scenarios2.

Lemma row_dict_fits t u v w d2 d3 az ele press temp rh sonic err :
  let row := row_dict t u v w d2 d3 az ele press temp rh sonic err in
  well_formed Config.FIELDNAMES (Submit row) = true
  /\ csv_cells Config.FIELDNAMES row
     = Ok [ Some (VTime t); Some (VNum u); Some (VNum v); Some (VNum w);
            Some (VNum d2); Some (VNum d3); Some (VNum az); Some (VNum ele);
            Some (VNum press); Some (VNum temp); Some (VNum rh);
            Some (VNum sonic); Some (VNum err) ].
Proof. split; reflexivity. Qed.

Lemma hf_row_shape rate st mode t queue st' queue' row :
  hf_iteration rate st mode t queue = Ok (st', queue', Some row) ->
  exists ts u v w d2 d3 az ele press temp rh sonic err,
    row = row_dict ts u v w d2 d3 az ele press temp rh sonic err.
Proof.
  unfold hf_iteration.
  destruct (fneb mode (hf_last_mode st)); [intros H; discriminate H|].
  destruct queue as [|x rest]; [intros H; discriminate H|].
  destruct (gt0 mode); [|intros H; discriminate H].
  destruct (negb _); [intros H; discriminate H|].
  unfold hf_row. rewrite prepare_row_dict. cbn [bind].
  intros H. injection H as _ _ <-. do 13 eexists. reflexivity.
Qed.

(** X22.  Every row a logger hands to the writer fits the configured
    schema: it has the timestamp and no key outside [FIELDNAMES], and its
    CSV line has a value in each of the thirteen columns.  So, on a
    logger whose [DictWriter] is in place, a row of the high-frequency or
    the standard logger never ends the process and never leaves a column
    empty. *)
Theorem logger_rows_fit_schema row :
  (exists rate st mode t queue st' queue',
      hf_iteration rate st mode t queue = Ok (st', queue', Some row))
  \/ (exists rate st mode t now queue,
         written (snd (std_iteration rate st mode t now queue)) = Some row) ->
  well_formed Config.FIELDNAMES (Submit row) = true
  /\ exists cells,
      csv_cells Config.FIELDNAMES row = Ok (List.map Some cells)
      /\ List.length cells = 13%nat.
Proof.
  intros Hrow.
  assert (Hshape : exists ts u v w d2 d3 az ele press temp rh sonic err,
             row = row_dict ts u v w d2 d3 az ele press temp rh sonic err).
  { destruct Hrow as [(rate & st & mode & t & queue & st' & queue' & H)
                     |(rate & st & mode & t & now & queue & H)].
    - apply (hf_row_shape _ _ _ _ _ _ _ _ H).
    - destruct (std_rows_are_rounded rate st mode t now queue row (or_introl H))
        as (last & u & v & w & d2 & d3 & az & ele & pr & te & rh & so & _ & ->).
      do 13 eexists. reflexivity. }
  destruct Hshape
    as (ts & u & v & w & d2 & d3 & az & ele & pr & te & rh & so & err & ->).
  destruct (row_dict_fits ts u v w d2 d3 az ele pr te rh so err) as [Hwf Hcells].
  cbv zeta in Hwf, Hcells. split; [exact Hwf|].
  eexists [_; _; _; _; _; _; _; _; _; _; _; _; _].
  split; [exact Hcells|reflexivity].
Qed.

Lemma logger_rows_fit_schema_witness :
  exists row,
    hf_iteration (Q2Qc (1 # 32)) hf_running (of_Z 1) (Q2Qc 10) [plain_sample]
    = Ok (mk_hf_state (Q2Qc 10) (of_Z 1) false, [], Some row)
    /\ well_formed Config.FIELDNAMES (Submit row) = true.
Proof.
  eexists. split; [vm_compute; reflexivity|].
  apply logger_rows_fit_schema. left.
  exists (Q2Qc (1 # 32)), hf_running, (of_Z 1), (Q2Qc 10), [plain_sample].
  do 2 eexists. vm_compute. reflexivity.
Defined.

(** X23.  A turn of the visualization sender does one of three things:
    it leaves the queue as it is and sends nothing; or it takes the
    oldest sample off the queue and sends exactly that sample, all
    thirteen values under their keys; or, when the send fails, it has
    taken the oldest sample off the queue and sent nothing, so that
    sample is dropped, and the time of the last send is not moved. *)
Theorem sender_turn_fifo st t queue send_ok :
  let '(st', queue', out) := sender_turn st t queue send_ok in
  (queue' = queue /\ out = None /\ st' = st)
  \/ exists x,
      queue = x :: queue'
      /\ elapsed_ge t (last_sent_time st) min_interval = true
      /\ if send_ok
         then out = Some (format_data x) /\ last_sent_time st' = t
         else out = None /\ last_sent_time st' = last_sent_time st.
Proof.
  unfold sender_turn.
  destruct (elapsed_ge t (last_sent_time st) min_interval) eqn:Hdue;
    cbn [negb]; [|left; repeat split].
  destruct queue as [|x rest]; [left; repeat split|].
  destruct send_ok.
  - destruct (elapsed_ge t (last_log_time st) (Q2Qc 10));
      right; exists x; repeat split.
  - right. exists x. repeat split.
Qed.

End Schema.
